(** * libvirt-override.c: typed-parameter codec and event bridge

    A shallow embedding of the hand-written part of the libvirt Python
    binding: the conversion between libvirt's [virTypedParameter] arrays
    and Python dictionaries, the scheduler-parameter entry points built on
    it, the registration of a Python event loop and the callbacks through
    which libvirt re-enters the interpreter; further the schema-free
    dictionary encoder, the CPU affinity maps of the pinning entry points
    and the key-code array of [virDomainSendKey].

    Conventions of the embedding.
    - C integers are [Z] with their ranges and conversions written out.
    - A [PyObject *] that may be NULL with the error indicator set is a
      value of [res]: [Ok v], [Raise e], or [Undef] when the C code would
      read memory it must not read.
    - Where the code asks [PyErr_Occurred] the error indicator is a state
      of its own, handed from call to call: what was set and not cleared
      is still there.
    - Native memory is an allocator state threaded through the code: the
      blocks handed out and not yet freed, and the memory errors made.
    - The functions of the CPython C API and of libvirt are modelled as
      their documentation describes them, as far as the code uses them.
    - The branches of the source for [PY_MAJOR_VERSION > 2] are followed;
      a dictionary is enumerated in insertion order and the text of a
      string is taken as it is (no encoding errors).
    - Object and buffer creation is taken to succeed: the out-of-memory
      returns of the source ([PyDict_New], [VIR_ALLOC_N], [strdup]) are
      outside the model. *)

From Stdlib Require Import ZArith List String Ascii Bool Lia DecimalString Floats
  Permutation.
Import ListNotations.

Set Warnings "-register-all".

Local Open Scope string_scope.
Local Open Scope Z_scope.

(* ------------------------------------------------------------------ *)
(** ** C scalar types *)

Module CTypes.

Definition INT_MIN : Z := - 2 ^ 31.
Definition INT_MAX : Z := 2 ^ 31 - 1.
Definition UINT_MAX : Z := 2 ^ 32 - 1.
Definition LONG_MIN : Z := - 2 ^ 63.
Definition LONG_MAX : Z := 2 ^ 63 - 1.
Definition LLONG_MIN : Z := - 2 ^ 63.
Definition LLONG_MAX : Z := 2 ^ 63 - 1.
Definition ULLONG_MAX : Z := 2 ^ 64 - 1.

Definition in_range (lo hi z : Z) : bool := (lo <=? z) && (z <=? hi).

(** Conversion of an integer value to [int]: reduction modulo 2^32 into
    the signed range, which is what an [unsigned int] argument undergoes
    when it is passed to a parameter declared [int]. *)
Definition to_int (z : Z) : Z := (z + 2 ^ 31) mod 2 ^ 32 - 2 ^ 31.

(** A [char *]: address and the NUL-terminated text found there.
    Address 0 is NULL. *)
Definition ptr := nat.
Definition NULL : ptr := 0%nat.

(** The text of a C string stops at the first NUL byte. *)
Fixpoint c_str (s : string) : string :=
  match s with
  | EmptyString => EmptyString
  | String c rest =>
      if Ascii.eqb c Ascii.zero then EmptyString else String c (c_str rest)
  end.

(** [strncpy(dst, src, n)] into a zero-filled destination. *)
Fixpoint strncpy (src : string) (n : nat) : string :=
  match n, src with
  | O, _ => EmptyString
  | _, EmptyString => EmptyString
  | S n', String c rest => String c (strncpy rest n')
  end.

Definition dq : string := String (ascii_of_nat 34) EmptyString.
Definition quoted (s : string) : string := dq ++ s ++ dq.

(** [printf]'s [%d]. *)
Definition fmt_d (z : Z) : string := NilZero.string_of_int (Z.to_int z).

End CTypes.
Export CTypes.

(* ------------------------------------------------------------------ *)
(** ** The interpreter: objects, exceptions and the C API used *)

Module Py.

Definition double := float.

Inductive pyobj : Type :=
| PyNone
| PyBool (b : bool)
| PyLong (v : Z)
| PyFloat (d : double)
| PyStr (s : string)
| PyList (l : list pyobj)
| PyTuple (l : list pyobj)
| PyDict (items : list (pyobj * pyobj))
| PyCapsule (name : string) (p : ptr)
| PyFunc (id : nat)
| PyObj (id : nat).

Inductive exc_class : Type :=
| PyExc_LookupError | PyExc_TypeError | PyExc_OverflowError
| PyExc_SystemError | PyExc_AttributeError | PyExc_RuntimeError.

Record pyerr : Type := PyErr_Format { exc : exc_class; msg : string }.

(** Outcome of a C function that returns an object or NULL with the error
    indicator set.  [Undef] marks undefined behaviour of the C code. *)
Inductive res (A : Type) : Type :=
| Ok (a : A)
| Raise (e : pyerr)
| Undef.
Arguments Ok {A} a.
Arguments Raise {A} e.
Arguments Undef {A}.

Definition bind {A B} (r : res A) (k : A -> res B) : res B :=
  match r with
  | Ok a => k a
  | Raise e => Raise e
  | Undef => Undef
  end.

Definition is_ok {A} (r : res A) : bool :=
  match r with Ok _ => true | _ => false end.

(** Key comparison of dictionaries.  Structural; the cross-type numeric
    equalities of Python (1 == True == 1.0) are left out, the code under
    study creates and looks up string keys only. *)
Fixpoint py_eqb (a b : pyobj) {struct a} : bool :=
  match a, b with
  | PyNone, PyNone => true
  | PyBool x, PyBool y => Bool.eqb x y
  | PyLong x, PyLong y => Z.eqb x y
  | PyFloat x, PyFloat y => PrimFloat.eqb x y
  | PyStr x, PyStr y => String.eqb x y
  | PyTuple xs, PyTuple ys =>
      (fix all2 (xs ys : list pyobj) {struct xs} : bool :=
         match xs, ys with
         | [], [] => true
         | x :: xs', y :: ys' => py_eqb x y && all2 xs' ys'
         | _, _ => false
         end) xs ys
  | PyCapsule n p, PyCapsule m q => String.eqb n m && Nat.eqb p q
  | PyFunc i, PyFunc j => Nat.eqb i j
  | PyObj i, PyObj j => Nat.eqb i j
  | _, _ => false
  end.

Definition hashable (o : pyobj) : bool :=
  match o with
  | PyList _ | PyDict _ => false
  | _ => true
  end.

Definition PyDict_New : pyobj := PyDict [].

(** [PyDict_Size]: the number of items, or -1 with [SystemError] when the
    argument is no dictionary. *)
Definition PyDict_Size (o : pyobj) : res Z :=
  match o with
  | PyDict items => Ok (Z.of_nat (List.length items))
  | _ => Raise (PyErr_Format PyExc_SystemError "bad argument to internal function")
  end.

(** Items in the order [PyDict_Next] enumerates them, insertion order. *)
Definition dict_items (o : pyobj) : list (pyobj * pyobj) :=
  match o with PyDict items => items | _ => [] end.

Fixpoint assoc_set (k v : pyobj) (items : list (pyobj * pyobj))
  : list (pyobj * pyobj) :=
  match items with
  | [] => [(k, v)]
  | (k', v') :: rest =>
      if py_eqb k' k then (k', v) :: rest else (k', v') :: assoc_set k v rest
  end.

Fixpoint assoc_get (k : pyobj) (items : list (pyobj * pyobj)) : option pyobj :=
  match items with
  | [] => None
  | (k', v') :: rest => if py_eqb k' k then Some v' else assoc_get k rest
  end.

Definition PyDict_SetItem (d k v : pyobj) : res pyobj :=
  match d with
  | PyDict items =>
      if hashable k then Ok (PyDict (assoc_set k v items))
      else Raise (PyErr_Format PyExc_TypeError "unhashable type")
  | _ => Raise (PyErr_Format PyExc_SystemError "bad argument to internal function")
  end.

(** [PyDict_GetItem] returns NULL without an exception when the key is
    absent or the first argument is no dictionary. *)
Definition PyDict_GetItem (d k : pyobj) : option pyobj :=
  match d with
  | PyDict items => assoc_get k items
  | _ => None
  end.

Definition PyUnicode_Check (o : pyobj) : bool :=
  match o with PyStr _ => true | _ => false end.
Definition PyBool_Check (o : pyobj) : bool :=
  match o with PyBool _ => true | _ => false end.
(** [bool] is a subclass of [int]. *)
Definition PyLong_Check (o : pyobj) : bool :=
  match o with PyLong _ | PyBool _ => true | _ => false end.
Definition PyFloat_Check (o : pyobj) : bool :=
  match o with PyFloat _ => true | _ => false end.
Definition PyCallable_Check (o : pyobj) : bool :=
  match o with PyFunc _ => true | _ => false end.

Definition int_value (o : pyobj) : option Z :=
  match o with
  | PyLong v => Some v
  | PyBool b => Some (Z.b2z b)
  | _ => None
  end.

Definition overflow (what : string) : pyerr :=
  PyErr_Format PyExc_OverflowError what.
Definition not_an_int : pyerr :=
  PyErr_Format PyExc_TypeError "an integer is required".

Definition PyLong_AsLong (o : pyobj) : res Z :=
  match int_value o with
  | Some v =>
      if in_range LONG_MIN LONG_MAX v then Ok v
      else Raise (overflow "Python int too large to convert to C long")
  | None => Raise not_an_int
  end.

Definition PyLong_AsLongLong (o : pyobj) : res Z :=
  match int_value o with
  | Some v =>
      if in_range LLONG_MIN LLONG_MAX v then Ok v
      else Raise (overflow "int too big to convert")
  | None => Raise not_an_int
  end.

(** Fails with [OverflowError] on a negative value and on a value above
    [ULLONG_MAX] alike. *)
Definition PyLong_AsUnsignedLongLong (o : pyobj) : res Z :=
  match int_value o with
  | Some v =>
      if v <? 0 then
        Raise (overflow "can't convert negative int to unsigned")
      else if v <=? ULLONG_MAX then Ok v
      else Raise (overflow "int too big to convert")
  | None => Raise not_an_int
  end.

Definition float_of_Z (z : Z) : double :=
  SF2Prim (binary_normalize prec emax z 0 false).

Definition PyFloat_AsDouble (o : pyobj) : res double :=
  match o with
  | PyFloat d => Ok d
  | PyLong _ | PyBool _ =>
      match int_value o with
      | Some v =>
          if is_infinity (float_of_Z v) then
            Raise (overflow "int too large to convert to float")
          else Ok (float_of_Z v)
      | None => Raise not_an_int
      end
  | _ => Raise (PyErr_Format PyExc_TypeError "must be real number")
  end.

(** Truth value of the built-in types; other objects are true. *)
Definition PyObject_IsTrue (o : pyobj) : bool :=
  match o with
  | PyNone => false
  | PyBool b => b
  | PyLong v => negb (v =? 0)
  | PyFloat d => negb (PrimFloat.eqb d zero)
  | PyStr s => negb (String.eqb s EmptyString)
  | PyList l | PyTuple l => negb (Nat.eqb (List.length l) 0)
  | PyDict l => negb (Nat.eqb (List.length l) 0)
  | _ => true
  end.

(** The error indicator of the interpreter thread: the exception that
    was set and has not been cleared since. *)
Definition indicator : Type := option pyerr.

Definition PyErr_Occurred (ind : indicator) : bool :=
  match ind with Some _ => true | None => false end.

(** A conversion function of the C API as its caller sees it, the
    indicator being [ind] before the call: on success the value, and the
    indicator is not touched; on failure the value [sentinel] that the
    function returns then, and its exception takes the place of the one
    in the indicator. *)
Definition c_value {A} (sentinel : A) (r : res A) (ind : indicator)
  : A * indicator :=
  match r with
  | Ok v => (v, ind)
  | Raise e => (sentinel, Some e)
  | Undef => (sentinel, ind)
  end.

(** A function that tells its failure by its return value alone. *)
Definition c_status {A} (r : res A) (ind : indicator) : option A * indicator :=
  match r with
  | Ok v => (Some v, ind)
  | Raise e => (None, Some e)
  | Undef => (None, ind)
  end.

End Py.
Export Py.

Notation "x <- r ;; k" := (bind r (fun x => k))
  (at level 61, r at next level, right associativity).

(* ------------------------------------------------------------------ *)
(** ** Native memory *)

Module Mem.

Inductive fault : Type :=
| InvalidFree (p : ptr)
| OutOfBounds (base : ptr) (index : nat)
| WrongMember (base : ptr) (index : nat).

(** The allocator: the next fresh address, the blocks handed out and not
    yet freed, and the memory errors committed so far. *)
Record heap : Type := mkHeap {
  next_addr : ptr;
  live : list ptr;
  faults : list fault
}.

Definition empty_heap : heap := mkHeap 1%nat [] [].

Definition malloc (h : heap) : ptr * heap :=
  (next_addr h, mkHeap (S (next_addr h)) (next_addr h :: live h) (faults h)).

Fixpoint remove_one (p : ptr) (l : list ptr) : list ptr :=
  match l with
  | [] => []
  | q :: rest => if Nat.eqb q p then rest else q :: remove_one p rest
  end.

Definition add_fault (f : fault) (h : heap) : heap :=
  mkHeap (next_addr h) (live h) (faults h ++ [f])%list.

(** [free(p)], and libvirt's [VIR_FREE]: nothing on NULL. *)
Definition free (p : ptr) (h : heap) : heap :=
  if Nat.eqb p NULL then h
  else if existsb (Nat.eqb p) (live h)
       then mkHeap (next_addr h) (remove_one p (live h)) (faults h)
       else add_fault (InvalidFree p) h.

Definition VIR_FREE := free.

(** A C string in native memory. *)
Record cstr : Type := mkCstr { addr : ptr; text : string }.

Definition strdup (s : string) (h : heap) : cstr * heap :=
  let (p, h') := malloc h in (mkCstr p (c_str s), h').

(** Every live block was handed out by the allocator, once. *)
Definition heap_ok (h : heap) : Prop :=
  (0 < next_addr h)%nat /\
  NoDup (live h) /\
  Forall (fun p => (0 < p < next_addr h)%nat) (live h).

End Mem.
Export Mem.

(* ------------------------------------------------------------------ *)
(** ** libvirt: typed parameters *)

Module Libvirt.

(** [virTypedParameterType], from libvirt's public header. *)
Definition VIR_TYPED_PARAM_INT : Z := 1.
Definition VIR_TYPED_PARAM_UINT : Z := 2.
Definition VIR_TYPED_PARAM_LLONG : Z := 3.
Definition VIR_TYPED_PARAM_ULLONG : Z := 4.
Definition VIR_TYPED_PARAM_DOUBLE : Z := 5.
Definition VIR_TYPED_PARAM_BOOLEAN : Z := 6.
Definition VIR_TYPED_PARAM_STRING : Z := 7.
Definition VIR_TYPED_PARAM_LAST : Z := 8.
Definition VIR_TYPED_PARAM_FIELD_LENGTH : nat := 80.

(** The union [value] of a [virTypedParameter], by the member last
    stored; [U_zero] is the all-zero union of a freshly [calloc]ed entry,
    which reads as 0 or NULL through every member. *)
Inductive value_u : Type :=
| U_zero
| U_i (i : Z)
| U_ui (ui : Z)
| U_l (l : Z)
| U_ul (ul : Z)
| U_d (d : double)
| U_b (b : Z)
| U_s (s : cstr).

Record virTypedParameter : Type := mkParam {
  field : string;
  type : Z;
  value : value_u
}.

Definition read_i (v : value_u) : option Z :=
  match v with U_i i => Some i | U_zero => Some 0 | _ => None end.
Definition read_ui (v : value_u) : option Z :=
  match v with U_ui i => Some i | U_zero => Some 0 | _ => None end.
Definition read_l (v : value_u) : option Z :=
  match v with U_l i => Some i | U_zero => Some 0 | _ => None end.
Definition read_ul (v : value_u) : option Z :=
  match v with U_ul i => Some i | U_zero => Some 0 | _ => None end.
Definition read_d (v : value_u) : option double :=
  match v with U_d d => Some d | U_zero => Some zero | _ => None end.
Definition read_b (v : value_u) : option Z :=
  match v with U_b b => Some b | U_zero => Some 0 | _ => None end.
Definition read_s (v : value_u) : option cstr :=
  match v with
  | U_s s => Some s
  | U_zero => Some (mkCstr NULL EmptyString)
  | _ => None
  end.

(** An array of typed parameters in native memory: where it starts and
    the entries it was allocated with. *)
Record c_array : Type := mkArray {
  base : ptr;
  elems : list virTypedParameter
}.

Definition zero_param : virTypedParameter := mkParam EmptyString 0 U_zero.

(** [VIR_ALLOC_N(ret, n)]: [n] zero-filled entries. *)
Definition VIR_ALLOC_N (n : Z) (h : heap) : c_array * heap :=
  let (p, h') := malloc h in
  (mkArray p (repeat zero_param (Z.to_nat n)), h').

Definition clear_entry (b : ptr) (h : heap) (ip : nat * virTypedParameter) : heap :=
  let (i, p) := ip in
  if type p =? VIR_TYPED_PARAM_STRING then
    match read_s (value p) with
    | Some s => VIR_FREE (addr s) h
    | None => add_fault (WrongMember b i) h
    end
  else h.

Fixpoint enumerate {A} (i : nat) (l : list A) : list (nat * A) :=
  match l with
  | [] => []
  | x :: rest => (i, x) :: enumerate (S i) rest
  end.

(** [virTypedParamsClear(params, nparams)]: frees the string of each of
    the first [nparams] entries whose type is STRING.  Walking past the
    end of the allocation is recorded as a fault. *)
Definition virTypedParamsClear (a : c_array) (nparams : Z) (h : heap) : heap :=
  let n := Z.to_nat nparams in
  let h1 := fold_left (clear_entry (base a)) (enumerate 0 (firstn n (elems a))) h in
  if Nat.ltb (List.length (elems a)) n
  then add_fault (OutOfBounds (base a) (List.length (elems a))) h1
  else h1.

(** [virTypedParamsFree(params, nparams)]: clear, then free the array;
    nothing on NULL. *)
Definition virTypedParamsFree (a : option c_array) (nparams : Z) (h : heap) : heap :=
  match a with
  | None => h
  | Some arr => VIR_FREE (base arr) (virTypedParamsClear arr nparams h)
  end.

(** [array[i] = f(array[i])]. *)
Fixpoint update_nth {A} (i : nat) (f : A -> A) (l : list A) : list A :=
  match l, i with
  | [], _ => []
  | x :: rest, O => f x :: rest
  | x :: rest, S i' => x :: update_nth i' f rest
  end.

Definition store (a : c_array) (i : nat) (f : virTypedParameter -> virTypedParameter)
  : c_array :=
  mkArray (base a) (update_nth i f (elems a)).

End Libvirt.
Export Libvirt.

(* ------------------------------------------------------------------ *)
(** ** typewrappers: conversions between C scalars and objects *)

Module Wrap.

(** Modelled from the spec: [libvirt_intWrap], defined in typewrappers.c
    and not in libvirt-override.c.  Its parameter is a C [int]; the
    numeric host value holds that [int]. *)
Definition libvirt_intWrap (val : Z) : pyobj := PyLong val.

(** Modelled from the spec: [libvirt_uintWrap] of typewrappers.c, the
    unsigned counterpart of [libvirt_intWrap]. *)
Definition libvirt_uintWrap (val : Z) : pyobj := PyLong val.

(** Modelled from the spec: [libvirt_longlongWrap] of typewrappers.c; a
    64-bit signed integer becomes a numeric host value. *)
Definition libvirt_longlongWrap (val : Z) : pyobj := PyLong val.

(** Modelled from the spec: [libvirt_ulonglongWrap] of typewrappers.c; a
    64-bit unsigned integer becomes a numeric host value. *)
Definition libvirt_ulonglongWrap (val : Z) : pyobj := PyLong val.

(** Modelled from the spec: [libvirt_constcharPtrWrap] of typewrappers.c;
    a host string built from a copy of the native buffer, [None] for a
    NULL pointer. *)
Definition libvirt_constcharPtrWrap (s : option string) : pyobj :=
  match s with
  | Some t => PyStr t
  | None => PyNone
  end.

(** The macros [VIR_PY_INT_FAIL] and [VIR_PY_INT_SUCCESS]. *)
Definition VIR_PY_INT_FAIL : pyobj := libvirt_intWrap (-1).
Definition VIR_PY_INT_SUCCESS : pyobj := libvirt_intWrap 0.

Definition PyFloat_FromDouble (d : double) : pyobj := PyFloat d.
Definition PyBool_FromLong (v : Z) : pyobj := PyBool (negb (v =? 0)).

(** Modelled from the spec: [libvirt_intUnwrap] of typewrappers.c; fails
    on a wrong host type and on a value outside [int]. *)
Definition libvirt_intUnwrap (obj : pyobj) : res Z :=
  v <- PyLong_AsLong obj ;;
  if in_range INT_MIN INT_MAX v then Ok v
  else Raise (overflow "Python int too large to convert to C int").

(** Modelled from the spec: [libvirt_uintUnwrap] of typewrappers.c; fails
    on a wrong host type and on a value outside [unsigned int]. *)
Definition libvirt_uintUnwrap (obj : pyobj) : res Z :=
  v <- PyLong_AsLong obj ;;
  if in_range 0 UINT_MAX v then Ok v
  else Raise (overflow "Python int too large to convert to C unsigned int").

(** Modelled from the spec: [libvirt_longlongUnwrap] of typewrappers.c. *)
Definition libvirt_longlongUnwrap (obj : pyobj) : res Z :=
  if PyLong_Check obj then PyLong_AsLongLong obj else Raise not_an_int.

(** Modelled from the spec: [libvirt_ulonglongUnwrap] of typewrappers.c. *)
Definition libvirt_ulonglongUnwrap (obj : pyobj) : res Z :=
  if PyLong_Check obj then PyLong_AsUnsignedLongLong obj else Raise not_an_int.

(** Modelled from the spec: [libvirt_doubleUnwrap] of typewrappers.c. *)
Definition libvirt_doubleUnwrap (obj : pyobj) : res double :=
  PyFloat_AsDouble obj.

(** Modelled from the spec: [libvirt_boolUnwrap] of typewrappers.c; the
    truth value of the object. *)
Definition libvirt_boolUnwrap (obj : pyobj) : res bool :=
  Ok (PyObject_IsTrue obj).

(** Modelled from the spec: [libvirt_charPtrUnwrap] of typewrappers.c; a
    fresh copy of the text of a host string, which the caller owns; fails
    when the object is not a string. *)
Definition libvirt_charPtrUnwrap (obj : pyobj) (h : heap) : res cstr * heap :=
  match obj with
  | PyStr s => let (c, h') := strdup s h in (Ok c, h')
  | _ => (Raise (PyErr_Format PyExc_TypeError "bad argument type for built-in operation"), h)
  end.

(** *** The unwrappers and the error indicator *)

(** The test [(val == -1) && PyErr_Occurred()] by which an unwrapper
    tells a failed conversion from a converted value.  It reads the
    indicator whoever set it. *)
Definition conversion_failed (is_sentinel : bool) (ind : indicator) : bool :=
  is_sentinel && PyErr_Occurred ind.

(** Modelled from the spec: [libvirt_intUnwrap] of typewrappers.c as its
    caller sees it, the indicator being [ind] before the call: the value
    stored through [val], or nothing for the return value -1, and the
    indicator after the call. *)
Definition libvirt_intUnwrap_ind (obj : pyobj) (ind : indicator)
  : option Z * indicator :=
  let (long_val, ind1) := c_value (-1) (PyLong_AsLong obj) ind in
  if conversion_failed (long_val =? -1) ind1 then (None, ind1)
  else if in_range INT_MIN INT_MAX long_val then (Some long_val, ind1)
  else (None, Some (overflow "Python int too large to convert to C int")).

(** Modelled from the spec: [libvirt_uintUnwrap] of typewrappers.c, with
    the indicator. *)
Definition libvirt_uintUnwrap_ind (obj : pyobj) (ind : indicator)
  : option Z * indicator :=
  let (long_val, ind1) := c_value (-1) (PyLong_AsLong obj) ind in
  if conversion_failed (long_val =? -1) ind1 then (None, ind1)
  else if in_range 0 UINT_MAX long_val then (Some long_val, ind1)
  else (None, Some (overflow "Python int too large to convert to C unsigned int")).

(** Modelled from the spec: [libvirt_longlongUnwrap] of typewrappers.c,
    with the indicator. *)
Definition libvirt_longlongUnwrap_ind (obj : pyobj) (ind : indicator)
  : option Z * indicator :=
  let (llong_val, ind1) :=
    if PyLong_Check obj then c_value (-1) (PyLong_AsLongLong obj) ind
    else (-1, Some not_an_int) in
  if conversion_failed (llong_val =? -1) ind1 then (None, ind1)
  else (Some llong_val, ind1).

(** Modelled from the spec: [libvirt_ulonglongUnwrap] of typewrappers.c,
    with the indicator; -1 is [ULLONG_MAX] in [unsigned long long]. *)
Definition libvirt_ulonglongUnwrap_ind (obj : pyobj) (ind : indicator)
  : option Z * indicator :=
  let (ullong_val, ind1) :=
    if PyLong_Check obj
    then c_value ULLONG_MAX (PyLong_AsUnsignedLongLong obj) ind
    else (ULLONG_MAX, Some not_an_int) in
  if conversion_failed (ullong_val =? ULLONG_MAX) ind1 then (None, ind1)
  else (Some ullong_val, ind1).

(** Modelled from the spec: [libvirt_doubleUnwrap] of typewrappers.c,
    with the indicator. *)
Definition libvirt_doubleUnwrap_ind (obj : pyobj) (ind : indicator)
  : option double * indicator :=
  let (double_val, ind1) := c_value (-1)%float (PyFloat_AsDouble obj) ind in
  if conversion_failed (PrimFloat.eqb double_val (-1)%float) ind1 then (None, ind1)
  else (Some double_val, ind1).

(** Modelled from the spec: [libvirt_boolUnwrap] of typewrappers.c, with
    the indicator; it fails when [PyObject_IsTrue] does and does not read
    the indicator. *)
Definition libvirt_boolUnwrap_ind (obj : pyobj) (ind : indicator)
  : option bool * indicator :=
  c_status (libvirt_boolUnwrap obj) ind.

End Wrap.
Export Wrap.

(* ------------------------------------------------------------------ *)
(** ** The typed-parameter codec *)

Module Codec.

Definition of_member {A} (o : option A) : res A :=
  match o with
  | Some a => Ok a
  | None => Undef
  end.

Definition unrecognized_type (t : Z) : pyerr :=
  PyErr_Format PyExc_LookupError
    ("Type value " ++ quoted (fmt_d t) ++ " not recognized").

(** The [switch (params[i].type)] of [getPyVirTypedParameter]: the host
    value of one entry, or NULL with [LookupError] set. *)
Definition wrap_value (p : virTypedParameter) : res pyobj :=
  let t := type p in
  if t =? VIR_TYPED_PARAM_INT then
    i <- of_member (read_i (value p)) ;; Ok (libvirt_intWrap i)
  else if t =? VIR_TYPED_PARAM_UINT then
    ui <- of_member (read_ui (value p)) ;; Ok (libvirt_intWrap (to_int ui))
  else if t =? VIR_TYPED_PARAM_LLONG then
    l <- of_member (read_l (value p)) ;; Ok (libvirt_longlongWrap l)
  else if t =? VIR_TYPED_PARAM_ULLONG then
    ul <- of_member (read_ul (value p)) ;; Ok (libvirt_ulonglongWrap ul)
  else if t =? VIR_TYPED_PARAM_DOUBLE then
    d <- of_member (read_d (value p)) ;; Ok (PyFloat_FromDouble d)
  else if t =? VIR_TYPED_PARAM_BOOLEAN then
    b <- of_member (read_b (value p)) ;; Ok (PyBool_FromLong b)
  else if t =? VIR_TYPED_PARAM_STRING then
    s <- of_member (read_s (value p)) ;;
    Ok (libvirt_constcharPtrWrap
          (if Nat.eqb (addr s) NULL then None else Some (text s)))
  else Raise (unrecognized_type t).

(** The loop [for (i = 0; i < nparams; i++)] of [getPyVirTypedParameter]:
    [params] are the entries from index [i] on, [remaining] is
    [nparams - i] and [info] the dictionary built so far.  Reading past
    the end of the array is undefined. *)
Fixpoint get_loop (params : list virTypedParameter) (remaining : Z) (info : pyobj)
  : res pyobj :=
  if remaining <=? 0 then Ok info
  else
    match params with
    | [] => Undef
    | p :: rest =>
        val <- wrap_value p ;;
        info' <- PyDict_SetItem info (libvirt_constcharPtrWrap (Some (field p))) val ;;
        get_loop rest (remaining - 1) info'
    end.

(** The comparison [i < nparams] is made in [size_t]: a negative [int]
    count becomes a count near 2^64. *)
Definition as_size_t (nparams : Z) : Z :=
  if nparams <? 0 then nparams + 2 ^ 64 else nparams.

(** [getPyVirTypedParameter(params, nparams)]. *)
Definition getPyVirTypedParameter (params : list virTypedParameter) (nparams : Z)
  : res pyobj :=
  get_loop params (as_size_t nparams) PyDict_New.

(** The search [for (i = 0; i < nparams; i++) if (STREQ(...)) break;]:
    the entry found, or nothing when [i == nparams]. *)
Fixpoint find_field (params : list virTypedParameter) (remaining : Z)
    (keystr : string) : res (option virTypedParameter) :=
  if remaining <=? 0 then Ok None
  else
    match params with
    | [] => Undef
    | p :: rest =>
        if String.eqb (field p) keystr then Ok (Some p)
        else find_field rest (remaining - 1) keystr
    end.

Definition unrecognized_name (keystr : string) : pyerr :=
  PyErr_Format PyExc_LookupError
    ("Attribute name " ++ quoted keystr ++ " could not be recognized").

(** The [switch (params[i].type)] of [setPyVirTypedParameter]: the member
    stored into [temp->value]. *)
Definition unwrap_value (t : Z) (v : pyobj) (h : heap) : res value_u * heap :=
  if t =? VIR_TYPED_PARAM_INT then (i <- libvirt_intUnwrap v ;; Ok (U_i i), h)
  else if t =? VIR_TYPED_PARAM_UINT then (i <- libvirt_uintUnwrap v ;; Ok (U_ui i), h)
  else if t =? VIR_TYPED_PARAM_LLONG then (i <- libvirt_longlongUnwrap v ;; Ok (U_l i), h)
  else if t =? VIR_TYPED_PARAM_ULLONG then (i <- libvirt_ulonglongUnwrap v ;; Ok (U_ul i), h)
  else if t =? VIR_TYPED_PARAM_DOUBLE then (d <- libvirt_doubleUnwrap v ;; Ok (U_d d), h)
  else if t =? VIR_TYPED_PARAM_BOOLEAN then
    (b <- libvirt_boolUnwrap v ;; Ok (U_b (Z.b2z b)), h)
  else if t =? VIR_TYPED_PARAM_STRING then
    match libvirt_charPtrUnwrap v h with
    | (Ok s, h') => (Ok (U_s s), h')
    | (Raise e, h') => (Raise e, h')
    | (Undef, h') => (Undef, h')
    end
  else (Raise (unrecognized_type t), h).

Definition set_name_type (keystr : string) (t : Z) (e : virTypedParameter)
  : virTypedParameter :=
  mkParam (strncpy keystr (VIR_TYPED_PARAM_FIELD_LENGTH - 1)) t (value e).

Definition set_value (v : value_u) (e : virTypedParameter) : virTypedParameter :=
  mkParam (field e) (type e) v.

(** The [while (PyDict_Next(...))] loop of [setPyVirTypedParameter].
    [ret] is the array allocated for [size] entries and [temp] the index
    of the entry being filled; every [goto cleanup] frees [ret] with
    [size]. *)
Fixpoint set_loop (items : list (pyobj * pyobj)) (params : list virTypedParameter)
    (nparams : Z) (size : Z) (ret : c_array) (temp : nat) (h : heap)
  : res c_array * heap :=
  match items with
  | [] => (Ok ret, h)
  | (key, val) :: rest =>
      match libvirt_charPtrUnwrap key h with
      | (Ok keystr, h1) =>
          match find_field params (as_size_t nparams) (text keystr) with
          | Ok None =>
              let h2 := VIR_FREE (addr keystr) h1 in
              (Raise (unrecognized_name (text keystr)),
               virTypedParamsFree (Some ret) size h2)
          | Ok (Some sch) =>
              let ret1 := store ret temp (set_name_type (text keystr) (type sch)) in
              let h2 := VIR_FREE (addr keystr) h1 in
              match unwrap_value (type sch) val h2 with
              | (Ok v, h3) =>
                  set_loop rest params nparams size
                           (store ret1 temp (set_value v)) (S temp) h3
              | (Raise e, h3) => (Raise e, virTypedParamsFree (Some ret1) size h3)
              | (Undef, h3) => (Undef, h3)
              end
          | _ => (Undef, h1)
          end
      | (Raise e, h1) => (Raise e, virTypedParamsFree (Some ret) size h1)
      | (Undef, h1) => (Undef, h1)
      end
  end.

Definition empty_dictionary : pyerr :=
  PyErr_Format PyExc_LookupError "Dictionary must not be empty".

(** [setPyVirTypedParameter(info, params, nparams)]. *)
Definition setPyVirTypedParameter (info : pyobj) (params : list virTypedParameter)
    (nparams : Z) (h : heap) : res c_array * heap :=
  match PyDict_Size info with
  | Ok size =>
      if size =? 0 then (Raise empty_dictionary, h)
      else
        let (ret, h1) := VIR_ALLOC_N size h in
        set_loop (dict_items info) params nparams size ret 0 h1
  | Raise e => (Raise e, h)
  | Undef => (Undef, h)
  end.

(** *** Encoding without a schema *)

Record virPyTypedParamsHint : Type := mkHint { name : string; hint_type : Z }.

(** The list under construction by [virTypedParamsAdd*]: entries, count
    and capacity. *)
Record builder : Type := mkBuilder {
  entries : list virTypedParameter;
  n : Z;
  max : Z
}.

(** libvirt's [virTypedParamsAdd<Type>]: appends one entry, growing the
    array when it is full; fails (-1, no host exception) when the name
    does not fit the [field] array. *)
Definition virTypedParamsAdd (b : builder) (keystr : string) (t : Z) (v : value_u)
  : option builder :=
  if Nat.leb VIR_TYPED_PARAM_FIELD_LENGTH (String.length keystr) then None
  else Some (mkBuilder (entries b ++ [mkParam keystr t v])%list (n b + 1)
                       (Z.max (max b) (n b + 1))).

(** The search of the hints: the type of the first hint whose name is
    [keystr], -1 when there is none. *)
Fixpoint lookup_hint (hints : list virPyTypedParamsHint) (keystr : string) : Z :=
  match hints with
  | [] => -1
  | hnt :: rest =>
      if String.eqb (name hnt) keystr then hint_type hnt
      else lookup_hint rest keystr
  end.

(** The chain of [if]s on the dynamic type of [value], the indicator
    being [ind] before it.  The sign of an integer is probed with
    [PyLong_AsUnsignedLongLong]; the test on its result reads the
    indicator, which the probe sets when it fails and which nothing in
    the function clears. *)
Definition infer_type (value : pyobj) (ind : indicator) : Z * indicator :=
  if PyUnicode_Check value then (VIR_TYPED_PARAM_STRING, ind)
  else if PyBool_Check value then (VIR_TYPED_PARAM_BOOLEAN, ind)
  else if PyLong_Check value then
    let (ull, ind1) := c_value ULLONG_MAX (PyLong_AsUnsignedLongLong value) ind in
    if (ull =? ULLONG_MAX) && PyErr_Occurred ind1
    then (VIR_TYPED_PARAM_LLONG, ind1)
    else (VIR_TYPED_PARAM_ULLONG, ind1)
  else if PyFloat_Check value then (VIR_TYPED_PARAM_DOUBLE, ind)
  else (-1, ind).

(** The value of the local [type] when the conversion [switch] is
    reached, and the indicator then. *)
Definition select_type (hints : list virPyTypedParamsHint) (keystr : string)
    (value : pyobj) (ind : indicator) : Z * indicator :=
  let t := lookup_hint hints keystr in
  if t =? -1 then infer_type value ind else (t, ind).

Definition unknown_field_type (keystr : string) : pyerr :=
  PyErr_Format PyExc_TypeError
    ("Unknown type of " ++ quoted keystr ++ " field").

(** What a call of [virPyDictToTypedParamOne] leaves behind: the return
    value, the error indicator, the list and native memory. *)
Record one_result : Type := mkOne {
  rv : Z;
  raised : indicator;
  params' : builder;
  heap' : heap
}.

(** The member of the union an unwrapped value is stored in. *)
Definition as_member {A} (member : A -> value_u) (r : option A * indicator)
  : option value_u * indicator :=
  (option_map member (fst r), snd r).

Definition add_scalar (b : builder) (keystr : string) (t : Z)
    (r : option value_u * indicator) (h : heap) : one_result :=
  match r with
  | (Some v, ind) =>
      match virTypedParamsAdd b keystr t v with
      | Some b' => mkOne 0 ind b' h
      | None => mkOne (-1) ind b h
      end
  | (None, ind) => mkOne (-1) ind b h
  end.

(** [virPyDictToTypedParamOne(params, n, max, hints, nhints, keystr,
    value)], the indicator being [ind0] before the call. *)
Definition virPyDictToTypedParamOne (b : builder) (hints : list virPyTypedParamsHint)
    (keystr : string) (value : pyobj) (ind0 : indicator) (h : heap) : one_result :=
  let (t, ind) := select_type hints keystr value ind0 in
  if t =? -1 then mkOne (-1) (Some (unknown_field_type keystr)) b h
  else if t =? VIR_TYPED_PARAM_INT then
    add_scalar b keystr t (as_member U_i (libvirt_intUnwrap_ind value ind)) h
  else if t =? VIR_TYPED_PARAM_UINT then
    add_scalar b keystr t (as_member U_ui (libvirt_uintUnwrap_ind value ind)) h
  else if t =? VIR_TYPED_PARAM_LLONG then
    add_scalar b keystr t (as_member U_l (libvirt_longlongUnwrap_ind value ind)) h
  else if t =? VIR_TYPED_PARAM_ULLONG then
    add_scalar b keystr t (as_member U_ul (libvirt_ulonglongUnwrap_ind value ind)) h
  else if t =? VIR_TYPED_PARAM_DOUBLE then
    add_scalar b keystr t (as_member U_d (libvirt_doubleUnwrap_ind value ind)) h
  else if t =? VIR_TYPED_PARAM_BOOLEAN then
    add_scalar b keystr t
      (as_member (fun x => U_b (Z.b2z x)) (libvirt_boolUnwrap_ind value ind)) h
  else if t =? VIR_TYPED_PARAM_STRING then
    match libvirt_charPtrUnwrap value h with
    | (Ok val, h1) =>
        (* virTypedParamsAddString copies [val]; the copy made by the
           unwrapper is freed on both branches *)
        let (copy, h2) := strdup (text val) h1 in
        match virTypedParamsAdd b keystr t (U_s copy) with
        | Some b' => mkOne 0 ind b' (VIR_FREE (addr val) h2)
        | None => mkOne (-1) ind b (VIR_FREE (addr val) (VIR_FREE (addr copy) h2))
        end
    | (Raise e, h1) => mkOne (-1) (Some e) b h1
    | (Undef, h1) => mkOne (-1) ind b h1
    end
  else mkOne 0 ind b h.

End Codec.
Export Codec.

(* ------------------------------------------------------------------ *)
(** ** Scheduler parameters: the read-then-patch entry points *)

Module Sched.

(** The domain as libvirt answers for it. *)
Record native_domain : Type := mkDomain {
  (** [virDomainGetSchedulerType]: the scheduler name and [*nparams], or
      NULL. *)
  sched_type : option (string * Z);
  (** [virDomainGetSchedulerParameters]: the current parameters, or a
      negative return. *)
  sched_params : option (list virTypedParameter);
  (** What [virDomainSetSchedulerParameters(Flags)] returns for an array
      and a count. *)
  set_result : list virTypedParameter -> Z -> Z
}.

(** Calls into libvirt, in program order. *)
Inductive call : Type :=
| GetSchedulerType
| GetSchedulerParameters (capacity : Z)
| SetSchedulerParameters (arr : c_array) (nparams : Z)
| SetSchedulerParametersFlags (arr : c_array) (nparams : Z) (flags : Z)
| TypedParamsFree (arr : option c_array) (nparams : Z).

Record run : Type := mkRun {
  result : res pyobj;
  final : heap;
  calls : list call
}.

Definition need_non_empty : pyerr :=
  PyErr_Format PyExc_LookupError "Need non-empty dictionary to set attributes".
Definition no_settable : pyerr :=
  PyErr_Format PyExc_LookupError "Domain has no settable attributes".
Definition bad_arguments : pyerr :=
  PyErr_Format PyExc_TypeError "function takes exactly the arguments of its format".

(** libvirt hands out the strings of the entries it writes; the caller
    owns them. *)
Fixpoint fill (src : list virTypedParameter) (h : heap)
  : list virTypedParameter * heap :=
  match src with
  | [] => ([], h)
  | p :: rest =>
      let (p', h1) :=
        match value p with
        | U_s s => let (c, h') := strdup (text s) h in
                   (mkParam (field p) (type p) (U_s c), h')
        | _ => (p, h)
        end in
      let (rest', h2) := fill rest h1 in
      (p' :: rest', h2)
  end.

(** [virDomainGetSchedulerParameters(domain, params, &nparams)]: at most
    [nparams] entries are written and [nparams] becomes their number. *)
Definition virDomainGetSchedulerParameters (dom : native_domain) (params : c_array)
    (nparams : Z) (h : heap) : Z * c_array * Z * heap :=
  match sched_params dom with
  | None => (-1, params, nparams, h)
  | Some src =>
      let k := Z.to_nat nparams in
      let (written, h') := fill (firstn k src) h in
      (0,
       mkArray (base params) (written ++ skipn (List.length written) (elems params))%list,
       Z.of_nat (List.length written),
       h')
  end.

(** The two [virTypedParamsFree] calls under the label [cleanup]. *)
Definition cleanup (r : res pyobj) (params : option c_array) (n1 : Z)
    (new_params : option c_array) (n2 : Z) (h : heap) (log : list call) : run :=
  let h1 := virTypedParamsFree params n1 h in
  let h2 := virTypedParamsFree new_params n2 h1 in
  mkRun r h2 (log ++ [TypedParamsFree params n1; TypedParamsFree new_params n2])%list.

(** The body shared by the two setters, after the arguments are parsed.
    [set_call] is the native setter with its log entry and [override_count]
    the count given to the second [virTypedParamsFree]. *)
Definition set_scheduler_parameters
    (set_call : c_array -> Z -> call)
    (override_count : Z -> Z -> Z)
    (dom : native_domain) (info : pyobj) (h : heap) : run :=
  match PyDict_Size info with
  | Ok size =>
      if size =? 0 then mkRun (Raise need_non_empty) h []
      else
        match sched_type dom with
        | None => mkRun (Ok VIR_PY_INT_FAIL) h [GetSchedulerType]
        | Some (c_retval, nparams) =>
            let (c, h0) := strdup c_retval h in
            let h1 := VIR_FREE (addr c) h0 in
            if nparams =? 0 then mkRun (Raise no_settable) h1 [GetSchedulerType]
            else
              let (params, h2) := VIR_ALLOC_N nparams h1 in
              let log := [GetSchedulerType; GetSchedulerParameters nparams] in
              let '(i_retval, params, nparams, h3) :=
                virDomainGetSchedulerParameters dom params nparams h2 in
              if i_retval <? 0 then
                cleanup (Ok VIR_PY_INT_FAIL) (Some params) nparams None
                        (override_count size nparams) h3 log
              else
                match setPyVirTypedParameter info (elems params) nparams h3 with
                | (Ok new_params, h4) =>
                    let i_retval := set_result dom (elems new_params) size in
                    cleanup (if i_retval <? 0 then Ok VIR_PY_INT_FAIL
                             else Ok VIR_PY_INT_SUCCESS)
                            (Some params) nparams (Some new_params)
                            (override_count size nparams) h4
                            (log ++ [set_call new_params size])%list
                | (Raise e, h4) =>
                    cleanup (Raise e) (Some params) nparams None
                            (override_count size nparams) h4 log
                | (Undef, h4) => mkRun Undef h4 log
                end
        end
  | Raise e => mkRun (Raise e) h []
  | Undef => mkRun Undef h []
  end.

(** [libvirt_virDomainSetSchedulerParameters]: its [cleanup] ends with
    [virTypedParamsFree(new_params, size)]. *)
Definition libvirt_virDomainSetSchedulerParameters (dom : native_domain)
    (args : pyobj) (h : heap) : run :=
  match args with
  | PyTuple [pyobj_domain; info] =>
      set_scheduler_parameters SetSchedulerParameters
        (fun size nparams => size) dom info h
  | _ => mkRun (Raise bad_arguments) h []
  end.

(** [libvirt_virDomainSetSchedulerParametersFlags]: its [cleanup] ends
    with [virTypedParamsFree(new_params, nparams)]. *)
Definition libvirt_virDomainSetSchedulerParametersFlags (dom : native_domain)
    (args : pyobj) (h : heap) : run :=
  match args with
  | PyTuple [pyobj_domain; info; pyobj_flags] =>
      match int_value pyobj_flags with
      | Some flags =>
          set_scheduler_parameters
            (fun arr size => SetSchedulerParametersFlags arr size (flags mod 2 ^ 32))
            (fun size nparams => nparams) dom info h
      | None => mkRun (Raise bad_arguments) h []
      end
  | _ => mkRun (Raise bad_arguments) h []
  end.

(** The release discipline: an array is freed with the number of entries
    it was allocated with. *)
Definition freed_with_own_length (c : call) : bool :=
  match c with
  | TypedParamsFree (Some arr) k => k =? Z.of_nat (List.length (elems arr))
  | _ => true
  end.

End Sched.
Export Sched.

(* ------------------------------------------------------------------ *)
(** ** The event bridge *)

Module EventImpl.

(** What a call into the interpreter comes back with. *)
Inductive call_outcome : Type :=
| Returned (v : pyobj)
| Raised (e : pyerr).

(** The host side: what calling a callable with arguments does. *)
Definition host := pyobj -> list pyobj -> call_outcome.

(** What the bridge does that is visible outside it: taking and leaving
    the interpreter's thread state, [PyErr_Print] (the traceback is written
    and the error indicator cleared), the [printf] of the DEBUG macro, the
    call of a release function [ff] on [opaque], and the reference taken
    on or dropped from a domain. *)
Inductive effect : Type :=
| EnsureThreadState
| ReleaseThreadState
| ErrPrint (e : pyerr)
| DebugPrint (s : string)
| FreeCallback (ff : ptr) (opaque : ptr)
| DomainRef (dom : ptr)
| DomainFree (dom : ptr)
| NetworkRef (net : ptr)
| NetworkFree (net : ptr).

(** [DEBUG(fmt, ...)]: [DEBUG_ERROR] is defined under [#if 0] only, so the
    macro expands to [do {} while (0)]. *)
Definition DEBUG_ERROR : bool := false.
Definition DEBUG (s : string) : list effect :=
  if DEBUG_ERROR then [DebugPrint s] else [].

(** References the module owns: one entry per [Py_INCREF] not yet undone
    by a [Py_DECREF]; a [Py_DECREF] of a reference the module does not own
    is kept in [stolen]. *)
Record ledger : Type := mkLedger {
  held : list pyobj;
  stolen : list pyobj
}.

Fixpoint remove_ref (o : pyobj) (l : list pyobj) : option (list pyobj) :=
  match l with
  | [] => None
  | x :: rest =>
      if py_eqb x o then Some rest
      else match remove_ref o rest with
           | Some rest' => Some (x :: rest')
           | None => None
           end
  end.

Definition Py_INCREF (o : pyobj) (l : ledger) : ledger :=
  mkLedger (o :: held l) (stolen l).

Definition Py_DECREF (o : pyobj) (l : ledger) : ledger :=
  match remove_ref o (held l) with
  | Some rest => mkLedger rest (stolen l)
  | None => mkLedger (held l) (o :: stolen l)
  end.

Definition Py_XDECREF (o : option pyobj) (l : ledger) : ledger :=
  match o with
  | Some x => Py_DECREF x l
  | None => l
  end.

(** The static variables of the section "Event Impl", with the ledger of
    references and the number of calls of [virEventRegisterImpl]. *)
Record impl_state : Type := mkImpl {
  addHandleObj : option pyobj;
  updateHandleObj : option pyobj;
  removeHandleObj : option pyobj;
  addTimeoutObj : option pyobj;
  updateTimeoutObj : option pyobj;
  removeTimeoutObj : option pyobj;
  addHandleName : option string;
  updateHandleName : option string;
  removeHandleName : option string;
  addTimeoutName : option string;
  updateTimeoutName : option string;
  removeTimeoutName : option string;
  refs : ledger;
  native_registrations : nat
}.

Definition initial_state : impl_state :=
  mkImpl None None None None None None None None None None None None
         (mkLedger [] []) 0.

(** The six objects of the installed set, in the order of the slots. *)
Definition installed (s : impl_state) : list (option pyobj) :=
  [addHandleObj s; updateHandleObj s; removeHandleObj s;
   addTimeoutObj s; updateTimeoutObj s; removeTimeoutObj s].

(** [PyObject_Str] on the objects of the model. *)
Definition str_of (o : pyobj) : string :=
  match o with
  | PyNone => "None"
  | PyBool true => "True"
  | PyBool false => "False"
  | PyLong v => fmt_d v
  | PyStr s => s
  | PyFunc id => "<function " ++ fmt_d (Z.of_nat id) ++ ">"
  | _ => "<object>"
  end.

Definition py_str (o : pyobj) : option string := Some (str_of o).

(** [PyArg_ParseTuple(args, "OOOOOO", ...)]: six objects, or failure with
    the destinations untouched. *)
Definition parse_six (args : pyobj) : option (list pyobj) :=
  match args with
  | PyTuple [a; b; c; d; e; f] => Some [a; b; c; d; e; f]
  | _ => None
  end.

Definition release_all (s : impl_state) : ledger :=
  Py_XDECREF (removeTimeoutObj s)
    (Py_XDECREF (updateTimeoutObj s)
       (Py_XDECREF (addTimeoutObj s)
          (Py_XDECREF (removeHandleObj s)
             (Py_XDECREF (updateHandleObj s)
                (Py_XDECREF (addHandleObj s) (refs s)))))).

Definition retain_all (objs : list pyobj) (l : ledger) : ledger :=
  fold_left (fun acc o => Py_INCREF o acc) objs l.

(** [libvirt_virEventRegisterImpl]. *)
Definition libvirt_virEventRegisterImpl (args : pyobj) (s : impl_state)
  : pyobj * impl_state :=
  (* Unref the previously-registered impl (if any) *)
  let l := release_all s in
  match parse_six args with
  | Some [a; b; c; d; e; f] =>
      if negb (PyCallable_Check a) || negb (PyCallable_Check b) ||
         negb (PyCallable_Check c) || negb (PyCallable_Check d) ||
         negb (PyCallable_Check e) || negb (PyCallable_Check f)
      then
        (VIR_PY_INT_FAIL,
         mkImpl (Some a) (Some b) (Some c) (Some d) (Some e) (Some f)
                None None None None None None l (native_registrations s))
      else
        (VIR_PY_INT_SUCCESS,
         mkImpl (Some a) (Some b) (Some c) (Some d) (Some e) (Some f)
                (py_str a) (py_str b) (py_str c) (py_str d) (py_str e) (py_str f)
                (retain_all [a; b; c; d; e; f] l)
                (S (native_registrations s)))
  | _ =>
      (VIR_PY_INT_FAIL,
       mkImpl (addHandleObj s) (updateHandleObj s) (removeHandleObj s)
              (addTimeoutObj s) (updateTimeoutObj s) (removeTimeoutObj s)
              None None None None None None l (native_registrations s))
  end.

(** Modelled from the spec: the accessor macros [PyvirFreeCallback_Get]
    and [PyvirVoidPtr_Get], defined in typewrappers.h and not in
    libvirt-override.c: the pointer wrapped by a capsule, NULL for [None].
    Any other object is not a capsule and reading its pointer field is
    undefined. *)
Definition capsule_pointer (v : pyobj) : option ptr :=
  match v with
  | PyNone => Some NULL
  | PyCapsule _ p => Some p
  | _ => None
  end.

Definition PyvirFreeCallback_Get := capsule_pointer.
Definition PyvirVoidPtr_Get := capsule_pointer.

Definition NAME (n : option string) (fn : string) : string :=
  match n with
  | Some s => s
  | None => fn
  end.

(** The body shared by [libvirt_virEventRemoveHandleFunc] and
    [libvirt_virEventRemoveTimeoutFunc]: [obj] is the registered remove
    primitive, [id] the watch or the timer and [dbg] the text of the
    DEBUG statement.  [None] is undefined behaviour. *)
Definition remove_func (py : host) (obj : option pyobj) (dbg : string) (id : Z)
  : option (Z * list effect) :=
  match obj with
  | None => None
  | Some f =>
      let pyobj_args := [libvirt_intWrap id] in
      match py f pyobj_args with
      | Raised e =>
          Some (-1, [EnsureThreadState; ErrPrint e; ReleaseThreadState])
      | Returned result =>
          match result with
          | PyTuple [_; opaque; ff] =>
              match PyvirFreeCallback_Get ff, PyvirVoidPtr_Get opaque with
              | Some cff, Some o =>
                  Some (0, [EnsureThreadState] ++
                           (if Nat.eqb cff NULL then [] else [FreeCallback cff o]) ++
                           [ReleaseThreadState])%list
              | Some cff, None => if Nat.eqb cff NULL
                                  then Some (0, [EnsureThreadState; ReleaseThreadState])
                                  else None
              | None, _ => None
              end
          | _ =>
              Some (-1, [EnsureThreadState] ++ DEBUG dbg ++ [ReleaseThreadState])%list
          end
      end
  end.

Definition libvirt_virEventRemoveHandleFunc (py : host) (s : impl_state) (watch : Z)
  : option (Z * list effect) :=
  remove_func py (removeHandleObj s)
    ("libvirt_virEventRemoveHandleFunc: " ++ NAME (removeHandleName s) "removeHandle"
       ++ " must return opaque obj registered with "
       ++ NAME (addHandleName s) "addHandle" ++ "to avoid leaking libvirt memory")
    watch.

Definition libvirt_virEventRemoveTimeoutFunc (py : host) (s : impl_state) (timer : Z)
  : option (Z * list effect) :=
  remove_func py (removeTimeoutObj s)
    ("libvirt_virEventRemoveTimeoutFunc: " ++ NAME (removeTimeoutName s) "removeTimeout"
       ++ " must return opaque obj registered with "
       ++ NAME (addTimeoutName s) "addTimeout" ++ "to avoid leaking libvirt memory")
    timer.

(** How often the release function [ff] was called on [opaque]. *)
Definition releases (log : list effect) : list (ptr * ptr) :=
  flat_map (fun ev => match ev with FreeCallback ff o => [(ff, o)] | _ => [] end) log.

Definition is_log (ev : effect) : bool :=
  match ev with
  | ErrPrint _ | DebugPrint _ => true
  | _ => false
  end.

Definition is_triple (r : pyobj) : bool :=
  match r with
  | PyTuple [_; _; _] => true
  | _ => false
  end.

(** *** Domain events *)

(** What looking up and calling a method of an object does. *)
Inductive method_outcome : Type :=
| AttrMissing
| MethodRaised (e : pyerr)
| MethodReturned (v : pyobj).

Definition method_host := pyobj -> string -> list pyobj -> method_outcome.

(** [PyObject_CallMethod(o, name, format, ...)]. *)
Definition PyObject_CallMethod (py : method_host) (o : option pyobj) (name : string)
    (args : list pyobj) : call_outcome :=
  match o with
  | None => Raised (PyErr_Format PyExc_SystemError "null argument to internal routine")
  | Some obj =>
      match py obj name args with
      | AttrMissing =>
          Raised (PyErr_Format PyExc_AttributeError
                    ("object has no attribute " ++ quoted name))
      | MethodRaised e => Raised e
      | MethodReturned v => Returned v
      end
  end.

(** Modelled from the spec: [libvirt_virDomainPtrWrap], defined in
    typewrappers.c and not in libvirt-override.c: the native object
    wrapped for host consumption as an opaque capsule. *)
Definition libvirt_virDomainPtrWrap (dom : ptr) : pyobj :=
  if Nat.eqb dom NULL then PyNone else PyCapsule "virDomainPtr" dom.

(** [libvirt_virConnectDomainEventLifecycleCallback]. *)
Definition libvirt_virConnectDomainEventLifecycleCallback (py : method_host)
    (dom : ptr) (event detail : Z) (opaque : pyobj) : Z * list effect :=
  let pyobj_cbData := opaque in
  let dictKey := libvirt_constcharPtrWrap (Some "conn") in
  let pyobj_conn := PyDict_GetItem pyobj_cbData dictKey in
  let pyobj_dom := libvirt_virDomainPtrWrap dom in
  match PyObject_CallMethod py pyobj_conn "_dispatchDomainEventLifecycleCallback"
          [pyobj_dom; PyLong event; PyLong detail; pyobj_cbData] with
  | Raised e =>
      (-1, [EnsureThreadState; DomainRef dom] ++ DEBUG "libvirt_virConnectDomainEventLifecycleCallback - ret:(nil)"
             ++ [ErrPrint e; ReleaseThreadState])%list
  | Returned _ =>
      (0, [EnsureThreadState; DomainRef dom; ReleaseThreadState])
  end.

(** Whether the dispatch method could be invoked at all. *)
Definition invoked (py : method_host) (opaque : pyobj) (dom : ptr) (event detail : Z)
  : bool :=
  match PyDict_GetItem opaque (PyStr "conn") with
  | None => false
  | Some conn =>
      match py conn "_dispatchDomainEventLifecycleCallback"
              [libvirt_virDomainPtrWrap dom; PyLong event; PyLong detail; opaque] with
      | AttrMissing => false
      | _ => true
      end
  end.

End EventImpl.
Export EventImpl.

(* ------------------------------------------------------------------ *)
(** ** Properties the statements below are about *)

Module Props.

(** The kinds the codec recognizes. *)
Definition known_kind (t : Z) : bool :=
  (VIR_TYPED_PARAM_INT <=? t) && (t <=? VIR_TYPED_PARAM_STRING).

Definition is_some {A} (o : option A) : bool :=
  match o with Some _ => true | None => false end.

(** The member of the union that the type of an entry names is the one
    stored. *)
Definition member_ok (p : virTypedParameter) : bool :=
  let t := type p in
  if t =? VIR_TYPED_PARAM_INT then is_some (read_i (value p))
  else if t =? VIR_TYPED_PARAM_UINT then is_some (read_ui (value p))
  else if t =? VIR_TYPED_PARAM_LLONG then is_some (read_l (value p))
  else if t =? VIR_TYPED_PARAM_ULLONG then is_some (read_ul (value p))
  else if t =? VIR_TYPED_PARAM_DOUBLE then is_some (read_d (value p))
  else if t =? VIR_TYPED_PARAM_BOOLEAN then is_some (read_b (value p))
  else if t =? VIR_TYPED_PARAM_STRING then is_some (read_s (value p))
  else true.

Fixpoint no_nul (s : string) : bool :=
  match s with
  | EmptyString => true
  | String c rest => negb (Ascii.eqb c Ascii.zero) && no_nul rest
  end.

(** A name that fits [char field[VIR_TYPED_PARAM_FIELD_LENGTH]]. *)
Definition field_ok (s : string) : bool :=
  no_nul s && Nat.ltb (String.length s) VIR_TYPED_PARAM_FIELD_LENGTH.

(** An entry as libvirt produces it: a recognized kind, the payload of
    that kind within the range of its C type. *)
Definition native_entry (p : virTypedParameter) : bool :=
  field_ok (field p) &&
  match value p with
  | U_i i => (type p =? VIR_TYPED_PARAM_INT) && in_range INT_MIN INT_MAX i
  | U_ui i => (type p =? VIR_TYPED_PARAM_UINT) && in_range 0 UINT_MAX i
  | U_l i => (type p =? VIR_TYPED_PARAM_LLONG) && in_range LLONG_MIN LLONG_MAX i
  | U_ul i => (type p =? VIR_TYPED_PARAM_ULLONG) && in_range 0 ULLONG_MAX i
  | U_d _ => type p =? VIR_TYPED_PARAM_DOUBLE
  | U_b b => (type p =? VIR_TYPED_PARAM_BOOLEAN) && in_range 0 1 b
  | U_s s => (type p =? VIR_TYPED_PARAM_STRING) && negb (Nat.eqb (addr s) NULL)
             && no_nul (text s)
  | U_zero => false
  end.

(** Equal payloads; two strings are equal when their texts are. *)
Inductive same_value : value_u -> value_u -> Prop :=
| same_i : forall i, same_value (U_i i) (U_i i)
| same_ui : forall i, same_value (U_ui i) (U_ui i)
| same_l : forall i, same_value (U_l i) (U_l i)
| same_ul : forall i, same_value (U_ul i) (U_ul i)
| same_d : forall d, same_value (U_d d) (U_d d)
| same_b : forall b, same_value (U_b b) (U_b b)
| same_s : forall s s', text s = text s' -> same_value (U_s s) (U_s s').

Definition same_entry (p q : virTypedParameter) : Prop :=
  field p = field q /\ type p = type q /\ same_value (value p) (value q).

(** Decoding [P] and encoding the mapping against [P] gives [P] back. *)
Definition roundtrip (P : list virTypedParameter) : Prop :=
  let nparams := Z.of_nat (List.length P) in
  exists d ret h,
    getPyVirTypedParameter P nparams = Ok d /\
    setPyVirTypedParameter d P nparams empty_heap = (Ok ret, h) /\
    Forall2 same_entry P (elems ret).

(** The host value of an entry and the mapping a set decodes to. *)
Definition decode_entry (p : virTypedParameter) : pyobj :=
  match wrap_value p with
  | Ok v => v
  | _ => PyNone
  end.

Definition items_of (P : list virTypedParameter) : list (pyobj * pyobj) :=
  map (fun p => (PyStr (field p), decode_entry p)) P.

(** An unsigned 32-bit payload that also fits [int]. *)
Definition uint_fits_int (p : virTypedParameter) : bool :=
  match value p with
  | U_ui i => i <=? INT_MAX
  | _ => true
  end.

(** The first entry of a schema with a given name. *)
Definition schema_lookup (params : list virTypedParameter) (keystr : string)
  : option virTypedParameter :=
  find (fun p => String.eqb (field p) keystr) params.

(** A key of the input mapping that names no field of the schema. *)
Definition unmatched (params : list virTypedParameter) (key : pyobj) : bool :=
  match key with
  | PyStr s => negb (is_some (schema_lookup params (c_str s)))
  | _ => true
  end.

(** An item of the input mapping that the encoder converts. *)
Definition converts (params : list virTypedParameter) (item : pyobj * pyobj) : bool :=
  match fst item with
  | PyStr s =>
      match schema_lookup params (c_str s) with
      | Some sch => is_ok (fst (unwrap_value (type sch) (snd item) empty_heap))
      | None => false
      end
  | _ => false
  end.


(** The buffers [virTypedParamsClear] frees for a list of entries. *)
Definition string_addrs (es : list virTypedParameter) : list ptr :=
  flat_map (fun e =>
              if type e =? VIR_TYPED_PARAM_STRING then
                match value e with
                | U_s s => if Nat.eqb (addr s) NULL then [] else [addr s]
                | _ => []
                end
              else []) es.

(** An entry that [virTypedParamsClear] can visit: its string member is
    readable when its type says string. *)
Definition clear_safe (e : virTypedParameter) : bool :=
  if type e =? VIR_TYPED_PARAM_STRING then is_some (read_s (value e)) else true.

(** The state of the encoder between two items: [temp] entries of the
    array are filled, [k] are still zero, and native memory holds, on top
    of what was live before the call ([live0]), the array and the strings
    of the filled entries. *)
Definition encode_inv (live0 : list ptr) (size : Z) (ret : c_array) (temp k : nat)
    (h : heap) : Prop :=
  exists filled,
    elems ret = (filled ++ repeat zero_param k)%list /\
    List.length filled = temp /\
    Z.to_nat size = (temp + k)%nat /\
    Forall (fun e => clear_safe e = true) filled /\
    live h = (rev (string_addrs filled) ++ base ret :: live0)%list /\
    heap_ok h.


(** A domain whose answers agree with each other: the count announced
    by [virDomainGetSchedulerType] is the number of its parameters, and
    the parameters are native entries. *)
Definition domain_ok (dom : native_domain) : Prop :=
  match sched_type dom with
  | Some (_, n) =>
      0 <= n /\
      match sched_params dom with
      | Some src =>
          Z.of_nat (List.length src) = n /\
          Forall (fun p => native_entry p = true) src
      | None => True
      end
  | None => True
  end.

(** The kind selection in the words of the specification: a matching hint
    first, then string, boolean, integer by sign, floating point. *)
Fixpoint spec_hint (hints : list virPyTypedParamsHint) (keystr : string) : option Z :=
  match hints with
  | [] => None
  | hnt :: rest =>
      if String.eqb (name hnt) keystr then Some (hint_type hnt)
      else spec_hint rest keystr
  end.

Definition spec_kind (hints : list virPyTypedParamsHint) (keystr : string)
    (value : pyobj) : option Z :=
  match spec_hint hints keystr with
  | Some t => Some t
  | None =>
      match value with
      | PyStr _ => Some VIR_TYPED_PARAM_STRING
      | PyBool _ => Some VIR_TYPED_PARAM_BOOLEAN
      | PyLong v => Some (if v <? 0 then VIR_TYPED_PARAM_LLONG
                          else VIR_TYPED_PARAM_ULLONG)
      | PyFloat _ => Some VIR_TYPED_PARAM_DOUBLE
      | _ => None
      end
  end.

Definition hints_ok (hints : list virPyTypedParamsHint) : Prop :=
  Forall (fun hnt => known_kind (hint_type hnt) = true) hints.

(** The arguments [libvirt_virEventRegisterImpl] accepts: six callables. *)
Definition accepted (args : pyobj) : option (list pyobj) :=
  match parse_six args with
  | Some six => if forallb PyCallable_Check six then Some six else None
  | None => None
  end.

(** Registration that leaves the installed set and its references alone
    when it fails. *)
Definition atomic_on_failure (args : pyobj) (s : impl_state) : Prop :=
  fst (libvirt_virEventRegisterImpl args s) = VIR_PY_INT_FAIL ->
  installed (snd (libvirt_virEventRegisterImpl args s)) = installed s /\
  held (refs (snd (libvirt_virEventRegisterImpl args s))) = held (refs s).

Definition logged (log : list effect) : bool := existsb is_log log.

(** A failed removal in the words of the specification: logged, nothing
    released, -1. *)
Definition violation_reported (r : option (Z * list effect)) : Prop :=
  exists log, r = Some (-1, log) /\ logged log = true /\ releases log = [].

(** Removal as the bridge performs it, for a remove primitive [f], an id
    and the outcome [r] of the bridge function: a 3-tuple of capsules has
    its release function called once on its opaque pointer (not at all
    when that function is NULL) and gives 0; an exception is printed and
    gives -1; any other result gives -1 and leaves no trace. *)
Definition remove_protocol (py : host) (f : pyobj) (id : Z)
    (r : option (Z * list effect)) : Prop :=
  (forall tid opaque ff o cff,
      py f [libvirt_intWrap id] = Returned (PyTuple [tid; opaque; ff]) ->
      PyvirVoidPtr_Get opaque = Some o ->
      PyvirFreeCallback_Get ff = Some cff ->
      exists log, r = Some (0, log) /\
                  releases log = (if Nat.eqb cff NULL then [] else [(cff, o)])) /\
  (forall e,
      py f [libvirt_intWrap id] = Raised e ->
      exists log, r = Some (-1, log) /\ In (ErrPrint e) log /\ releases log = []) /\
  (forall v,
      py f [libvirt_intWrap id] = Returned v ->
      is_triple v = false ->
      exists log, r = Some (-1, log) /\ logged log = false /\ releases log = []).

(** The return code in the words of the specification: success unless the
    dispatch method could not be invoked. *)
Definition spec_return_code (py : method_host) (opaque : pyobj) (dom : ptr)
    (event detail : Z) : Z :=
  if invoked py opaque dom event detail then 0 else -1.


End Props.
Export Props.

(* ------------------------------------------------------------------ *)
(** ** Concrete inputs *)

Module Inputs.

Definition cpu_shares_big : list virTypedParameter :=
  [mkParam "cpu_shares" VIR_TYPED_PARAM_UINT (U_ui 2147483648)].

Definition mixed_set : list virTypedParameter :=
  [mkParam "weight" VIR_TYPED_PARAM_INT (U_i (-5));
   mkParam "path" VIR_TYPED_PARAM_STRING (U_s (mkCstr 7%nat "/dev/sda"));
   mkParam "enabled" VIR_TYPED_PARAM_BOOLEAN (U_b 1);
   mkParam "limit" VIR_TYPED_PARAM_ULLONG (U_ul 18446744073709551615);
   mkParam "cap" VIR_TYPED_PARAM_UINT (U_ui 100)].

Definition future_set : list virTypedParameter :=
  [mkParam "weight" VIR_TYPED_PARAM_INT (U_i 3);
   mkParam "novel" 42 U_zero;
   mkParam "after" VIR_TYPED_PARAM_INT (U_i 9)].

Definition schema_ab : list virTypedParameter :=
  [mkParam "a" VIR_TYPED_PARAM_INT (U_i 0);
   mkParam "b" VIR_TYPED_PARAM_STRING (U_s (mkCstr 9%nat "old"))].


Definition string_then_unknown_key : pyobj :=
  PyDict [(PyStr "b", PyStr "new"); (PyStr "zz", PyLong 1)].

(** A domain whose scheduler has two parameters. *)
Definition two_param_domain : native_domain :=
  mkDomain (Some ("posix", 2))
           (Some [mkParam "cpu_shares" VIR_TYPED_PARAM_ULLONG (U_ul 1024);
                  mkParam "vcpu_period" VIR_TYPED_PARAM_ULLONG (U_ul 100000)])
           (fun _ _ => 0).


Definition one_override : pyobj := PyDict [(PyStr "cpu_shares", PyLong 2048)].

Definition six_callables : pyobj :=
  PyTuple [PyFunc 1; PyFunc 2; PyFunc 3; PyFunc 4; PyFunc 5; PyFunc 6].

Definition five_callables_and_none : pyobj :=
  PyTuple [PyNone; PyFunc 12; PyFunc 13; PyFunc 14; PyFunc 15; PyFunc 16].

Definition registered : impl_state :=
  snd (libvirt_virEventRegisterImpl six_callables initial_state).

(** A remove primitive that returns [None]. *)
Definition forgetful_host : host := fun _ _ => Returned PyNone.

(** A remove primitive that hands back what the add primitive got. *)
Definition faithful_host : host :=
  fun _ _ => Returned (PyTuple [PyLong 7; PyCapsule "void*" 500%nat;
                                PyCapsule "virFreeCallback" 600%nat]).

Definition raising_host : host :=
  fun _ _ => Raised (PyErr_Format PyExc_RuntimeError "boom").

Definition cb_data : pyobj := PyDict [(PyStr "conn", PyObj 1)].

(** A connection proxy whose dispatch method raises. *)
Definition raising_proxy : method_host :=
  fun _ _ _ => MethodRaised (PyErr_Format PyExc_RuntimeError "handler failed").

Definition working_proxy : method_host := fun _ _ _ => MethodReturned PyNone.

Definition bare_proxy : method_host := fun _ _ _ => AttrMissing.

End Inputs.
Export Inputs.

(* ------------------------------------------------------------------ *)
(** ** Arguments of the entry points *)

Module Args.

(** The macro [VIR_PY_NONE]. *)
Definition VIR_PY_NONE : pyobj := PyNone.

(** The format [i] of [PyArg_ParseTuple]: an integer within [int]. *)
Definition PyArg_int (o : pyobj) : res Z :=
  match int_value o with
  | Some v =>
      if v <? INT_MIN then
        Raise (overflow "signed integer is less than minimum")
      else if INT_MAX <? v then
        Raise (overflow "signed integer is greater than maximum")
      else Ok v
  | None => Raise (PyErr_Format PyExc_TypeError "an integer is required")
  end.

(** The format [I] of [PyArg_ParseTuple]: an integer reduced to
    [unsigned int] without overflow checking. *)
Definition PyArg_uint (o : pyobj) : res Z :=
  match int_value o with
  | Some v => Ok (v mod 2 ^ 32)
  | None => Raise (PyErr_Format PyExc_TypeError "an integer is required")
  end.

End Args.
Export Args.

(* ------------------------------------------------------------------ *)
(** ** CPU affinity maps *)

Module Cpumap.

(** [VIR_CPU_MAPLEN(cpu)], from libvirt's public header: the number of
    bytes of a map of [cpu] processors. *)
Definition VIR_CPU_MAPLEN (cpu : Z) : Z := Z.quot (cpu + 7) 8.

(** [1 << (cpu % 8)]. *)
Definition cpu_bit (cpu : nat) : Z := Z.shiftl 1 (Z.of_nat (cpu mod 8)).

(** A value stored into an [unsigned char]. *)
Definition to_uchar (z : Z) : Z := z mod 2 ^ 8.

(** A byte buffer in native memory. *)
Record buffer : Type := mkBuffer { start : ptr; bytes : list Z }.

(** [VIR_ALLOC_N(cpumap, n)]: [n] zero bytes. *)
Definition alloc_bytes (len : Z) (h : heap) : buffer * heap :=
  let (p, h') := malloc h in (mkBuffer p (repeat 0 (Z.to_nat len)), h').

(** [cpumap[i] = f(cpumap[i])]; a store past the end of the buffer is a
    memory error. *)
Definition poke (m : buffer) (i : nat) (f : Z -> Z) (h : heap) : buffer * heap :=
  if Nat.ltb i (List.length (bytes m))
  then (mkBuffer (start m) (update_nth i (fun b => to_uchar (f b)) (bytes m)), h)
  else (m, add_fault (OutOfBounds (start m) i) h).

(** [VIR_USE_CPU(cpumap, cpu)] and [VIR_UNUSE_CPU(cpumap, cpu)]. *)
Definition VIR_USE_CPU (cpumap : buffer) (cpu : nat) (h : heap) : buffer * heap :=
  poke cpumap (cpu / 8) (fun b => Z.lor b (cpu_bit cpu)) h.
Definition VIR_UNUSE_CPU (cpumap : buffer) (cpu : nat) (h : heap) : buffer * heap :=
  poke cpumap (cpu / 8) (fun b => Z.land b (Z.lnot (cpu_bit cpu))) h.

(** [VIR_CPU_USED(cpumap, cpu)]; nothing when the byte lies outside the
    buffer. *)
Definition VIR_CPU_USED (cpumap : list Z) (cpu : nat) : option Z :=
  match nth_error cpumap (cpu / 8) with
  | Some b => Some (Z.land b (cpu_bit cpu))
  | None => None
  end.

(** [VIR_CPU_USABLE(cpumaps, maplen, vcpu, cpu)]: the map of [vcpu] starts
    at byte [vcpu * maplen]. *)
Definition VIR_CPU_USABLE (cpumaps : list Z) (maplen vcpu cpu : nat) : option Z :=
  VIR_CPU_USED (skipn (vcpu * maplen) cpumaps) cpu.

(** The host as libvirt answers for it. *)
Record native_node : Type := mkNode {
  (** [virNodeGetCPUMap(conn, NULL, NULL, 0)]. *)
  cpu_count : Z;
  (** [virNodeGetInfo]: its return and the topology it reports. *)
  info_ret : Z;
  nodes : Z;
  sockets : Z;
  cores : Z;
  threads : Z
}.

(** [VIR_NODEINFO_MAXCPUS], a product of [unsigned int]s. *)
Definition VIR_NODEINFO_MAXCPUS (nd : native_node) : Z :=
  (nodes nd * sockets nd * cores nd * threads nd) mod 2 ^ 32.

(** [getPyNodeCPUCount]. *)
Definition getPyNodeCPUCount (nd : native_node) : Z :=
  let i_retval := cpu_count nd in
  if i_retval <? 0 then
    (* fallback: use nodeinfo *)
    let i_retval := info_ret nd in
    if i_retval <? 0 then i_retval
    else to_int (VIR_NODEINFO_MAXCPUS nd)
  else i_retval.

(** The domain as libvirt answers for it: the host it runs on, what the
    pin functions return for a map, and the map of the emulator threads
    (none when [virDomainGetEmulatorPinInfo] fails). *)
Record pin_domain : Type := mkPinDomain {
  host_node : native_node;
  pin_code : list Z -> Z;
  emulator_map : option (list Z)
}.

(** Calls into libvirt, in program order. *)
Inductive pin_call : Type :=
| PinVcpu (vcpu : Z) (cpumap : list Z) (maplen : Z)
| PinEmulator (cpumap : list Z) (maplen : Z) (flags : Z)
| GetEmulatorPinInfo (maplen : Z) (flags : Z).

Record pin_run : Type := mkPinRun {
  outcome : res pyobj;
  memory : heap;
  native : list pin_call;
  after : pin_domain
}.

(** [virDomainPinEmulator(domain, cpumap, maplen, flags)]: libvirt keeps
    the map when it accepts it. *)
Definition virDomainPinEmulator (dom : pin_domain) (cpumap : list Z) (maplen : Z)
  : Z * pin_domain :=
  let r := pin_code dom cpumap in
  if r <? 0 then (r, dom)
  else (r, mkPinDomain (host_node dom) (pin_code dom)
                       (Some (firstn (Z.to_nat maplen) cpumap))).

(** [virDomainGetEmulatorPinInfo(domain, cpumap, maplen, flags)]: the
    first [maplen] bytes of the map libvirt holds are written to
    [cpumap]. *)
Definition virDomainGetEmulatorPinInfo (dom : pin_domain) (cpumap : buffer)
    (maplen : Z) : Z * buffer :=
  match emulator_map dom with
  | None => (-1, cpumap)
  | Some m =>
      let k := Z.to_nat maplen in
      (1, mkBuffer (start cpumap)
                   (firstn k (m ++ repeat 0 k) ++ skipn k (bytes cpumap))%list)
  end.

Definition tuple_required : pyerr :=
  PyErr_Format PyExc_TypeError "Unexpected type, tuple is required".

(** The loop [for (i = 0; i < tuple_size; i++)] of the pin functions,
    from index [i] on: each flag sets or clears the bit of its index. *)
Fixpoint set_bits (flags : list pyobj) (i : nat) (cpumap : buffer) (h : heap)
  : res buffer * heap :=
  match flags with
  | [] => (Ok cpumap, h)
  | flag :: rest =>
      match libvirt_boolUnwrap flag with
      | Ok b =>
          let (m, h1) := if b then VIR_USE_CPU cpumap i h
                         else VIR_UNUSE_CPU cpumap i h in
          set_bits rest (S i) m h1
      | Raise e => (Raise e, h)
      | Undef => (Undef, h)
      end
  end.

(** The loop [for (; i < cpunum; i++) VIR_UNUSE_CPU(cpumap, i)]; [count]
    is the number of iterations left. *)
Fixpoint clear_bits (count : nat) (i : nat) (cpumap : buffer) (h : heap)
  : buffer * heap :=
  match count with
  | O => (cpumap, h)
  | S c => let (m, h1) := VIR_UNUSE_CPU cpumap i h in clear_bits c (S i) m h1
  end.

(** [libvirt_virDomainPinVcpu]. *)
Definition libvirt_virDomainPinVcpu (dom : pin_domain) (args : pyobj) (h : heap)
  : pin_run :=
  match args with
  | PyTuple [pyobj_domain; pyobj_vcpu; pycpumap] =>
      match PyArg_int pyobj_vcpu with
      | Ok vcpu =>
          let cpunum := getPyNodeCPUCount (host_node dom) in
          if cpunum <? 0 then mkPinRun (Ok VIR_PY_INT_FAIL) h [] dom
          else
            match pycpumap with
            | PyTuple flags =>
                let tuple_size := List.length flags in
                let cpumaplen := VIR_CPU_MAPLEN cpunum in
                let (cpumap, h1) := alloc_bytes cpumaplen h in
                match set_bits flags 0 cpumap h1 with
                | (Ok m, h2) =>
                    let (m', h3) :=
                      clear_bits (Z.to_nat cpunum - tuple_size) tuple_size m h2 in
                    let i_retval := pin_code dom (bytes m') in
                    mkPinRun (if i_retval <? 0 then Ok VIR_PY_INT_FAIL
                              else Ok VIR_PY_INT_SUCCESS)
                             (VIR_FREE (start m') h3)
                             [PinVcpu vcpu (bytes m') cpumaplen] dom
                | (Raise e, h2) =>
                    mkPinRun (Raise e) (VIR_FREE (start cpumap) h2) [] dom
                | (Undef, h2) => mkPinRun Undef h2 [] dom
                end
            | _ => mkPinRun (Raise tuple_required) h [] dom
            end
      | Raise e => mkPinRun (Raise e) h [] dom
      | Undef => mkPinRun Undef h [] dom
      end
  | _ => mkPinRun (Raise bad_arguments) h [] dom
  end.

(** [libvirt_virDomainPinEmulator]. *)
Definition libvirt_virDomainPinEmulator (dom : pin_domain) (args : pyobj) (h : heap)
  : pin_run :=
  match args with
  | PyTuple [pyobj_domain; pycpumap; pyobj_flags] =>
      match PyArg_uint pyobj_flags with
      | Ok flags =>
          let cpunum := getPyNodeCPUCount (host_node dom) in
          if cpunum <? 0 then mkPinRun (Ok VIR_PY_INT_FAIL) h [] dom
          else
            let cpumaplen := VIR_CPU_MAPLEN cpunum in
            match pycpumap with
            | PyTuple flaglist =>
                let tuple_size := List.length flaglist in
                let (cpumap, h1) := alloc_bytes cpumaplen h in
                match set_bits flaglist 0 cpumap h1 with
                | (Ok m, h2) =>
                    let (m', h3) :=
                      clear_bits (Z.to_nat cpunum - tuple_size) tuple_size m h2 in
                    let (i_retval, dom') :=
                      virDomainPinEmulator dom (bytes m') cpumaplen in
                    mkPinRun (if i_retval <? 0 then Ok VIR_PY_INT_FAIL
                              else Ok VIR_PY_INT_SUCCESS)
                             (VIR_FREE (start m') h3)
                             [PinEmulator (bytes m') cpumaplen flags] dom'
                | (Raise e, h2) =>
                    mkPinRun (Ok VIR_PY_INT_FAIL) (VIR_FREE (start cpumap) h2) [] dom
                | (Undef, h2) => mkPinRun Undef h2 [] dom
                end
            | _ => mkPinRun (Raise tuple_required) h [] dom
            end
      | Raise e => mkPinRun (Raise e) h [] dom
      | Undef => mkPinRun Undef h [] dom
      end
  | _ => mkPinRun (Raise bad_arguments) h [] dom
  end.

(** The loop [for (pcpu = 0; pcpu < cpunum; pcpu++)] that fills the
    result tuple with [PyBool_FromLong(VIR_CPU_USABLE(...))]; reading
    outside the buffer is undefined. *)
Fixpoint usable_flags (cpumaps : list Z) (maplen vcpu : nat) (count pcpu : nat)
  : option (list pyobj) :=
  match count with
  | O => Some []
  | S c =>
      match VIR_CPU_USABLE cpumaps maplen vcpu pcpu,
            usable_flags cpumaps maplen vcpu c (S pcpu) with
      | Some v, Some rest => Some (PyBool_FromLong v :: rest)
      | _, _ => None
      end
  end.

(** [libvirt_virDomainGetEmulatorPinInfo]. *)
Definition libvirt_virDomainGetEmulatorPinInfo (dom : pin_domain) (args : pyobj)
    (h : heap) : pin_run :=
  match args with
  | PyTuple [pyobj_domain; pyobj_flags] =>
      match PyArg_uint pyobj_flags with
      | Ok flags =>
          let cpunum := getPyNodeCPUCount (host_node dom) in
          if cpunum <? 0 then mkPinRun (Ok VIR_PY_NONE) h [] dom
          else
            let cpumaplen := VIR_CPU_MAPLEN cpunum in
            let (cpumap, h1) := alloc_bytes cpumaplen h in
            let (ret, cpumap) := virDomainGetEmulatorPinInfo dom cpumap cpumaplen in
            let log := [GetEmulatorPinInfo cpumaplen flags] in
            if ret <? 0 then
              mkPinRun (Ok VIR_PY_NONE) (VIR_FREE (start cpumap) h1) log dom
            else
              match usable_flags (bytes cpumap) (Z.to_nat cpumaplen) 0
                      (Z.to_nat cpunum) 0 with
              | Some items =>
                  mkPinRun (Ok (PyTuple items)) (VIR_FREE (start cpumap) h1) log dom
              | None => mkPinRun Undef h1 log dom
              end
      | Raise e => mkPinRun (Raise e) h [] dom
      | Undef => mkPinRun Undef h [] dom
      end
  | _ => mkPinRun (Raise bad_arguments) h [] dom
  end.

(** The truth value a flag of the tuple stands for. *)
Definition flag_value (flag : pyobj) : bool := PyObject_IsTrue flag.

(** Bit [j] of a map. *)
Definition bit_of (cpumap : list Z) (j : nat) : bool :=
  Z.testbit (nth (j / 8) cpumap 0) (Z.of_nat (j mod 8)).

End Cpumap.
Export Cpumap.

(* ------------------------------------------------------------------ *)
(** ** The event bridge: adding, updating and firing *)

Module EventAdd.

(** Modelled from the spec: [libvirt_virEventHandleCallbackWrap],
    [libvirt_virEventTimeoutCallbackWrap], [libvirt_virFreeCallbackWrap]
    and [libvirt_virVoidPtrWrap], defined in typewrappers.c and not in
    libvirt-override.c: a native pointer wrapped as an opaque capsule that
    the host passes through unmodified; [None] for a NULL pointer. *)
Definition wrap_pointer (kind : string) (p : ptr) : pyobj :=
  if Nat.eqb p NULL then PyNone else PyCapsule kind p.

Definition libvirt_virEventHandleCallbackWrap : ptr -> pyobj :=
  wrap_pointer "virEventHandleCallback".
Definition libvirt_virEventTimeoutCallbackWrap : ptr -> pyobj :=
  wrap_pointer "virEventTimeoutCallback".
Definition libvirt_virFreeCallbackWrap : ptr -> pyobj :=
  wrap_pointer "virFreeCallback".
Definition libvirt_virVoidPtrWrap : ptr -> pyobj :=
  wrap_pointer "void*".

Definition PyvirEventHandleCallback_Get := capsule_pointer.
Definition PyvirEventTimeoutCallback_Get := capsule_pointer.

(** [libvirt_lookupPythonFunc(funcname)], given the dictionary of the
    libvirt module as [getLibvirtDictObject] returns it.  When the name
    is absent [PyDict_GetItemString] sets no exception, so [PyErr_Print]
    has nothing to print. *)
Definition libvirt_lookupPythonFunc (libvirt_dict : pyobj) (funcname : string)
  : option pyobj * list effect :=
  match PyDict_GetItem libvirt_dict (PyStr funcname) with
  | None =>
      (None, DEBUG ("libvirt_lookupPythonFunc: Error finding " ++ funcname))
  | Some python_cb =>
      if PyCallable_Check python_cb then (Some python_cb, [])
      else (None, DEBUG ("libvirt_lookupPythonFunc: " ++ funcname ++ " is not callable"))
  end.

(** What a call of an add function leaves behind: the value returned to
    libvirt, what was visible outside, the exception left set in the
    interpreter if any, and the calls made of the host's primitives. *)
Record add_result : Type := mkAdd {
  retval : Z;
  trace : list effect;
  pending : option pyerr;
  called : list (pyobj * list pyobj)
}.

(** The body shared by [libvirt_virEventAddHandleFunc] and
    [libvirt_virEventAddTimeoutFunc]: [invoker] is the name looked up in
    the libvirt module, [obj] the registered add primitive, [cb_obj] the
    wrapped callback and [ids] the wrapped leading arguments.  [None] is
    undefined behaviour. *)
Definition add_func (py : host) (libvirt_dict : pyobj) (obj : option pyobj)
    (invoker : string) (cb_obj : pyobj) (ids : list pyobj) (opaque ff : ptr)
  : option add_result :=
  match libvirt_lookupPythonFunc libvirt_dict invoker with
  | (None, dbg) =>
      Some (mkAdd (-1) ([EnsureThreadState] ++ dbg ++ [ReleaseThreadState])%list
                  None [])
  | (Some python_cb, _) =>
      (* create tuple for cb *)
      let ff_obj := libvirt_virFreeCallbackWrap ff in
      let opaque_obj := libvirt_virVoidPtrWrap opaque in
      let cb_args := PyTuple [cb_obj; opaque_obj; ff_obj] in
      let pyobj_args := (ids ++ [python_cb; cb_args])%list in
      match obj with
      | None => None
      | Some f =>
          match py f pyobj_args with
          | Raised e =>
              Some (mkAdd (-1) [EnsureThreadState; ErrPrint e; ReleaseThreadState]
                          None [(f, pyobj_args)])
          | Returned result =>
              match libvirt_intUnwrap result with
              | Ok v =>
                  Some (mkAdd v [EnsureThreadState; ReleaseThreadState]
                              None [(f, pyobj_args)])
              | Raise e =>
                  Some (mkAdd (-1) [EnsureThreadState; ReleaseThreadState]
                              (Some e) [(f, pyobj_args)])
              | Undef => None
              end
          end
      end
  end.

(** [libvirt_virEventAddHandleFunc]. *)
Definition libvirt_virEventAddHandleFunc (py : host) (libvirt_dict : pyobj)
    (s : impl_state) (fd event : Z) (cb opaque ff : ptr) : option add_result :=
  add_func py libvirt_dict (addHandleObj s) "_eventInvokeHandleCallback"
    (libvirt_virEventHandleCallbackWrap cb)
    [libvirt_intWrap fd; libvirt_intWrap event] opaque ff.

(** [libvirt_virEventAddTimeoutFunc]. *)
Definition libvirt_virEventAddTimeoutFunc (py : host) (libvirt_dict : pyobj)
    (s : impl_state) (timeout : Z) (cb opaque ff : ptr) : option add_result :=
  add_func py libvirt_dict (addTimeoutObj s) "_eventInvokeTimeoutCallback"
    (libvirt_virEventTimeoutCallbackWrap cb)
    [libvirt_intWrap timeout] opaque ff.

(** The body shared by [libvirt_virEventUpdateHandleFunc] and
    [libvirt_virEventUpdateTimeoutFunc], which return nothing. *)
Definition update_func (py : host) (obj : option pyobj) (id arg : Z)
  : option (list effect * list (pyobj * list pyobj)) :=
  match obj with
  | None => None
  | Some f =>
      let pyobj_args := [libvirt_intWrap id; libvirt_intWrap arg] in
      match py f pyobj_args with
      | Raised e =>
          Some ([EnsureThreadState; ErrPrint e; ReleaseThreadState], [(f, pyobj_args)])
      | Returned _ =>
          Some ([EnsureThreadState; ReleaseThreadState], [(f, pyobj_args)])
      end
  end.

Definition libvirt_virEventUpdateHandleFunc (py : host) (s : impl_state)
    (watch event : Z) : option (list effect * list (pyobj * list pyobj)) :=
  update_func py (updateHandleObj s) watch event.

Definition libvirt_virEventUpdateTimeoutFunc (py : host) (s : impl_state)
    (timer timeout : Z) : option (list effect * list (pyobj * list pyobj)) :=
  update_func py (updateTimeoutObj s) timer timeout.

(** Calls of native callbacks through their wrapped pointers. *)
Inductive native_callback : Type :=
| HandleCallback (cb : ptr) (watch fd event : Z) (opaque : ptr)
| TimeoutCallback (cb : ptr) (timer : Z) (opaque : ptr).

(** The result of an invoke shim: the object returned, the exception left
    set by a failed [PyArg_ParseTuple], the native callbacks called. *)
Record invoke_result : Type := mkInvoke {
  returned : pyobj;
  parse_error : option pyerr;
  fired : list native_callback
}.

(** [libvirt_virEventInvokeHandleCallback]; [None] is undefined
    behaviour, the accessors being applied to an object that is no
    capsule. *)
Definition libvirt_virEventInvokeHandleCallback (args : pyobj)
  : option invoke_result :=
  match args with
  | PyTuple [pyobj_watch; pyobj_fd; pyobj_event; py_f; py_opaque] =>
      match (watch <- PyArg_int pyobj_watch ;;
             fd <- PyArg_int pyobj_fd ;;
             event <- PyArg_int pyobj_event ;;
             Ok (watch, fd, event)) with
      | Ok (watch, fd, event) =>
          match PyvirEventHandleCallback_Get py_f, PyvirVoidPtr_Get py_opaque with
          | Some cb, Some opaque =>
              Some (mkInvoke VIR_PY_INT_SUCCESS None
                      (if Nat.eqb cb NULL then []
                       else [HandleCallback cb watch fd event opaque]))
          | _, _ => None
          end
      | Raise e => Some (mkInvoke VIR_PY_INT_FAIL (Some e) [])
      | Undef => None
      end
  | _ => Some (mkInvoke VIR_PY_INT_FAIL (Some bad_arguments) [])
  end.

(** [libvirt_virEventInvokeTimeoutCallback]. *)
Definition libvirt_virEventInvokeTimeoutCallback (args : pyobj)
  : option invoke_result :=
  match args with
  | PyTuple [pyobj_timer; py_f; py_opaque] =>
      match PyArg_int pyobj_timer with
      | Ok timer =>
          match PyvirEventTimeoutCallback_Get py_f, PyvirVoidPtr_Get py_opaque with
          | Some cb, Some opaque =>
              Some (mkInvoke VIR_PY_INT_SUCCESS None
                      (if Nat.eqb cb NULL then []
                       else [TimeoutCallback cb timer opaque]))
          | _, _ => None
          end
      | Raise e => Some (mkInvoke VIR_PY_INT_FAIL (Some e) [])
      | Undef => None
      end
  | _ => Some (mkInvoke VIR_PY_INT_FAIL (Some bad_arguments) [])
  end.

(** The body shared by [libvirt_virEventHandleCallback] and
    [libvirt_virEventTimeoutCallback], through which libvirt fires a
    handle or a timeout that was added from the host: the dispatcher
    [name] of the libvirt module is called with [ids] and the callback
    data. *)
Definition fire_func (py : host) (libvirt_dict : pyobj) (fn name : string)
    (ids : list pyobj) (pyobj_cbData : pyobj)
  : list effect * list (pyobj * list pyobj) :=
  match libvirt_lookupPythonFunc libvirt_dict name with
  | (None, dbg) => ([EnsureThreadState] ++ dbg ++ [ReleaseThreadState], [])%list
  | (Some python_cb, _) =>
      let args := (ids ++ [pyobj_cbData])%list in
      match py python_cb args with
      | Raised e =>
          ([EnsureThreadState] ++ DEBUG (fn ++ " - ret:(nil)")
             ++ [ErrPrint e; ReleaseThreadState], [(python_cb, args)])%list
      | Returned _ =>
          ([EnsureThreadState; ReleaseThreadState], [(python_cb, args)])
      end
  end.

Definition libvirt_virEventHandleCallback (py : host) (libvirt_dict : pyobj)
    (watch fd events : Z) (opaque : pyobj)
  : list effect * list (pyobj * list pyobj) :=
  fire_func py libvirt_dict "libvirt_virEventHandleCallback"
    "_dispatchEventHandleCallback" [PyLong watch; PyLong fd; PyLong events] opaque.

Definition libvirt_virEventTimeoutCallback (py : host) (libvirt_dict : pyobj)
    (timer : Z) (opaque : pyobj) : list effect * list (pyobj * list pyobj) :=
  fire_func py libvirt_dict "libvirt_virEventTimeoutCallback"
    "_dispatchEventTimeoutCallback" [PyLong timer] opaque.

(** *** Domain events dispatched to the connection proxy *)

(** The body shared by the domain event callbacks that take their
    connection proxy from the key [conn] of the callback data: [fn] is
    the name of the C function, [method] the dispatch method and [extra]
    the event's own arguments, passed between the wrapped domain and the
    callback data. *)
Definition dispatch_domain_event (py : method_host) (fn method : string)
    (dom : ptr) (extra : list pyobj) (opaque : pyobj) : Z * list effect :=
  let pyobj_cbData := opaque in
  let dictKey := libvirt_constcharPtrWrap (Some "conn") in
  let pyobj_conn := PyDict_GetItem pyobj_cbData dictKey in
  let pyobj_dom := libvirt_virDomainPtrWrap dom in
  match PyObject_CallMethod py pyobj_conn method
          ([pyobj_dom] ++ extra ++ [pyobj_cbData])%list with
  | Raised e =>
      (-1, [EnsureThreadState; DomainRef dom] ++ DEBUG (fn ++ " - ret:(nil)")
             ++ [ErrPrint e; ReleaseThreadState])%list
  | Returned _ =>
      (0, [EnsureThreadState; DomainRef dom; ReleaseThreadState])
  end.

Definition libvirt_virConnectDomainEventGenericCallback (py : method_host)
    (dom : ptr) (opaque : pyobj) : Z * list effect :=
  dispatch_domain_event py "libvirt_virConnectDomainEventGenericCallback"
    "_dispatchDomainEventGenericCallback" dom [] opaque.

Definition libvirt_virConnectDomainEventRTCChangeCallback (py : method_host)
    (dom : ptr) (utcoffset : Z) (opaque : pyobj) : Z * list effect :=
  dispatch_domain_event py "libvirt_virConnectDomainEventRTCChangeCallback"
    "_dispatchDomainEventRTCChangeCallback" dom [PyLong utcoffset] opaque.

Definition libvirt_virConnectDomainEventWatchdogCallback (py : method_host)
    (dom : ptr) (action : Z) (opaque : pyobj) : Z * list effect :=
  dispatch_domain_event py "libvirt_virConnectDomainEventWatchdogCallback"
    "_dispatchDomainEventWatchdogCallback" dom [PyLong action] opaque.

(** [libvirt_virConnectDomainEventCallback], the callback of the first
    registration interface: its opaque pointer is the connection proxy
    itself. *)
Definition libvirt_virConnectDomainEventCallback (py : method_host)
    (dom : ptr) (event detail : Z) (opaque : pyobj) : Z * list effect :=
  let pyobj_conn := opaque in
  let pyobj_dom := libvirt_virDomainPtrWrap dom in
  match PyObject_CallMethod py (Some pyobj_conn) "_dispatchDomainEventCallbacks"
          [pyobj_dom; PyLong event; PyLong detail] with
  | Raised e =>
      (-1, [EnsureThreadState; DomainRef dom]
             ++ DEBUG "libvirt_virConnectDomainEventCallback - ret:(nil)"
             ++ [ErrPrint e; ReleaseThreadState])%list
  | Returned _ =>
      (0, [EnsureThreadState; DomainRef dom; ReleaseThreadState])
  end.

(** A trace that takes the interpreter's thread state first, leaves it
    last, and does neither in between. *)
Definition is_bracket (ev : effect) : bool :=
  match ev with
  | EnsureThreadState | ReleaseThreadState => true
  | _ => false
  end.

Definition bracketed (log : list effect) : Prop :=
  exists mid,
    log = ([EnsureThreadState] ++ mid ++ [ReleaseThreadState])%list /\
    forallb (fun ev => negb (is_bracket ev)) mid = true.

(** The tuple an add function hands to the host's add primitive as its
    last argument. *)
Definition registration (args : list pyobj) : pyobj := last args PyNone.

End EventAdd.
Export EventAdd.

(* ------------------------------------------------------------------ *)
(** ** Scheduler parameters: the read entry point *)

Module SchedGet.

(** [libvirt_virDomainGetSchedulerParameters]. *)
Definition libvirt_virDomainGetSchedulerParameters (dom : native_domain)
    (args : pyobj) (h : heap) : run :=
  match args with
  | PyTuple [pyobj_domain] =>
      match sched_type dom with
      | None => mkRun (Ok VIR_PY_NONE) h [GetSchedulerType]
      | Some (c_retval, nparams) =>
          let (c, h0) := strdup c_retval h in
          let h1 := VIR_FREE (addr c) h0 in
          if nparams =? 0 then mkRun (Ok PyDict_New) h1 [GetSchedulerType]
          else
            let (params, h2) := VIR_ALLOC_N nparams h1 in
            let log := [GetSchedulerType; GetSchedulerParameters nparams] in
            let '(i_retval, params, nparams, h3) :=
              virDomainGetSchedulerParameters dom params nparams h2 in
            let ret := if i_retval <? 0 then Ok VIR_PY_NONE
                       else getPyVirTypedParameter (elems params) nparams in
            mkRun ret (virTypedParamsFree (Some params) nparams h3)
                  (log ++ [TypedParamsFree (Some params) nparams])%list
      end
  | _ => mkRun (Raise bad_arguments) h []
  end.

(** A domain that reports the parameters [src] of a scheduler [nm]. *)
Definition reports (dom : native_domain) (nm : string)
    (src : list virTypedParameter) : Prop :=
  sched_type dom = Some (nm, Z.of_nat (List.length src)) /\
  sched_params dom = Some src /\
  Forall (fun p => native_entry p = true) src /\
  NoDup (map field src) /\
  Forall (fun p => uint_fits_int p = true) src.

(** The array and count a run handed to [virDomainSetSchedulerParameters]. *)
Definition was_set (r : run) (arr : c_array) (nparams : Z) : Prop :=
  In (SetSchedulerParameters arr nparams) (calls r).

End SchedGet.
Export SchedGet.

(* ------------------------------------------------------------------ *)
(** ** Encoding a dictionary without a schema *)

Module Params.

Definition PyList_Check (o : pyobj) : bool :=
  match o with PyList _ => true | _ => false end.
Definition PyTuple_Check (o : pyobj) : bool :=
  match o with PyTuple _ => true | _ => false end.

(** The items [PySequence_ITEM] enumerates, for a list or a tuple. *)
Definition sequence_items (o : pyobj) : list pyobj :=
  match o with
  | PyList l | PyTuple l => l
  | _ => []
  end.

(** The loop [for (i = 0; i < size; i++)] over the items of a sequence
    value: one call of [virPyDictToTypedParamOne] for each, under the same
    name, until one fails; each call finds the indicator as the one
    before left it. *)
Fixpoint add_each (b : builder) (hints : list virPyTypedParamsHint)
    (keystr : string) (vals : list pyobj) (ind : indicator) (h : heap)
  : one_result :=
  match vals with
  | [] => mkOne 0 ind b h
  | v :: rest =>
      let r := virPyDictToTypedParamOne b hints keystr v ind h in
      if rv r <? 0 then r
      else add_each (params' r) hints keystr rest (raised r) (heap' r)
  end.

(** The [while (PyDict_Next(...))] loop of [virPyDictToTypedParams]; on
    a failure the key's copy is freed, as the first statement under
    [cleanup] does. *)
Fixpoint dict_loop (items : list (pyobj * pyobj)) (b : builder)
    (hints : list virPyTypedParamsHint) (ind : indicator) (h : heap)
  : one_result :=
  match items with
  | [] => mkOne 0 ind b h
  | (key, value) :: rest =>
      match libvirt_charPtrUnwrap key h with
      | (Ok keystr, h1) =>
          let r :=
            if PyList_Check value || PyTuple_Check value
            then add_each b hints (text keystr) (sequence_items value) ind h1
            else virPyDictToTypedParamOne b hints (text keystr) value ind h1 in
          let h2 := VIR_FREE (addr keystr) (heap' r) in
          if rv r <? 0 then mkOne (-1) (raised r) (params' r) h2
          else dict_loop rest (params' r) hints (raised r) h2
      | (Raise e, h1) => mkOne (-1) (Some e) b h1
      | (Undef, h1) => mkOne (-1) ind b h1
      end
  end.

(** [virTypedParamsFree(params, n)] on the list under construction: the
    strings of its entries are freed.  The block that holds the entries
    is libvirt's own and is not part of the allocator state. *)
Definition free_builder (b : builder) (h : heap) : heap :=
  fold_left (clear_entry NULL)
            (enumerate 0 (firstn (Z.to_nat (n b)) (entries b))) h.

(** What [virPyDictToTypedParams] leaves behind: its return value, the
    error indicator, [*ret_params] (empty for NULL), [*ret_nparams] and
    native memory. *)
Record params_result : Type := mkParams {
  ret : Z;
  error : indicator;
  ret_params : list virTypedParameter;
  ret_nparams : Z;
  heap_after : heap
}.

(** [virPyDictToTypedParams(dict, ret_params, ret_nparams, hints, nhints)],
    the indicator being [ind] before the call. *)
Definition virPyDictToTypedParams (dict : pyobj)
    (hints : list virPyTypedParamsHint) (ind : indicator) (h : heap)
  : params_result :=
  match PyDict_Size dict with
  | Ok _ =>
      let r := dict_loop (dict_items dict) (mkBuilder [] 0 0) hints ind h in
      if rv r <? 0
      then mkParams (-1) (raised r) [] 0 (free_builder (params' r) (heap' r))
      else mkParams 0 (raised r) (entries (params' r)) (n (params' r)) (heap' r)
  | Raise e => mkParams (-1) (Some e) [] 0 h
  | Undef => mkParams (-1) ind [] 0 h
  end.

(** The values an item of the dictionary stands for: the items of a list
    or tuple, the value itself otherwise. *)
Definition scalars (value : pyobj) : list pyobj :=
  if PyList_Check value || PyTuple_Check value then sequence_items value
  else [value].

(** The kind the precedence gives a value, -1 when it gives none. *)
Definition kind_of (hints : list virPyTypedParamsHint) (keystr : string)
    (value : pyobj) : Z :=
  match spec_kind hints keystr value with
  | Some t => t
  | None => -1
  end.

(** The name and kind of each entry the items of a dictionary stand for,
    by the precedence. *)
Definition expected_fields (hints : list virPyTypedParamsHint)
    (items : list (pyobj * pyobj)) : list (string * Z) :=
  flat_map (fun item =>
              match fst item with
              | PyStr s =>
                  map (fun v => (c_str s, kind_of hints (c_str s) v))
                      (scalars (snd item))
              | _ => []
              end) items.

(** The exception the sign probe leaves in the indicator for a negative
    integer. *)
Definition negative_probe : pyerr :=
  overflow "can't convert negative int to unsigned".

(** The indicator after a call of [virPyDictToTypedParamOne] that
    returned 0: as before the call, but for a negative integer whose kind
    no hint gives, where the exception of the sign probe is in it. *)
Definition indicator_after (hints : list virPyTypedParamsHint) (keystr : string)
    (value : pyobj) (ind : indicator) : indicator :=
  match spec_hint hints keystr, value with
  | None, PyLong v => if v <? 0 then Some negative_probe else ind
  | _, _ => ind
  end.

Definition name_and_kind (e : virTypedParameter) : string * Z := (field e, type e).

(** What a run of the encoder added to the list [b] and to native memory
    [h]: the entries [es], counted, with their strings the only blocks
    allocated and not freed. *)
Definition grows_by (b : builder) (h : heap) (r : one_result)
    (es : list virTypedParameter) : Prop :=
  entries (params' r) = (entries b ++ es)%list /\
  n (params' r) = n b + Z.of_nat (List.length es) /\
  Forall (fun e => clear_safe e = true) es /\
  live (heap' r) = (rev (string_addrs es) ++ live h)%list /\
  heap_ok (heap' r) /\
  faults (heap' r) = faults h.

End Params.
Export Params.

(* ------------------------------------------------------------------ *)
(** ** Sending keys *)

Module SendKey.

(** [VIR_DOMAIN_SEND_KEY_MAX_KEYS], from libvirt's public header: the
    length of the local array [keycodes]. *)
Definition VIR_DOMAIN_SEND_KEY_MAX_KEYS : Z := 16.

(** Calls of [virDomainSendKey]. *)
Inductive key_call : Type :=
| SendKeyCall (codeset holdtime : Z) (keycodes : list Z) (nkeycodes : Z) (flags : Z).

(** The loop that fills [keycodes] with [libvirt_uintUnwrap] of each item
    of the list. *)
Fixpoint unwrap_keycodes (items : list pyobj) : res (list Z) :=
  match items with
  | [] => Ok []
  | o :: rest =>
      v <- libvirt_uintUnwrap o ;;
      vs <- unwrap_keycodes rest ;;
      Ok (v :: vs)
  end.

(** [libvirt_virDomainSendKey]; [send] is what [virDomainSendKey] returns.
    The count is parsed with the format [i] into an [unsigned int]. *)
Definition libvirt_virDomainSendKey (send : list Z -> Z) (args : pyobj)
  : res pyobj * list key_call :=
  match args with
  | PyTuple [pyobj_domain; pyobj_codeset; pyobj_holdtime; pyobj_list;
             pyobj_nkeycodes; pyobj_flags] =>
      match (codeset <- PyArg_int pyobj_codeset ;;
             holdtime <- PyArg_int pyobj_holdtime ;;
             nkeycodes <- PyArg_int pyobj_nkeycodes ;;
             flags <- PyArg_uint pyobj_flags ;;
             Ok (codeset, holdtime, nkeycodes mod 2 ^ 32, flags)) with
      | Ok (codeset, holdtime, nkeycodes, flags) =>
          match pyobj_list with
          | PyList items =>
              if negb (nkeycodes =? Z.of_nat (List.length items)) ||
                 (VIR_DOMAIN_SEND_KEY_MAX_KEYS <? nkeycodes)
              then (Ok VIR_PY_INT_FAIL, [])
              else
                match unwrap_keycodes items with
                | Ok keycodes =>
                    (Ok (libvirt_intWrap (send keycodes)),
                     [SendKeyCall codeset holdtime keycodes nkeycodes flags])
                | Raise e => (Raise e, [])
                | Undef => (Undef, [])
                end
          | _ => (Ok VIR_PY_INT_FAIL, [])
          end
      | _ => (Ok VIR_PY_INT_FAIL, [])
      end
  | _ => (Ok VIR_PY_INT_FAIL, [])
  end.

End SendKey.
Export SendKey.

(* ------------------------------------------------------------------ *)
(** ** The event bridge: the callbacks of the remaining events *)

Module Events.

(** A [const char *] argument under the format unit [s] of
    [PyObject_CallMethod]: a host string, [None] for NULL. *)
Definition format_s (s : option string) : pyobj :=
  match s with
  | Some t => PyStr t
  | None => PyNone
  end.

(** The cast [(PY_LONG_LONG) actual] of an [unsigned long long]. *)
Definition to_llong (z : Z) : Z := (z + 2 ^ 63) mod 2 ^ 64 - 2 ^ 63.

Definition libvirt_virConnectDomainEventIOErrorCallback (py : method_host)
    (dom : ptr) (srcPath devAlias : option string) (action : Z) (opaque : pyobj)
  : Z * list effect :=
  dispatch_domain_event py "libvirt_virConnectDomainEventIOErrorCallback"
    "_dispatchDomainEventIOErrorCallback" dom
    [format_s srcPath; format_s devAlias; PyLong action] opaque.

Definition libvirt_virConnectDomainEventIOErrorReasonCallback (py : method_host)
    (dom : ptr) (srcPath devAlias : option string) (action : Z)
    (reason : option string) (opaque : pyobj) : Z * list effect :=
  dispatch_domain_event py "libvirt_virConnectDomainEventIOErrorReasonCallback"
    "_dispatchDomainEventIOErrorReasonCallback" dom
    [format_s srcPath; format_s devAlias; PyLong action; format_s reason] opaque.

(** [virDomainEventGraphicsAddress] and the identities of a
    [virDomainEventGraphicsSubject], from libvirt's public header. *)
Record virDomainEventGraphicsAddress : Type := mkGraphicsAddress {
  family : Z;
  node : option string;
  service : option string
}.

Record virDomainEventGraphicsSubjectIdentity : Type := mkIdentity {
  identity_type : option string;
  identity_name : option string
}.

(** [PyDict_SetItem] where the code does not look at its result. *)
Definition set_item (d k v : pyobj) : pyobj :=
  match PyDict_SetItem d k v with
  | Ok d' => d'
  | _ => d
  end.

(** The dictionary built for [local] and for [remote]. *)
Definition graphics_address (a : virDomainEventGraphicsAddress) : pyobj :=
  let d0 := PyDict_New in
  let d1 := set_item d0 (libvirt_constcharPtrWrap (Some "family"))
                     (libvirt_intWrap (family a)) in
  let d2 := set_item d1 (libvirt_constcharPtrWrap (Some "node"))
                     (libvirt_constcharPtrWrap (node a)) in
  set_item d2 (libvirt_constcharPtrWrap (Some "service"))
           (libvirt_constcharPtrWrap (service a)).

(** The list of pairs built for [subject], whose [nidentity] identities
    are [identities]. *)
Definition graphics_subject (identities : list virDomainEventGraphicsSubjectIdentity)
  : pyobj :=
  PyList (map (fun i => PyTuple [libvirt_constcharPtrWrap (identity_type i);
                                 libvirt_constcharPtrWrap (identity_name i)])
              identities).

Definition libvirt_virConnectDomainEventGraphicsCallback (py : method_host)
    (dom : ptr) (phase : Z) (local remote : virDomainEventGraphicsAddress)
    (authScheme : option string)
    (subject : list virDomainEventGraphicsSubjectIdentity) (opaque : pyobj)
  : Z * list effect :=
  let pyobj_local := graphics_address local in
  let pyobj_remote := graphics_address remote in
  let pyobj_subject := graphics_subject subject in
  dispatch_domain_event py "libvirt_virConnectDomainEventGraphicsCallback"
    "_dispatchDomainEventGraphicsCallback" dom
    [PyLong phase; pyobj_local; pyobj_remote; format_s authScheme; pyobj_subject]
    opaque.

Definition libvirt_virConnectDomainEventBlockJobCallback (py : method_host)
    (dom : ptr) (disk : option string) (type_ status : Z) (opaque : pyobj)
  : Z * list effect :=
  dispatch_domain_event py "libvirt_virConnectDomainEventBlockJobCallback"
    "_dispatchDomainEventBlockJobCallback" dom
    [format_s disk; PyLong type_; PyLong status] opaque.

Definition libvirt_virConnectDomainEventDiskChangeCallback (py : method_host)
    (dom : ptr) (oldSrcPath newSrcPath devAlias : option string) (reason : Z)
    (opaque : pyobj) : Z * list effect :=
  dispatch_domain_event py "libvirt_virConnectDomainEventDiskChangeCallback"
    "_dispatchDomainEventDiskChangeCallback" dom
    [format_s oldSrcPath; format_s newSrcPath; format_s devAlias; PyLong reason]
    opaque.

Definition libvirt_virConnectDomainEventTrayChangeCallback (py : method_host)
    (dom : ptr) (devAlias : option string) (reason : Z) (opaque : pyobj)
  : Z * list effect :=
  dispatch_domain_event py "libvirt_virConnectDomainEventTrayChangeCallback"
    "_dispatchDomainEventTrayChangeCallback" dom
    [format_s devAlias; PyLong reason] opaque.

Definition libvirt_virConnectDomainEventPMWakeupCallback (py : method_host)
    (dom : ptr) (reason : Z) (opaque : pyobj) : Z * list effect :=
  dispatch_domain_event py "libvirt_virConnectDomainEventPMWakeupCallback"
    "_dispatchDomainEventPMWakeupCallback" dom [PyLong reason] opaque.

Definition libvirt_virConnectDomainEventPMSuspendCallback (py : method_host)
    (dom : ptr) (reason : Z) (opaque : pyobj) : Z * list effect :=
  dispatch_domain_event py "libvirt_virConnectDomainEventPMSuspendCallback"
    "_dispatchDomainEventPMSuspendCallback" dom [PyLong reason] opaque.

Definition libvirt_virConnectDomainEventBalloonChangeCallback (py : method_host)
    (dom : ptr) (actual : Z) (opaque : pyobj) : Z * list effect :=
  dispatch_domain_event py "libvirt_virConnectDomainEventBalloonChangeCallback"
    "_dispatchDomainEventBalloonChangeCallback" dom [PyLong (to_llong actual)] opaque.

Definition libvirt_virConnectDomainEventPMSuspendDiskCallback (py : method_host)
    (dom : ptr) (reason : Z) (opaque : pyobj) : Z * list effect :=
  dispatch_domain_event py "libvirt_virConnectDomainEventPMSuspendDiskCallback"
    "_dispatchDomainEventPMSuspendDiskCallback" dom [PyLong reason] opaque.

Definition libvirt_virConnectDomainEventDeviceRemovedCallback (py : method_host)
    (dom : ptr) (devAlias : option string) (opaque : pyobj) : Z * list effect :=
  dispatch_domain_event py "libvirt_virConnectDomainEventDeviceRemovedCallback"
    "_dispatchDomainEventDeviceRemovedCallback" dom [format_s devAlias] opaque.

(** [libvirt_virConnectDomainEventTunableCallback]: the typed parameters
    of the event are decoded first, and a failure of the decoding leaves
    through [cleanup] before the domain is referenced or anything is
    dispatched.  Nothing is returned when the decoding is undefined. *)
Definition libvirt_virConnectDomainEventTunableCallback (py : method_host)
    (dom : ptr) (params : list virTypedParameter) (nparams : Z) (opaque : pyobj)
  : option (Z * list effect) :=
  match getPyVirTypedParameter params nparams with
  | Ok pyobj_dict =>
      Some (dispatch_domain_event py "libvirt_virConnectDomainEventTunableCallback"
              "_dispatchDomainEventTunableCallback" dom [pyobj_dict] opaque)
  | Raise e =>
      Some (-1, [EnsureThreadState]
                  ++ DEBUG "libvirt_virConnectDomainEventTunableCallback - ret:(nil)"
                  ++ [ErrPrint e; ReleaseThreadState])%list
  | Undef => None
  end.

Definition libvirt_virConnectDomainEventAgentLifecycleCallback (py : method_host)
    (dom : ptr) (state reason : Z) (opaque : pyobj) : Z * list effect :=
  dispatch_domain_event py "libvirt_virConnectDomainEventAgentLifecycleCallback"
    "_dispatchDomainEventAgentLifecycleCallback" dom
    [PyLong state; PyLong reason] opaque.

Definition libvirt_virConnectDomainEventDeviceAddedCallback (py : method_host)
    (dom : ptr) (devAlias : option string) (opaque : pyobj) : Z * list effect :=
  dispatch_domain_event py "libvirt_virConnectDomainEventDeviceAddedCallback"
    "_dispatchDomainEventDeviceAddedCallback" dom [format_s devAlias] opaque.

(** Modelled from the spec: [libvirt_virNetworkPtrWrap], defined in
    typewrappers.c and not in libvirt-override.c: the native object
    wrapped for host consumption as an opaque capsule. *)
Definition libvirt_virNetworkPtrWrap (net : ptr) : pyobj :=
  if Nat.eqb net NULL then PyNone else PyCapsule "virNetworkPtr" net.

(** [libvirt_virConnectNetworkEventLifecycleCallback]. *)
Definition libvirt_virConnectNetworkEventLifecycleCallback (py : method_host)
    (net : ptr) (event detail : Z) (opaque : pyobj) : Z * list effect :=
  let pyobj_cbData := opaque in
  let dictKey := libvirt_constcharPtrWrap (Some "conn") in
  let pyobj_conn := PyDict_GetItem pyobj_cbData dictKey in
  let pyobj_net := libvirt_virNetworkPtrWrap net in
  match PyObject_CallMethod py pyobj_conn "_dispatchNetworkEventLifecycleCallback"
          [pyobj_net; PyLong event; PyLong detail; pyobj_cbData] with
  | Raised e =>
      (-1, [EnsureThreadState; NetworkRef net]
             ++ DEBUG "libvirt_virConnectNetworkEventLifecycleCallback - ret:(nil)"
             ++ [ErrPrint e; ReleaseThreadState])%list
  | Returned _ =>
      (0, [EnsureThreadState; NetworkRef net; ReleaseThreadState])
  end.

(** The return code of a dispatch callback in the words of the amended
    claim, for a callback that takes [conn] for its connection proxy and
    calls its [method] with [args]; [r] is the value it returns to
    libvirt and what it did: success when the method was invoked and
    returned a value, failure with the exception printed in every other
    case. *)
Definition return_code_rule (py : method_host) (conn : option pyobj)
    (method : string) (args : list pyobj) (r : Z * list effect) : Prop :=
  (forall proxy v,
      conn = Some proxy ->
      py proxy method args = MethodReturned v ->
      fst r = 0 /\ logged (snd r) = false) /\
  (forall proxy e,
      conn = Some proxy ->
      py proxy method args = MethodRaised e ->
      fst r = -1 /\ In (ErrPrint e) (snd r)) /\
  (forall proxy,
      conn = Some proxy ->
      py proxy method args = AttrMissing ->
      fst r = -1 /\ exists e, exc e = PyExc_AttributeError /\ In (ErrPrint e) (snd r)) /\
  (conn = None ->
      fst r = -1 /\ exists e, exc e = PyExc_SystemError /\ In (ErrPrint e) (snd r)).

End Events.
Export Events.

(* ------------------------------------------------------------------ *)
(** ** Properties of the entry points above *)

Module MoreProps.

(** Whether the dispatch method of a connection proxy was called and
    returned. *)
Definition dispatch_returned (py : method_host) (conn : option pyobj)
    (method : string) (args : list pyobj) : bool :=
  match conn with
  | Some c =>
      match py c method args with
      | MethodReturned _ => true
      | _ => false
      end
  | None => false
  end.

(** What a domain event callback tells libvirt and the user about the
    dispatch: 0 and silence when the method returned, -1 and the printed
    exception otherwise; the domain is referenced either way. *)
Definition reports_dispatch (py : method_host) (conn : option pyobj)
    (method : string) (args : list pyobj) (dom : ptr) (r : Z * list effect) : Prop :=
  In (DomainRef dom) (snd r) /\
  if dispatch_returned py conn method args
  then fst r = 0 /\ logged (snd r) = false
  else fst r = -1 /\ exists e, In (ErrPrint e) (snd r).

(** The objects in the slots of the event implementation. *)
Definition slot_objects (s : impl_state) : list pyobj :=
  flat_map (fun o => match o with Some x => [x] | None => [] end) (installed s).

(** A state in which the module holds exactly one reference for each
    object in a slot, all of them callables, and has dropped none it did
    not hold. *)
Definition owns_slots (s : impl_state) : Prop :=
  Permutation (held (refs s)) (slot_objects s) /\
  stolen (refs s) = [] /\
  Forall (fun o => PyCallable_Check o = true) (slot_objects s).

(** The entry of an array that a lookup of a decoded mapping answers
    with: the last one of the name. *)
Definition last_named (params : list virTypedParameter) (nm : string)
  : option virTypedParameter :=
  find (fun p => String.eqb (field p) nm) (rev params).

End MoreProps.
Export MoreProps.

(* ------------------------------------------------------------------ *)
(** ** More concrete inputs *)

Module MoreInputs.

(** A host with four processors and a domain on it whose pinning libvirt
    accepts. *)
Definition quad_domain : pin_domain :=
  mkPinDomain (mkNode 4 0 1 1 4 1) (fun _ => 0) None.

Definition three_flags : list pyobj := [PyBool true; PyLong 0; PyStr "yes"].

Definition nine_flags : list pyobj := repeat (PyBool true) 9.

(** The dictionary of a libvirt module that defines the two invokers. *)
Definition module_dict : pyobj :=
  PyDict [(PyStr "_eventInvokeHandleCallback", PyFunc 21);
          (PyStr "_eventInvokeTimeoutCallback", PyFunc 22)].

(** An event loop that has one handle (watch 7) and one timeout (timer 8)
    and hands back, on removal, the tuple it was given for each. *)
Definition loop_host : host :=
  fun f args =>
    match f, args with
    | PyFunc 1, _ => Returned (PyLong 7)
    | PyFunc 4, _ => Returned (PyLong 8)
    | PyFunc 3, [PyLong 7] =>
        Returned (PyTuple [PyCapsule "virEventHandleCallback" 400%nat;
                           PyCapsule "void*" 500%nat;
                           PyCapsule "virFreeCallback" 600%nat])
    | PyFunc 6, [PyLong 8] =>
        Returned (PyTuple [PyCapsule "virEventTimeoutCallback" 400%nat;
                           PyCapsule "void*" 500%nat;
                           PyCapsule "virFreeCallback" 600%nat])
    | _, _ => Returned PyNone
    end.

Definition handle_args : list pyobj :=
  [PyLong 9; PyLong 1; PyFunc 21;
   PyTuple [PyCapsule "virEventHandleCallback" 400%nat;
            PyCapsule "void*" 500%nat;
            PyCapsule "virFreeCallback" 600%nat]].

Definition timeout_args : list pyobj :=
  [PyLong 250; PyFunc 22;
   PyTuple [PyCapsule "virEventTimeoutCallback" 400%nat;
            PyCapsule "void*" 500%nat;
            PyCapsule "virFreeCallback" 600%nat]].

Definition handle_added : add_result :=
  mkAdd 7 [EnsureThreadState; ReleaseThreadState] None [(PyFunc 1, handle_args)].

Definition timeout_added : add_result :=
  mkAdd 8 [EnsureThreadState; ReleaseThreadState] None [(PyFunc 4, timeout_args)].

Definition two_params : list virTypedParameter :=
  [mkParam "cpu_shares" VIR_TYPED_PARAM_ULLONG (U_ul 1024);
   mkParam "vcpu_period" VIR_TYPED_PARAM_ULLONG (U_ul 100000)].

(** Migration parameters with a list under one name. *)
Definition migrate_params : pyobj :=
  PyDict [(PyStr "bandwidth", PyLong 10);
          (PyStr "migrate_disks", PyList [PyStr "vda"; PyStr "vdb"])].

(** A negative integer, then the largest unsigned 64-bit integer. *)
Definition negative_then_largest : pyobj :=
  PyDict [(PyStr "offset", PyLong (-5));
          (PyStr "bandwidth", PyLong 18446744073709551615)].

(** An array that names a field twice. *)
Definition twice_named : list virTypedParameter :=
  [mkParam "weight" VIR_TYPED_PARAM_INT (U_i 1);
   mkParam "weight" VIR_TYPED_PARAM_INT (U_i 2)].

End MoreInputs.
Export MoreInputs.

(* ------------------------------------------------------------------ *)
(** * Decoding *)

Lemma wrap_value_known (p : virTypedParameter) :
  known_kind (type p) = true -> member_ok p = true ->
  exists v, wrap_value p = Ok v.
Proof.
  unfold known_kind, member_ok, wrap_value, is_some, of_member.
  intros Hk Hm.
  repeat match goal with
         | |- context [?a =? ?b] => destruct (Z.eqb_spec a b)
         end;
    try (match type of Hm with
         | context [match ?o with _ => _ end] => destruct o
         end; [eexists; reflexivity | discriminate]).
  apply andb_prop in Hk. destruct Hk as [Hlo Hhi].
  apply Z.leb_le in Hlo. apply Z.leb_le in Hhi.
  unfold VIR_TYPED_PARAM_INT, VIR_TYPED_PARAM_UINT, VIR_TYPED_PARAM_LLONG,
    VIR_TYPED_PARAM_ULLONG, VIR_TYPED_PARAM_DOUBLE, VIR_TYPED_PARAM_BOOLEAN,
    VIR_TYPED_PARAM_STRING in *.
  lia.
Qed.

Lemma wrap_value_unknown (p : virTypedParameter) :
  known_kind (type p) = false ->
  wrap_value p = Raise (unrecognized_type (type p)).
Proof.
  unfold known_kind, wrap_value. intros Hk.
  repeat match goal with
         | |- context [?a =? ?b] => destruct (Z.eqb_spec a b)
         end;
    try reflexivity;
    match goal with
    | E : type p = _ |- _ => rewrite E in Hk; discriminate Hk
    end.
Qed.

Lemma set_item_string (items : list (pyobj * pyobj)) (k : string) (v : pyobj) :
  PyDict_SetItem (PyDict items) (libvirt_constcharPtrWrap (Some k)) v
  = Ok (PyDict (assoc_set (PyStr k) v items)).
Proof. reflexivity. Qed.

(** Decoding fails at the first entry of an unknown kind, whatever comes
    after it. *)
Lemma get_loop_stops (pre : list virTypedParameter) :
  forall (bad : virTypedParameter) (post : list virTypedParameter)
         (items : list (pyobj * pyobj)) (k : Z),
    Forall (fun p => known_kind (type p) = true /\ member_ok p = true) pre ->
    known_kind (type bad) = false ->
    Z.of_nat (List.length pre) < k ->
    get_loop (pre ++ bad :: post) k (PyDict items)
    = Raise (unrecognized_type (type bad)).
Proof.
  induction pre as [| p pre IH]; intros bad post items k Hpre Hbad Hk.
  - simpl in *. destruct (Z.leb_spec k 0); [lia |].
    rewrite (wrap_value_unknown bad Hbad). reflexivity.
  - inversion Hpre as [| ? ? [Hkn Hm] Hrest]; subst.
    change ((p :: pre) ++ bad :: post)%list with (p :: (pre ++ bad :: post))%list.
    cbn [get_loop]. cbn [List.length] in Hk. rewrite Nat2Z.inj_succ in Hk.
    destruct (Z.leb_spec k 0); [lia |].
    destruct (wrap_value_known p Hkn Hm) as [v Hv]. rewrite Hv.
    cbn [bind]. rewrite set_item_string. cbn [bind].
    apply IH; [assumption | assumption | lia].
Qed.

(** A list with an entry of unknown kind splits at the first such entry. *)
Lemma first_unknown (params : list virTypedParameter) :
  Exists (fun p => known_kind (type p) = false) params ->
  exists pre bad post,
    params = (pre ++ bad :: post)%list /\
    Forall (fun p => known_kind (type p) = true) pre /\
    known_kind (type bad) = false.
Proof.
  induction params as [| p rest IH]; intros Hex.
  - inversion Hex.
  - destruct (known_kind (type p)) eqn:Hp.
    + assert (Hrest : Exists (fun q => known_kind (type q) = false) rest).
      { inversion Hex as [? ? H0 | ? ? H0]; subst; [congruence | exact H0]. }
      destruct (IH Hrest) as (pre & bad & post & -> & Hpre & Hbad).
      exists (p :: pre), bad, post. repeat split; auto.
    + exists [], p, rest. repeat split; auto.
Qed.

(** C10. Decoding an empty typed-value set, that is a call of
    getPyVirTypedParameter with nparams = 0, succeeds for every array
    argument and returns a newly created empty dictionary. *)
Theorem decode_count_zero_gives_empty_dict :
  forall params : list virTypedParameter,
    getPyVirTypedParameter params 0 = Ok PyDict_New /\ PyDict_New = PyDict [].
Proof.
  intros params. split; [| reflexivity].
  unfold getPyVirTypedParameter. destruct params; reflexivity.
Qed.

(** C4. Decoding a typed-value set that contains an element of a kind
    outside Int32..String raises LookupError with the message
    [Type value "<code>" not recognized], where <code> is the numeric kind
    of the first such element; decoding stops there (nothing after that
    element is looked at) and no mapping is returned. *)
Theorem decode_rejects_unknown_kind :
  forall params : list virTypedParameter,
    Forall (fun p => member_ok p = true) params ->
    Exists (fun p => known_kind (type p) = false) params ->
    exists pre bad post,
      params = (pre ++ bad :: post)%list /\
      Forall (fun p => known_kind (type p) = true) pre /\
      known_kind (type bad) = false /\
      let rejected :=
        Raise (PyErr_Format PyExc_LookupError
                 ("Type value " ++ quoted (fmt_d (type bad)) ++ " not recognized")) in
      getPyVirTypedParameter params (Z.of_nat (List.length params)) = rejected /\
      forall post',
        getPyVirTypedParameter (pre ++ bad :: post')
          (Z.of_nat (List.length (pre ++ bad :: post'))) = rejected.
Proof.
  intros params Hwf Hex.
  destruct (first_unknown params Hex) as (pre & bad & post & -> & Hpre & Hbad).
  exists pre, bad, post.
  split; [reflexivity |]. split; [assumption |]. split; [assumption |].
  assert (Hpre' : Forall (fun p => known_kind (type p) = true /\ member_ok p = true) pre).
  { apply Forall_app in Hwf. destruct Hwf as [Hwf _].
    rewrite Forall_forall in *. intros x Hx. split; auto. }
  assert (Hgo : forall post',
             getPyVirTypedParameter (pre ++ bad :: post')
               (Z.of_nat (List.length (pre ++ bad :: post')))
             = Raise (unrecognized_type (type bad))).
  { intros post'. unfold getPyVirTypedParameter, as_size_t, PyDict_New.
    destruct (Z.ltb_spec (Z.of_nat (List.length (pre ++ bad :: post'))) 0); [lia |].
    apply get_loop_stops; auto.
    rewrite length_app. simpl. lia. }
  unfold unrecognized_type in Hgo. cbv zeta.
  split; [apply Hgo | exact Hgo].
Qed.

Lemma decode_rejects_unknown_kind_witness :
  exists pre bad post,
    future_set = (pre ++ bad :: post)%list /\
    Forall (fun p => known_kind (type p) = true) pre /\
    known_kind (type bad) = false /\
    let rejected :=
      Raise (PyErr_Format PyExc_LookupError
               ("Type value " ++ quoted (fmt_d (type bad)) ++ " not recognized")) in
    getPyVirTypedParameter future_set (Z.of_nat (List.length future_set)) = rejected /\
    forall post',
      getPyVirTypedParameter (pre ++ bad :: post')
        (Z.of_nat (List.length (pre ++ bad :: post'))) = rejected.
Proof.
  apply (decode_rejects_unknown_kind future_set).
  - repeat constructor.
  - apply Exists_cons_tl. apply Exists_cons_hd. reflexivity.
Defined.

(* ------------------------------------------------------------------ *)
(** * The round trip of an unsigned 32-bit entry *)

(** The round trip of an unsigned 32-bit entry above INT_MAX.  On the
    one-entry set [cpu_shares : UInt32 = 2147483648], a well-formed set,
    getPyVirTypedParameter passes the unsigned payload to libvirt_intWrap,
    whose parameter is an int, so the mapping holds -2147483648;
    setPyVirTypedParameter then refuses that value for the UInt32 field
    with OverflowError and returns no array.  Elsewhere in the file an
    unsigned int goes through libvirt_uintWrap. *)
Lemma uint_above_int_max_does_not_round_trip :
  Forall (fun p => native_entry p = true) cpu_shares_big /\
  NoDup (map field cpu_shares_big) /\
  getPyVirTypedParameter cpu_shares_big 1
  = Ok (PyDict [(PyStr "cpu_shares", PyLong (-2147483648))]) /\
  fst (setPyVirTypedParameter (PyDict [(PyStr "cpu_shares", PyLong (-2147483648))])
         cpu_shares_big 1 empty_heap)
  = Raise (overflow "Python int too large to convert to C unsigned int") /\
  ~ roundtrip cpu_shares_big.
Proof.
  split; [repeat constructor |].
  split; [repeat constructor; intros [] |].
  split; [reflexivity |].
  split; [reflexivity |].
  intros (d & ret & h & Hget & Hset & _).
  vm_compute in Hget. inversion Hget; subst d.
  vm_compute in Hset. discriminate Hset.
Qed.

(* ------------------------------------------------------------------ *)
(** * Kind selection without a schema *)

Lemma lookup_hint_spec (hints : list virPyTypedParamsHint) (keystr : string) :
  hints_ok hints ->
  match spec_hint hints keystr with
  | Some t => lookup_hint hints keystr = t /\ known_kind t = true
  | None => lookup_hint hints keystr = -1
  end.
Proof.
  intros Hh. induction Hh as [| hnt rest Hk _ IH]; simpl; [reflexivity |].
  destruct (String.eqb (name hnt) keystr); [auto | exact IH].
Qed.

(** The selection and the indicator it leaves, wherever a hint decides or
    the sign probe is not misled. *)
Lemma select_type_spec (hints : list virPyTypedParamsHint) (keystr : string)
    (value : pyobj) (ind : indicator) :
  hints_ok hints ->
  (spec_hint hints keystr = None ->
   forall v, value = PyLong v -> v < ULLONG_MAX \/ (v = ULLONG_MAX /\ ind = None)) ->
  select_type hints keystr value ind
  = (kind_of hints keystr value, indicator_after hints keystr value ind).
Proof.
  intros Hh Hv. unfold select_type, kind_of, spec_kind, indicator_after.
  pose proof (lookup_hint_spec hints keystr Hh) as Hl.
  destruct (spec_hint hints keystr) as [t |].
  - destruct Hl as [-> Hk]. destruct (Z.eqb_spec t (-1)); [| reflexivity].
    subst t. discriminate Hk.
  - rewrite Hl. specialize (Hv eq_refl). cbn [Z.eqb Pos.eqb].
    destruct value; try reflexivity.
    specialize (Hv v eq_refl).
    unfold infer_type, PyLong_AsUnsignedLongLong, negative_probe.
    cbn [PyUnicode_Check PyBool_Check PyLong_Check int_value].
    destruct (Z.ltb_spec v 0); [reflexivity |].
    destruct (Z.leb_spec v ULLONG_MAX); [| lia].
    cbn [c_value].
    destruct Hv as [Hlt | [-> ->]].
    + destruct (Z.eqb_spec v ULLONG_MAX); [lia | reflexivity].
    + reflexivity.
Qed.

(** X2. For hints that carry recognized kinds, and a value that is no
    integer above [ULLONG_MAX] and is not [ULLONG_MAX] itself met with an
    exception pending, the kind virPyDictToTypedParamOne selects is the
    kind of the first hint with the entry's name; without such a hint it
    is String for a string, Boolean for a boolean, Int64 for a negative
    integer and UInt64 for any other, Double for a floating-point number,
    and none for any other value.  The selection leaves the indicator as
    it found it, but for a negative integer without a hint: there the
    OverflowError of the sign probe stays in it. *)
Lemma select_type_follows_precedence
    (hints : list virPyTypedParamsHint) (keystr : string) (value : pyobj)
    (ind : indicator) :
  hints_ok hints ->
  (forall v, value = PyLong v -> v < ULLONG_MAX \/ (v = ULLONG_MAX /\ ind = None)) ->
  fst (select_type hints keystr value ind)
  = match spec_kind hints keystr value with
    | Some t => t
    | None => -1
    end /\
  snd (select_type hints keystr value ind)
  = match spec_hint hints keystr, value with
    | None, PyLong v =>
        if v <? 0 then Some (overflow "can't convert negative int to unsigned")
        else ind
    | _, _ => ind
    end.
Proof.
  intros Hh Hv.
  rewrite (select_type_spec hints keystr value ind Hh (fun _ => Hv)).
  split; reflexivity.
Qed.

(** C6. The dictionary [{offset: -5, bandwidth: 18446744073709551615}]
    (the second value is 2^64 - 1, a non-negative integer) and no hints.
    The sign probe of [offset] fails, as it must for a negative integer,
    and its OverflowError stays in the indicator: the entry is appended
    and 0 returned with the exception pending.  For [bandwidth] the probe
    succeeds and returns 2^64 - 1, which is the value
    [(unsigned long long) -1] the code takes for the failure mark, and
    [PyErr_Occurred] still answers for the earlier probe: the code
    selects Int64 where the precedence of the specification, and the
    comment above virPyDictToTypedParams, select UInt64, as the code
    itself does when no exception is pending.  The Int64 conversion then
    refuses the value and the whole call fails. *)
Theorem stale_probe_error_selects_llong :
  let offset := PyLong (-5) in
  let bandwidth := PyLong 18446744073709551615 in
  let r1 := virPyDictToTypedParamOne (mkBuilder [] 0 0) [] "offset" offset None
              empty_heap in
  rv r1 = 0 /\
  entries (params' r1) = [mkParam "offset" VIR_TYPED_PARAM_LLONG (U_l (-5))] /\
  raised r1 = Some (overflow "can't convert negative int to unsigned") /\
  spec_kind [] "bandwidth" bandwidth = Some VIR_TYPED_PARAM_ULLONG /\
  fst (select_type [] "bandwidth" bandwidth None) = VIR_TYPED_PARAM_ULLONG /\
  fst (select_type [] "bandwidth" bandwidth (raised r1)) = VIR_TYPED_PARAM_LLONG /\
  let r := virPyDictToTypedParams
             (PyDict [(PyStr "offset", offset); (PyStr "bandwidth", bandwidth)])
             [] None empty_heap in
  ret r = -1 /\
  ret_params r = [] /\
  error r = Some (overflow "int too big to convert") /\
  ret (virPyDictToTypedParams (PyDict [(PyStr "bandwidth", bandwidth)]) [] None
         empty_heap) = 0.
Proof. repeat split; reflexivity. Qed.

(* ------------------------------------------------------------------ *)
(** * Scheduler parameters *)

(** C8. libvirt_virDomainSetSchedulerParametersFlags, called for a domain
    with two scheduler parameters and the mapping [{cpu_shares: 2048}],
    hands the native setter the override array with the cardinality of
    the mapping (1) and succeeds, but then releases that one-entry array
    with the count of the full schema (2): virTypedParamsFree reads past
    its end.  libvirt_virDomainSetSchedulerParameters, on the same input,
    releases each array with its own length and leaves nothing
    allocated. *)
Theorem flags_setter_frees_override_with_schema_count :
  let dom := PyCapsule "virDomainPtr" 100%nat in
  let r := libvirt_virDomainSetSchedulerParametersFlags two_param_domain
             (PyTuple [dom; one_override; PyLong 0]) empty_heap in
  let r' := libvirt_virDomainSetSchedulerParameters two_param_domain
              (PyTuple [dom; one_override]) empty_heap in
  result r = Ok VIR_PY_INT_SUCCESS /\
  In (SetSchedulerParametersFlags
        (mkArray 3%nat [mkParam "cpu_shares" VIR_TYPED_PARAM_ULLONG (U_ul 2048)]) 1 0)
     (calls r) /\
  In (TypedParamsFree
        (Some (mkArray 3%nat [mkParam "cpu_shares" VIR_TYPED_PARAM_ULLONG (U_ul 2048)])) 2)
     (calls r) /\
  forallb freed_with_own_length (calls r) = false /\
  faults (final r) = [OutOfBounds 3%nat 1%nat] /\
  result r' = Ok VIR_PY_INT_SUCCESS /\
  forallb freed_with_own_length (calls r') = true /\
  faults (final r') = [] /\
  live (final r') = [].
Proof.
  cbv zeta. repeat split; try reflexivity.
  - vm_compute. tauto.
  - vm_compute. tauto.
Qed.

(* ------------------------------------------------------------------ *)
(** * Registration of the event loop *)

Lemma accepted_six (args : pyobj) (six : list pyobj) :
  accepted args = Some six ->
  exists a b c d e f,
    args = PyTuple [a; b; c; d; e; f] /\ six = [a; b; c; d; e; f] /\
    PyCallable_Check a = true /\ PyCallable_Check b = true /\
    PyCallable_Check c = true /\ PyCallable_Check d = true /\
    PyCallable_Check e = true /\ PyCallable_Check f = true.
Proof.
  unfold accepted, parse_six. intros H.
  destruct args as [| | | | | | l | | | |]; try discriminate H.
  destruct l as [| a [| b [| c [| d [| e [| f [| g l]]]]]]]; try discriminate H.
  destruct (forallb PyCallable_Check [a; b; c; d; e; f]) eqn:Hall; [| discriminate H].
  inversion H; subst six. simpl in Hall.
  repeat (apply andb_prop in Hall; destruct Hall as [? Hall]).
  exists a, b, c, d, e, f. repeat split; assumption.
Qed.

Ltac run_register :=
  unfold libvirt_virEventRegisterImpl, parse_six; cbn [fst snd].

(** C2 as stated fails: with six callables installed, a registration
    whose first argument is [None] is rejected, yet afterwards the slots
    hold the rejected arguments and no reference on the previous set is
    held; a registration with no argument at all is rejected as well and
    leaves the slots as they were, but the references are gone too. *)
Lemma failed_registration_is_not_atomic :
  let s' := snd (libvirt_virEventRegisterImpl five_callables_and_none registered) in
  let s'' := snd (libvirt_virEventRegisterImpl (PyTuple []) registered) in
  fst (libvirt_virEventRegisterImpl five_callables_and_none registered) = VIR_PY_INT_FAIL /\
  held (refs registered)
  = [PyFunc 6; PyFunc 5; PyFunc 4; PyFunc 3; PyFunc 2; PyFunc 1] /\
  addHandleObj s' = Some PyNone /\
  held (refs s') = [] /\
  installed s'' = installed registered /\
  held (refs s'') = [] /\
  ~ atomic_on_failure five_callables_and_none registered /\
  ~ atomic_on_failure (PyTuple []) registered.
Proof.
  cbv zeta. repeat (split; [reflexivity |]).
  split; unfold atomic_on_failure; intros H; specialize (H eq_refl).
  - destruct H as [Hinst _]. vm_compute in Hinst. discriminate Hinst.
  - destruct H as [_ Hheld]. vm_compute in Hheld. discriminate Hheld.
Qed.

(** C2, amended. Whenever libvirt_virEventRegisterImpl is called with
    arguments that do not parse as six objects or of which one is not
    callable, it returns failure (-1), takes no reference on the arguments
    and does not call virEventRegisterImpl of the native library; the
    references held on the previously installed set are released at the
    start of the call, before validation, whether or not the call
    succeeds.  On success the six arguments are the installed set, each
    with one reference held, and the native implementation is installed
    once more. *)
Theorem register_impl_releases_then_installs :
  forall (args : pyobj) (s : impl_state),
    (accepted args = None ->
       fst (libvirt_virEventRegisterImpl args s) = VIR_PY_INT_FAIL /\
       refs (snd (libvirt_virEventRegisterImpl args s)) = release_all s /\
       native_registrations (snd (libvirt_virEventRegisterImpl args s))
       = native_registrations s) /\
    (forall six,
       accepted args = Some six ->
       fst (libvirt_virEventRegisterImpl args s) = VIR_PY_INT_SUCCESS /\
       installed (snd (libvirt_virEventRegisterImpl args s)) = map Some six /\
       refs (snd (libvirt_virEventRegisterImpl args s))
       = retain_all six (release_all s) /\
       native_registrations (snd (libvirt_virEventRegisterImpl args s))
       = S (native_registrations s)).
Proof.
  intros args s. split.
  - unfold accepted. intros Hrej.
    destruct (parse_six args) as [six |] eqn:Hparse.
    + destruct args as [| | | | | | l | | | |]; try discriminate Hparse.
      destruct l as [| a [| b [| c [| d [| e [| f [| g l]]]]]]];
        try discriminate Hparse.
      inversion Hparse; subst six. clear Hparse.
      destruct (forallb PyCallable_Check [a; b; c; d; e; f]) eqn:Hall;
        [discriminate Hrej |].
      run_register. simpl in Hall.
      destruct (PyCallable_Check a), (PyCallable_Check b), (PyCallable_Check c),
        (PyCallable_Check d), (PyCallable_Check e), (PyCallable_Check f);
        try discriminate Hall; repeat split; reflexivity.
    + unfold libvirt_virEventRegisterImpl. rewrite Hparse.
      repeat split; reflexivity.
  - intros six Hacc.
    destruct (accepted_six args six Hacc)
      as (a & b & c & d & e & f & -> & -> & Ha & Hb & Hc & Hd & He & Hf).
    run_register. rewrite Ha, Hb, Hc, Hd, He, Hf.
    repeat split; reflexivity.
Qed.

Lemma register_impl_releases_then_installs_witness :
  (fst (libvirt_virEventRegisterImpl five_callables_and_none registered)
   = VIR_PY_INT_FAIL /\
   refs (snd (libvirt_virEventRegisterImpl five_callables_and_none registered))
   = release_all registered /\
   native_registrations
     (snd (libvirt_virEventRegisterImpl five_callables_and_none registered))
   = native_registrations registered) /\
  (fst (libvirt_virEventRegisterImpl six_callables initial_state)
   = VIR_PY_INT_SUCCESS /\
   installed (snd (libvirt_virEventRegisterImpl six_callables initial_state))
   = map Some [PyFunc 1; PyFunc 2; PyFunc 3; PyFunc 4; PyFunc 5; PyFunc 6] /\
   refs (snd (libvirt_virEventRegisterImpl six_callables initial_state))
   = retain_all [PyFunc 1; PyFunc 2; PyFunc 3; PyFunc 4; PyFunc 5; PyFunc 6]
       (release_all initial_state) /\
   native_registrations (snd (libvirt_virEventRegisterImpl six_callables initial_state))
   = S (native_registrations initial_state)).
Proof.
  split.
  - apply (proj1 (register_impl_releases_then_installs
                    five_callables_and_none registered)).
    reflexivity.
  - apply (proj2 (register_impl_releases_then_installs six_callables initial_state)
             [PyFunc 1; PyFunc 2; PyFunc 3; PyFunc 4; PyFunc 5; PyFunc 6]).
    reflexivity.
Defined.

(* ------------------------------------------------------------------ *)
(** * Removal of a handle or a timeout *)

Lemma remove_func_protocol (py : host) (f : pyobj) (dbg : string) (id : Z) :
  remove_protocol py f id (remove_func py (Some f) dbg id).
Proof.
  unfold remove_protocol, remove_func. repeat split.
  - intros tid opaque ff o cff Hcall Ho Hff.
    rewrite Hcall, Hff, Ho.
    eexists. split; [reflexivity |].
    unfold releases. destruct (Nat.eqb cff NULL); reflexivity.
  - intros e Hcall. rewrite Hcall.
    eexists. split; [reflexivity |]. split; [simpl; auto | reflexivity].
  - intros v Hcall Hshape. rewrite Hcall.
    destruct v as [| | | | | | l | | | |];
      try (eexists; split; [reflexivity |]; split; reflexivity).
    destruct l as [| a [| b [| c [| d l]]]];
      try (eexists; split; [reflexivity |]; split; reflexivity).
    discriminate Hshape.
Qed.

(** C3 as stated fails: when the remove primitive returns [None], the
    removal is reported as failed and nothing is released, but nothing is
    logged either: the DEBUG statement of that branch is compiled out. *)
Lemma malformed_result_is_not_logged :
  libvirt_virEventRemoveHandleFunc forgetful_host registered 7
  = Some (-1, [EnsureThreadState; ReleaseThreadState]) /\
  ~ violation_reported (libvirt_virEventRemoveHandleFunc forgetful_host registered 7).
Proof.
  split; [reflexivity |].
  intros (log & Hrun & Hlog & _).
  vm_compute in Hrun. inversion Hrun; subst log.
  vm_compute in Hlog. discriminate Hlog.
Qed.

(** C3, amended. For every call of libvirt_virEventRemoveHandleFunc and of
    libvirt_virEventRemoveTimeoutFunc with a remove primitive registered:
    if the primitive returns a 3-tuple whose second and third elements are
    the capsules of the opaque pointer and of the release function, the
    release function, when not NULL, is called exactly once on that
    opaque pointer and the removal returns 0; if the primitive raises, the
    exception is printed, no release function is called and the removal
    returns -1; if it returns anything that is not a 3-tuple, no release
    function is called and the removal returns -1, with no message
    written, the DEBUG diagnostic being compiled out. *)
Theorem remove_functions_follow_protocol :
  forall (py : host) (s : impl_state) (id : Z) (f : pyobj),
    (removeHandleObj s = Some f ->
     remove_protocol py f id (libvirt_virEventRemoveHandleFunc py s id)) /\
    (removeTimeoutObj s = Some f ->
     remove_protocol py f id (libvirt_virEventRemoveTimeoutFunc py s id)).
Proof.
  intros py s id f. split; intros Hreg.
  - unfold libvirt_virEventRemoveHandleFunc. rewrite Hreg.
    apply remove_func_protocol.
  - unfold libvirt_virEventRemoveTimeoutFunc. rewrite Hreg.
    apply remove_func_protocol.
Qed.

Lemma remove_functions_follow_protocol_witness :
  remove_protocol faithful_host (PyFunc 3) 7
    (libvirt_virEventRemoveHandleFunc faithful_host registered 7) /\
  remove_protocol raising_host (PyFunc 6) 7
    (libvirt_virEventRemoveTimeoutFunc raising_host registered 7).
Proof.
  split.
  - apply (proj1 (remove_functions_follow_protocol faithful_host registered 7 (PyFunc 3))).
    reflexivity.
  - apply (proj2 (remove_functions_follow_protocol raising_host registered 7 (PyFunc 6))).
    reflexivity.
Defined.

(** The faithful primitive has its release function called once, on the
    opaque pointer it was given. *)
Example faithful_removal_releases_once :
  libvirt_virEventRemoveHandleFunc faithful_host registered 7
  = Some (0, [EnsureThreadState; FreeCallback 600%nat 500%nat; ReleaseThreadState]).
Proof. reflexivity. Qed.

(* ------------------------------------------------------------------ *)
(** * The return code of the event callbacks *)

(** C9 as stated fails: with a connection proxy whose dispatch method is
    found and invoked but raises, the callback returns -1, where the
    statement gives success to every invocation that took place. *)
Lemma raising_dispatch_returns_failure :
  invoked raising_proxy cb_data 5%nat 1 2 = true /\
  fst (libvirt_virConnectDomainEventLifecycleCallback raising_proxy 5%nat 1 2 cb_data)
  <> spec_return_code raising_proxy cb_data 5%nat 1 2.
Proof.
  split; [reflexivity |]. vm_compute. discriminate.
Qed.

(** The pattern all dispatch callbacks end in: the code is 0 when the
    call of the method returned an object, and otherwise -1 with the
    exception printed. *)
Lemma call_rule (py : method_host) (conn : option pyobj) (method : string)
    (args : list pyobj) (before : list effect) (s : string) (quiet : list effect) :
  logged quiet = false ->
  return_code_rule py conn method args
    (match PyObject_CallMethod py conn method args with
     | Raised e => (-1, (before ++ DEBUG s ++ [ErrPrint e; ReleaseThreadState])%list)
     | Returned _ => (0, quiet)
     end).
Proof.
  intros Hquiet.
  assert (Hin : forall e,
             In (ErrPrint e) (before ++ DEBUG s ++ [ErrPrint e; ReleaseThreadState])).
  { intros e. apply in_or_app. right. apply in_or_app. right. left. reflexivity. }
  unfold return_code_rule, PyObject_CallMethod.
  split; [| split; [| split]].
  - intros proxy v -> Hcall. rewrite Hcall. split; [reflexivity | exact Hquiet].
  - intros proxy e -> Hcall. rewrite Hcall. split; [reflexivity | apply Hin].
  - intros proxy -> Hcall. rewrite Hcall. split; [reflexivity |].
    eexists. split; [| apply Hin]. reflexivity.
  - intros ->. split; [reflexivity |].
    eexists. split; [| apply Hin]. reflexivity.
Qed.

Lemma dispatch_rule (py : method_host) (fn method : string) (dom : ptr)
    (extra : list pyobj) (opaque : pyobj) :
  return_code_rule py (PyDict_GetItem opaque (PyStr "conn")) method
    ([libvirt_virDomainPtrWrap dom] ++ extra ++ [opaque])%list
    (dispatch_domain_event py fn method dom extra opaque).
Proof.
  unfold dispatch_domain_event, libvirt_constcharPtrWrap.
  apply (call_rule py (PyDict_GetItem opaque (PyStr "conn")) method
           ([libvirt_virDomainPtrWrap dom] ++ extra ++ [opaque])%list
           [EnsureThreadState; DomainRef dom]).
  reflexivity.
Qed.

Ltac head_of t :=
  lazymatch t with
  | ?f _ => head_of f
  | _ => t
  end.

(** A callback that consists of the shared body. *)
Ltac by_dispatch_rule :=
  lazymatch goal with
  | |- return_code_rule _ _ _ _ ?r =>
      let f := head_of r in
      unfold f;
      lazymatch goal with
      | |- return_code_rule _ _ _ _ (dispatch_domain_event ?py ?fn ?m ?d ?extra ?o) =>
          exact (dispatch_rule py fn m d extra o)
      end
  end.

(** C9, amended. Each of the twenty callbacks through which libvirt
    delivers an event, the nineteen domain event callbacks and the
    network lifecycle callback, returns 0 to the native library when the
    dispatch method of the connection proxy was called and returned a
    value, and -1 in every other case: when the method raised, when the
    proxy has no such method, and when the callback data holds no
    connection proxy; the tunable callback also returns -1, without
    dispatching, when the typed parameters of the event cannot be
    decoded.  In each of the failing cases the exception is printed
    through PyErr_Print, which clears it; the callback returns its code
    and propagates nothing.  The callback of the first registration
    interface takes its opaque pointer for the proxy, the others look the
    proxy up under the key [conn] of the callback data. *)
Theorem event_callbacks_return_code :
  forall (py : method_host) (dom net : ptr) (opaque : pyobj)
         (event detail utcoffset action phase type_ status reason state actual : Z)
         (srcPath devAlias oldSrcPath newSrcPath disk authScheme why : option string)
         (local remote : virDomainEventGraphicsAddress)
         (subject : list virDomainEventGraphicsSubjectIdentity)
         (params : list virTypedParameter) (nparams : Z),
    let conn := PyDict_GetItem opaque (PyStr "conn") in
    let pyobj_dom := libvirt_virDomainPtrWrap dom in
    return_code_rule py (Some opaque) "_dispatchDomainEventCallbacks"
      [pyobj_dom; PyLong event; PyLong detail]
      (libvirt_virConnectDomainEventCallback py dom event detail opaque) /\
    return_code_rule py conn "_dispatchDomainEventLifecycleCallback"
      [pyobj_dom; PyLong event; PyLong detail; opaque]
      (libvirt_virConnectDomainEventLifecycleCallback py dom event detail opaque) /\
    return_code_rule py conn "_dispatchDomainEventGenericCallback"
      [pyobj_dom; opaque]
      (libvirt_virConnectDomainEventGenericCallback py dom opaque) /\
    return_code_rule py conn "_dispatchDomainEventRTCChangeCallback"
      [pyobj_dom; PyLong utcoffset; opaque]
      (libvirt_virConnectDomainEventRTCChangeCallback py dom utcoffset opaque) /\
    return_code_rule py conn "_dispatchDomainEventWatchdogCallback"
      [pyobj_dom; PyLong action; opaque]
      (libvirt_virConnectDomainEventWatchdogCallback py dom action opaque) /\
    return_code_rule py conn "_dispatchDomainEventIOErrorCallback"
      [pyobj_dom; format_s srcPath; format_s devAlias; PyLong action; opaque]
      (libvirt_virConnectDomainEventIOErrorCallback py dom srcPath devAlias action
         opaque) /\
    return_code_rule py conn "_dispatchDomainEventIOErrorReasonCallback"
      [pyobj_dom; format_s srcPath; format_s devAlias; PyLong action; format_s why;
       opaque]
      (libvirt_virConnectDomainEventIOErrorReasonCallback py dom srcPath devAlias
         action why opaque) /\
    return_code_rule py conn "_dispatchDomainEventGraphicsCallback"
      [pyobj_dom; PyLong phase; graphics_address local; graphics_address remote;
       format_s authScheme; graphics_subject subject; opaque]
      (libvirt_virConnectDomainEventGraphicsCallback py dom phase local remote
         authScheme subject opaque) /\
    return_code_rule py conn "_dispatchDomainEventBlockJobCallback"
      [pyobj_dom; format_s disk; PyLong type_; PyLong status; opaque]
      (libvirt_virConnectDomainEventBlockJobCallback py dom disk type_ status opaque) /\
    return_code_rule py conn "_dispatchDomainEventDiskChangeCallback"
      [pyobj_dom; format_s oldSrcPath; format_s newSrcPath; format_s devAlias;
       PyLong reason; opaque]
      (libvirt_virConnectDomainEventDiskChangeCallback py dom oldSrcPath newSrcPath
         devAlias reason opaque) /\
    return_code_rule py conn "_dispatchDomainEventTrayChangeCallback"
      [pyobj_dom; format_s devAlias; PyLong reason; opaque]
      (libvirt_virConnectDomainEventTrayChangeCallback py dom devAlias reason opaque) /\
    return_code_rule py conn "_dispatchDomainEventPMWakeupCallback"
      [pyobj_dom; PyLong reason; opaque]
      (libvirt_virConnectDomainEventPMWakeupCallback py dom reason opaque) /\
    return_code_rule py conn "_dispatchDomainEventPMSuspendCallback"
      [pyobj_dom; PyLong reason; opaque]
      (libvirt_virConnectDomainEventPMSuspendCallback py dom reason opaque) /\
    return_code_rule py conn "_dispatchDomainEventBalloonChangeCallback"
      [pyobj_dom; PyLong (to_llong actual); opaque]
      (libvirt_virConnectDomainEventBalloonChangeCallback py dom actual opaque) /\
    return_code_rule py conn "_dispatchDomainEventPMSuspendDiskCallback"
      [pyobj_dom; PyLong reason; opaque]
      (libvirt_virConnectDomainEventPMSuspendDiskCallback py dom reason opaque) /\
    return_code_rule py conn "_dispatchDomainEventDeviceRemovedCallback"
      [pyobj_dom; format_s devAlias; opaque]
      (libvirt_virConnectDomainEventDeviceRemovedCallback py dom devAlias opaque) /\
    match getPyVirTypedParameter params nparams with
    | Ok pyobj_dict =>
        exists r,
          libvirt_virConnectDomainEventTunableCallback py dom params nparams opaque
          = Some r /\
          return_code_rule py conn "_dispatchDomainEventTunableCallback"
            [pyobj_dom; pyobj_dict; opaque] r
    | Raise e =>
        exists log,
          libvirt_virConnectDomainEventTunableCallback py dom params nparams opaque
          = Some (-1, log) /\
          In (ErrPrint e) log /\ ~ In (DomainRef dom) log
    | Undef =>
        libvirt_virConnectDomainEventTunableCallback py dom params nparams opaque
        = None
    end /\
    return_code_rule py conn "_dispatchDomainEventAgentLifecycleCallback"
      [pyobj_dom; PyLong state; PyLong reason; opaque]
      (libvirt_virConnectDomainEventAgentLifecycleCallback py dom state reason
         opaque) /\
    return_code_rule py conn "_dispatchDomainEventDeviceAddedCallback"
      [pyobj_dom; format_s devAlias; opaque]
      (libvirt_virConnectDomainEventDeviceAddedCallback py dom devAlias opaque) /\
    return_code_rule py conn "_dispatchNetworkEventLifecycleCallback"
      [libvirt_virNetworkPtrWrap net; PyLong event; PyLong detail; opaque]
      (libvirt_virConnectNetworkEventLifecycleCallback py net event detail opaque).
Proof.
  intros. cbv zeta.
  split.
  { unfold libvirt_virConnectDomainEventCallback.
    apply (call_rule py (Some opaque) "_dispatchDomainEventCallbacks"
             [libvirt_virDomainPtrWrap dom; PyLong event; PyLong detail]
             [EnsureThreadState; DomainRef dom]).
    reflexivity. }
  split.
  { unfold libvirt_virConnectDomainEventLifecycleCallback, libvirt_constcharPtrWrap.
    apply (call_rule py (PyDict_GetItem opaque (PyStr "conn"))
             "_dispatchDomainEventLifecycleCallback"
             [libvirt_virDomainPtrWrap dom; PyLong event; PyLong detail; opaque]
             [EnsureThreadState; DomainRef dom]).
    reflexivity. }
  do 14 (split; [by_dispatch_rule |]).
  split.
  { unfold libvirt_virConnectDomainEventTunableCallback.
    destruct (getPyVirTypedParameter params nparams) as [pyobj_dict | e |].
    - eexists. split; [reflexivity |].
      exact (dispatch_rule py _ _ dom [pyobj_dict] opaque).
    - eexists. split; [reflexivity |]. split; [simpl; auto |].
      simpl. intros H.
      repeat (destruct H as [H | H]; [discriminate H |]). exact H.
    - reflexivity. }
  do 2 (split; [by_dispatch_rule |]).
  unfold libvirt_virConnectNetworkEventLifecycleCallback, libvirt_constcharPtrWrap.
  apply (call_rule py (PyDict_GetItem opaque (PyStr "conn"))
           "_dispatchNetworkEventLifecycleCallback"
           [libvirt_virNetworkPtrWrap net; PyLong event; PyLong detail; opaque]
           [EnsureThreadState; NetworkRef net]).
  reflexivity.
Qed.

(** The statement on the lifecycle callback with a proxy whose method
    returns, one whose method raises, one without the method and callback
    data without a proxy, and on the tunable callback with parameters of
    a kind that cannot be decoded. *)
Lemma event_callbacks_return_code_witness :
  (fst (libvirt_virConnectDomainEventLifecycleCallback working_proxy 5%nat 1 2 cb_data) = 0 /\
   logged (snd (libvirt_virConnectDomainEventLifecycleCallback working_proxy 5%nat 1 2 cb_data))
   = false) /\
  (fst (libvirt_virConnectDomainEventLifecycleCallback raising_proxy 5%nat 1 2 cb_data) = -1 /\
   In (ErrPrint (PyErr_Format PyExc_RuntimeError "handler failed"))
      (snd (libvirt_virConnectDomainEventLifecycleCallback raising_proxy 5%nat 1 2 cb_data))) /\
  (fst (libvirt_virConnectDomainEventLifecycleCallback bare_proxy 5%nat 1 2 cb_data) = -1 /\
   exists e, exc e = PyExc_AttributeError /\
             In (ErrPrint e)
                (snd (libvirt_virConnectDomainEventLifecycleCallback bare_proxy 5%nat 1 2
                        cb_data))) /\
  (fst (libvirt_virConnectDomainEventLifecycleCallback working_proxy 5%nat 1 2 PyNone) = -1 /\
   exists e, exc e = PyExc_SystemError /\
             In (ErrPrint e)
                (snd (libvirt_virConnectDomainEventLifecycleCallback working_proxy 5%nat 1 2
                        PyNone))) /\
  (exists log,
      libvirt_virConnectDomainEventTunableCallback working_proxy 5%nat
        [mkParam "x" 9 (U_i 0)] 1 cb_data = Some (-1, log) /\
      In (ErrPrint (unrecognized_type 9)) log /\ ~ In (DomainRef 5%nat) log).
Proof.
  pose proof (fun py opaque params nparams =>
                event_callbacks_return_code py 5%nat 0%nat opaque 1 2 0 0 0 0 0 0 0 0
                  None None None None None None None
                  (mkGraphicsAddress 0 None None) (mkGraphicsAddress 0 None None) []
                  params nparams) as H.
  cbv zeta in H.
  split; [| split; [| split; [| split]]].
  - apply (proj1 (proj1 (proj2 (H working_proxy cb_data [] 0))) (PyObj 1) PyNone);
      reflexivity.
  - apply (proj1 (proj2 (proj1 (proj2 (H raising_proxy cb_data [] 0)))) (PyObj 1));
      reflexivity.
  - apply (proj1 (proj2 (proj2 (proj1 (proj2 (H bare_proxy cb_data [] 0))))) (PyObj 1));
      reflexivity.
  - apply (proj2 (proj2 (proj2 (proj1 (proj2 (H working_proxy PyNone [] 0))))));
      reflexivity.
  - exact (proj1 (proj2 (proj2 (proj2 (proj2 (proj2 (proj2 (proj2 (proj2 (proj2
             (proj2 (proj2 (proj2 (proj2 (proj2 (proj2 (proj2
                (H working_proxy cb_data [mkParam "x" 9 (U_i 0)] 1)))))))))))))))))).
Defined.

(* ------------------------------------------------------------------ *)
(** * Empty input *)




(* ------------------------------------------------------------------ *)
(** * Native memory of the encoder *)

Lemma remove_one_app (p : ptr) (l1 l2 : list ptr) :
  ~ In p l1 -> remove_one p (l1 ++ p :: l2) = (l1 ++ l2)%list.
Proof.
  induction l1 as [| q l1 IH]; intros Hnot; simpl.
  - rewrite Nat.eqb_refl. reflexivity.
  - destruct (Nat.eqb_spec q p) as [-> | Hne].
    + exfalso. apply Hnot. left. reflexivity.
    + f_equal. apply IH. intros Hin. apply Hnot. right. exact Hin.
Qed.

Lemma in_remove_one (p q : ptr) (l : list ptr) :
  q <> p -> In q l -> In q (remove_one p l).
Proof.
  intros Hne. induction l as [| x l IH]; simpl; [tauto |].
  intros [-> | Hin].
  - destruct (Nat.eqb_spec q p); [contradiction | left; reflexivity].
  - destruct (Nat.eqb_spec x p); [exact Hin | right; auto].
Qed.

Lemma existsb_eqb_in (p : ptr) (l : list ptr) :
  In p l -> existsb (Nat.eqb p) l = true.
Proof.
  intros Hin. apply existsb_exists. exists p. split; [exact Hin | apply Nat.eqb_refl].
Qed.

(** Freeing, one after the other, blocks that were allocated in a row,
    under the blocks [top] allocated after them. *)
Lemma remove_allocated (top fs rest : list ptr) :
  NoDup fs ->
  (forall p, In p fs -> ~ In p top) ->
  fold_left (fun l p => remove_one p l) fs (top ++ rev fs ++ rest)%list
  = (top ++ rest)%list.
Proof.
  revert rest. induction fs as [| a fs IH]; intros rest Hnd Htop; [reflexivity |].
  inversion Hnd as [| ? ? Hnot Hnd']; subst.
  cbn [fold_left rev]. rewrite <- app_assoc. cbn [app].
  rewrite (app_assoc top (rev fs) (a :: rest)).
  rewrite remove_one_app.
  - rewrite <- app_assoc. apply IH; [exact Hnd' |].
    intros p Hp. apply Htop. right. exact Hp.
  - intros Hin. apply in_app_or in Hin. destruct Hin as [Hin | Hin].
    + apply (Htop a); [left; reflexivity | exact Hin].
    + apply Hnot. rewrite in_rev. exact Hin.
Qed.

Lemma NoDup_app_disjoint (l1 l2 : list ptr) :
  NoDup (l1 ++ l2) -> forall p, In p l2 -> ~ In p l1.
Proof.
  induction l1 as [| x l1 IH]; intros Hnd p Hp2 Hp1; [inversion Hp1 |].
  cbn [app] in Hnd. inversion Hnd as [| ? ? Hnot Hnd']; subst.
  destruct Hp1 as [-> | Hp1].
  - apply Hnot. apply in_or_app. right. exact Hp2.
  - exact (IH Hnd' p Hp2 Hp1).
Qed.

Lemma free_live (p : ptr) (h : heap) :
  p <> NULL -> In p (live h) ->
  free p h = mkHeap (next_addr h) (remove_one p (live h)) (faults h).
Proof.
  intros Hp Hin. unfold free.
  destruct (Nat.eqb_spec p NULL); [contradiction |].
  rewrite existsb_eqb_in by exact Hin. reflexivity.
Qed.

(** [virTypedParamsClear] on entries it can visit, whose strings are all
    live: the strings are freed and no fault is recorded. *)
Lemma clear_entries (b : ptr) (es : list virTypedParameter) :
  forall (i : nat) (h : heap),
    Forall (fun e => clear_safe e = true) es ->
    Forall (fun p => In p (live h)) (string_addrs es) ->
    NoDup (string_addrs es) ->
    fold_left (clear_entry b) (enumerate i es) h
    = mkHeap (next_addr h)
             (fold_left (fun l p => remove_one p l) (string_addrs es) (live h))
             (faults h).
Proof.
  induction es as [| e es IH]; intros i h Hsafe Hin Hnd.
  - destruct h; reflexivity.
  - inversion Hsafe as [| ? ? He Hrest]; subst.
    cbn [enumerate fold_left]. unfold clear_entry at 2.
    unfold string_addrs in *. cbn [flat_map] in *.
    unfold clear_safe in He.
    destruct (type e =? VIR_TYPED_PARAM_STRING).
    + destruct (value e) as [| | | | | | | s]; try discriminate He;
        cbn [read_s app] in *;
        try (unfold VIR_FREE, free; cbn [addr Nat.eqb NULL]; apply IH; assumption).
      unfold VIR_FREE. destruct (Nat.eqb_spec (addr s) NULL) as [Hz | Hnz].
      * unfold free. rewrite Hz. cbn [Nat.eqb NULL app] in *. apply IH; assumption.
      * cbn [app] in *. inversion Hin as [| ? ? Hs Hin']; subst.
        inversion Hnd as [| ? ? Hnot Hnd']; subst.
        rewrite free_live by assumption.
        rewrite IH; [reflexivity | assumption | | assumption].
        cbn [live]. rewrite Forall_forall in *. intros q Hq.
        apply in_remove_one; [| apply Hin'; exact Hq].
        intros ->. apply Hnot. exact Hq.
    + cbn [app] in *. apply IH; assumption.
Qed.

Lemma string_addrs_app (l1 l2 : list virTypedParameter) :
  string_addrs (l1 ++ l2) = (string_addrs l1 ++ string_addrs l2)%list.
Proof. unfold string_addrs. apply flat_map_app. Qed.

Lemma string_addrs_zero (k : nat) : string_addrs (repeat zero_param k) = [].
Proof. induction k as [| k IH]; [reflexivity | exact IH]. Qed.

Lemma clear_safe_zero (k : nat) :
  Forall (fun e => clear_safe e = true) (repeat zero_param k).
Proof. induction k; constructor; auto. Qed.

(** [virTypedParamsFree] of an array with its own length releases the
    array and every string in it; the blocks [top] allocated later stay. *)
Lemma free_array_releases (top live0 : list ptr) (size : Z) (b : ptr)
    (es : list virTypedParameter) (h : heap) :
  Forall (fun e => clear_safe e = true) es ->
  List.length es = Z.to_nat size ->
  live h = (top ++ rev (string_addrs es) ++ b :: live0)%list ->
  heap_ok h ->
  virTypedParamsFree (Some (mkArray b es)) size h
  = mkHeap (next_addr h) (top ++ live0) (faults h).
Proof.
  intros Hsafe Hlen Hlive (Hpos & Hnd & Hbound).
  unfold virTypedParamsFree, virTypedParamsClear. cbn [base elems].
  rewrite <- Hlen, firstn_all, Nat.ltb_irrefl.
  rewrite Hlive in Hnd, Hbound.
  assert (Hnd1 : NoDup (string_addrs es)).
  { apply NoDup_app_remove_l in Hnd. apply NoDup_app_remove_r in Hnd.
    apply NoDup_rev in Hnd. rewrite rev_involutive in Hnd. exact Hnd. }
  assert (Hdis : forall p, In p (string_addrs es) -> ~ In p top).
  { intros p Hp. apply (NoDup_app_disjoint _ _ Hnd).
    apply in_or_app. left. rewrite <- in_rev. exact Hp. }
  assert (Hb : ~ In b top).
  { apply (NoDup_app_disjoint _ _ Hnd). apply in_or_app. right. left. reflexivity. }
  rewrite clear_entries; [| assumption | | assumption].
  - rewrite Hlive, remove_allocated by assumption.
    unfold VIR_FREE. rewrite free_live.
    + cbn [live next_addr faults]. rewrite remove_one_app by exact Hb. reflexivity.
    + rewrite Forall_forall in Hbound.
      specialize (Hbound b). unfold NULL.
      assert (0 < b < next_addr h)%nat.
      { apply Hbound. apply in_or_app. right. apply in_or_app. right. left. reflexivity. }
      lia.
    + cbn [live]. apply in_or_app. right. left. reflexivity.
  - rewrite Hlive, Forall_forall. intros q Hq.
    apply in_or_app. right. apply in_or_app. left. rewrite <- in_rev. exact Hq.
Qed.

(** The [cleanup] of the encoder releases the array and every string in
    it. *)
Lemma cleanup_releases (live0 : list ptr) (size : Z) (b : ptr)
    (es : list virTypedParameter) (h : heap) :
  Forall (fun e => clear_safe e = true) es ->
  List.length es = Z.to_nat size ->
  live h = (rev (string_addrs es) ++ b :: live0)%list ->
  heap_ok h ->
  virTypedParamsFree (Some (mkArray b es)) size h
  = mkHeap (next_addr h) live0 (faults h).
Proof.
  intros Hsafe Hlen Hlive Hok.
  exact (free_array_releases [] live0 size b es h Hsafe Hlen Hlive Hok).
Qed.

(** Freeing keeps the allocator consistent. *)
Lemma heap_ok_sublist (h : heap) (top mid rest : list ptr) :
  heap_ok h -> live h = (top ++ mid ++ rest)%list ->
  heap_ok (mkHeap (next_addr h) (top ++ rest) (faults h)).
Proof.
  intros (Hpos & Hnd & Hbound) Hlive. rewrite Hlive in Hnd, Hbound.
  unfold heap_ok. cbn [next_addr live].
  split; [exact Hpos |]. split.
  - assert (Hr : NoDup rest).
    { apply NoDup_app_remove_l in Hnd. apply NoDup_app_remove_l in Hnd. exact Hnd. }
    apply NoDup_app; [apply NoDup_app_remove_r in Hnd; exact Hnd | exact Hr |].
    intros p Hp1 Hp2.
    apply (NoDup_app_disjoint _ _ Hnd p); [| exact Hp1].
    apply in_or_app. right. exact Hp2.
  - rewrite Forall_forall in *. intros p Hp. apply Hbound.
    apply in_app_or in Hp. destruct Hp as [Hp | Hp].
    + apply in_or_app. left. exact Hp.
    + apply in_or_app. right. apply in_or_app. right. exact Hp.
Qed.

Lemma heap_ok_malloc (h : heap) : heap_ok h -> heap_ok (snd (malloc h)).
Proof.
  intros (Hpos & Hnd & Hbound). unfold malloc, heap_ok. cbn [snd next_addr live].
  rewrite Forall_forall in Hbound.
  split; [lia |]. split.
  - constructor; [| exact Hnd]. intros Hin. apply Hbound in Hin. lia.
  - constructor; [lia |]. rewrite Forall_forall. intros q Hq.
    apply Hbound in Hq. lia.
Qed.

(** A buffer taken and given back: only the next address moves. *)
Lemma free_after_malloc (h : heap) :
  heap_ok h ->
  VIR_FREE (fst (malloc h)) (snd (malloc h))
  = mkHeap (S (next_addr h)) (live h) (faults h).
Proof.
  intros (Hpos & _). unfold VIR_FREE, free, malloc. cbn [fst snd live next_addr faults].
  destruct (Nat.eqb_spec (next_addr h) NULL) as [Hz | _]; [unfold NULL in Hz; lia |].
  cbn [existsb]. rewrite Nat.eqb_refl. cbn [orb remove_one]. rewrite Nat.eqb_refl.
  reflexivity.
Qed.

Lemma heap_ok_bump (h : heap) :
  heap_ok h -> heap_ok (mkHeap (S (next_addr h)) (live h) (faults h)).
Proof.
  intros (Hpos & Hnd & Hbound). unfold heap_ok. cbn [next_addr live].
  split; [lia |]. split; [exact Hnd |].
  rewrite Forall_forall in *. intros q Hq. apply Hbound in Hq. lia.
Qed.


(* ------------------------------------------------------------------ *)
(** * Encoding against a schema *)

Lemma find_field_count (params : list virTypedParameter) (keystr : string) :
  find_field params (Z.of_nat (List.length params)) keystr
  = Ok (schema_lookup params keystr).
Proof.
  unfold schema_lookup.
  induction params as [| p rest IH]; [reflexivity |].
  cbn [find_field find List.length]. rewrite Nat2Z.inj_succ.
  destruct (Z.leb_spec (Z.succ (Z.of_nat (List.length rest))) 0); [lia |].
  destruct (String.eqb (field p) keystr); [reflexivity |].
  replace (Z.succ (Z.of_nat (List.length rest)) - 1) with (Z.of_nat (List.length rest))
    by lia.
  exact IH.
Qed.

Lemma find_field_full (params : list virTypedParameter) (keystr : string) :
  find_field params (as_size_t (Z.of_nat (List.length params))) keystr
  = Ok (schema_lookup params keystr).
Proof.
  unfold as_size_t.
  destruct (Z.ltb_spec (Z.of_nat (List.length params)) 0); [lia |].
  apply find_field_count.
Qed.

Lemma update_nth_app {A} (f : A -> A) (l1 : list A) (x : A) (l2 : list A) :
  update_nth (List.length l1) f (l1 ++ x :: l2) = (l1 ++ f x :: l2)%list.
Proof.
  induction l1 as [| y l1 IH]; [reflexivity |].
  simpl. f_equal. exact IH.
Qed.

(** What a successful conversion leaves in native memory: nothing, or the
    copy of the string now stored in the entry. *)
Lemma unwrap_value_ok (t : Z) (v : pyobj) (h h' : heap) (u : value_u) (nm : string) :
  unwrap_value t v h = (Ok u, h') ->
  heap_ok h ->
  heap_ok h' /\ faults h' = faults h /\
  clear_safe (mkParam nm t u) = true /\
  live h' = (rev (string_addrs [mkParam nm t u]) ++ live h)%list /\
  (next_addr h <= next_addr h')%nat.
Proof.
  unfold unwrap_value, clear_safe, string_addrs. cbn [flat_map type value app].
  intros Hu Hok.
  destruct (t =? VIR_TYPED_PARAM_INT) eqn:E1.
  { apply Z.eqb_eq in E1. subst t.
    destruct (libvirt_intUnwrap v); inversion Hu; subst.
    split; [exact Hok |]. repeat (split; [reflexivity |]). apply le_n. }
  destruct (t =? VIR_TYPED_PARAM_UINT) eqn:E2.
  { apply Z.eqb_eq in E2. subst t.
    destruct (libvirt_uintUnwrap v); inversion Hu; subst.
    split; [exact Hok |]. repeat (split; [reflexivity |]). apply le_n. }
  destruct (t =? VIR_TYPED_PARAM_LLONG) eqn:E3.
  { apply Z.eqb_eq in E3. subst t.
    destruct (libvirt_longlongUnwrap v); inversion Hu; subst.
    split; [exact Hok |]. repeat (split; [reflexivity |]). apply le_n. }
  destruct (t =? VIR_TYPED_PARAM_ULLONG) eqn:E4.
  { apply Z.eqb_eq in E4. subst t.
    destruct (libvirt_ulonglongUnwrap v); inversion Hu; subst.
    split; [exact Hok |]. repeat (split; [reflexivity |]). apply le_n. }
  destruct (t =? VIR_TYPED_PARAM_DOUBLE) eqn:E5.
  { apply Z.eqb_eq in E5. subst t.
    destruct (libvirt_doubleUnwrap v); inversion Hu; subst.
    split; [exact Hok |]. repeat (split; [reflexivity |]). apply le_n. }
  destruct (t =? VIR_TYPED_PARAM_BOOLEAN) eqn:E6.
  { apply Z.eqb_eq in E6. subst t.
    destruct (libvirt_boolUnwrap v); inversion Hu; subst.
    split; [exact Hok |]. repeat (split; [reflexivity |]). apply le_n. }
  destruct (t =? VIR_TYPED_PARAM_STRING) eqn:E7; [| discriminate Hu].
  unfold libvirt_charPtrUnwrap, strdup in Hu.
  destruct v; try discriminate Hu.
  destruct (malloc h) as [p hm] eqn:Hm. inversion Hu; subst u h'. clear Hu.
  pose proof (heap_ok_malloc h Hok) as Hok'. rewrite Hm in Hok'. cbn [snd] in Hok'.
  unfold malloc in Hm. inversion Hm; subst p hm. clear Hm.
  cbn [addr read_s is_some live faults].
  destruct Hok as (Hpos & _).
  destruct (Nat.eqb_spec (next_addr h) NULL) as [Hz | _]; [unfold NULL in Hz; lia |].
  split; [exact Hok' |]. repeat (split; [reflexivity |]).
  cbn [next_addr]. apply le_S, le_n.
Qed.

Lemma unwrap_value_raise (t : Z) (v : pyobj) (h h' : heap) (e : pyerr) :
  unwrap_value t v h = (Raise e, h') -> h' = h.
Proof.
  unfold unwrap_value, libvirt_charPtrUnwrap, strdup. intros Hu.
  repeat match type of Hu with
         | (if ?c then _ else _) = _ => destruct c
         end;
    try (inversion Hu; reflexivity).
  destruct v; inversion Hu; reflexivity.
Qed.

Lemma unwrap_value_defined (t : Z) (v : pyobj) (h h' : heap) :
  unwrap_value t v h <> (Undef, h').
Proof.
  unfold unwrap_value, libvirt_charPtrUnwrap, strdup, libvirt_intUnwrap,
    libvirt_uintUnwrap, libvirt_longlongUnwrap, libvirt_ulonglongUnwrap,
    libvirt_doubleUnwrap, libvirt_boolUnwrap, PyLong_AsLong, PyLong_AsLongLong,
    PyLong_AsUnsignedLongLong, PyFloat_AsDouble, bind.
  repeat match goal with
         | |- context [if ?c then _ else _] => destruct c
         | |- context [match int_value ?v with _ => _ end] => destruct (int_value v)
         end;
    try discriminate;
    destruct v; try discriminate;
    try (destruct (malloc h); discriminate);
    repeat match goal with
           | |- context [if ?c then _ else _] => destruct c
           | |- context [match ?o with Some _ => _ | None => _ end] => destruct o
           end;
    discriminate.
Qed.

Lemma inv_array_facts (live0 : list ptr) (size : Z) (ret : c_array) (temp k : nat)
    (h : heap) (mid : list virTypedParameter) (filled : list virTypedParameter) :
  List.length filled = temp ->
  Z.to_nat size = (temp + List.length mid + k)%nat ->
  Forall (fun e => clear_safe e = true) filled ->
  Forall (fun e => clear_safe e = true) mid ->
  string_addrs mid = [] ->
  live h = (rev (string_addrs filled) ++ base ret :: live0)%list ->
  heap_ok h ->
  virTypedParamsFree
    (Some (mkArray (base ret) (filled ++ mid ++ repeat zero_param k))) size h
  = mkHeap (next_addr h) live0 (faults h).
Proof.
  intros Hlen Hsz Hsafe Hmid Hnone Hlive Hok.
  apply cleanup_releases; auto.
  - apply Forall_app. split; [exact Hsafe |].
    apply Forall_app. split; [exact Hmid | apply clear_safe_zero].
  - rewrite !length_app, repeat_length. lia.
  - rewrite !string_addrs_app, Hnone, string_addrs_zero, app_nil_r. exact Hlive.
Qed.

(** The loop of the encoder and native memory: on success the array and
    the strings of its entries are what the call added; on failure
    everything the call allocated has been released. *)
Section Encoder.

Variable params : list virTypedParameter.
Variable size : Z.

Lemma set_loop_memory (live0 : list ptr) (f0 : list fault) :
  forall (items : list (pyobj * pyobj)) (ret : c_array) (temp : nat) (h : heap),
    encode_inv live0 size ret temp (List.length items) h ->
    faults h = f0 ->
    match set_loop items params (Z.of_nat (List.length params)) size ret temp h with
    | (Ok ret', h') =>
        encode_inv live0 size ret' (temp + List.length items) 0 h' /\
        faults h' = f0 /\ base ret' = base ret
    | (Raise e, h') =>
        live h' = live0 /\ faults h' = f0 /\ (next_addr h <= next_addr h')%nat
    | (Undef, _) => False
    end.
Proof.
  induction items as [| [key val] rest IH]; intros ret temp h Hinv Hf.
  - cbn [set_loop List.length] in *. rewrite Nat.add_0_r. auto.
  - destruct Hinv as (filled & Hel & Hlen & Hsz & Hsafe & Hlive & Hok).
    destruct ret as [b es]. cbn [elems base List.length] in *.
    cbn [set_loop]. unfold libvirt_charPtrUnwrap, strdup.
    assert (Hclean : forall hx,
               heap_ok hx -> live hx = live h ->
               virTypedParamsFree (Some (mkArray b es)) size hx
               = mkHeap (next_addr hx) live0 (faults hx)).
    { intros hx Hokx Hlx. rewrite Hel.
      change (filled ++ repeat zero_param (S (List.length rest)))%list
        with (filled ++ [] ++ repeat zero_param (S (List.length rest)))%list.
      apply (inv_array_facts live0 size (mkArray b es) temp); auto.
      - cbn [List.length]. lia.
      - rewrite Hlx. exact Hlive. }
    destruct key as [| | | | s | | | | | |];
      try (rewrite Hclean by auto; cbn [live faults next_addr]; auto).
    destruct (malloc h) as [kp hk] eqn:Hm.
    cbn [text addr].
    rewrite find_field_full.
    pose proof (free_after_malloc h Hok) as Hfree. rewrite Hm in Hfree.
    cbn [fst snd] in Hfree. rewrite Hfree.
    pose proof (heap_ok_bump h Hok) as Hok2.
    set (h2 := mkHeap (S (next_addr h)) (live h) (faults h)) in *.
    destruct (schema_lookup params (c_str s)) as [sch |].
    + unfold store. cbn [base elems]. rewrite Hel.
      change (repeat zero_param (S (List.length rest)))
        with (zero_param :: repeat zero_param (List.length rest)).
      rewrite <- Hlen, update_nth_app.
      destruct (unwrap_value (type sch) val h2) as [[u | e |] h3] eqn:Hu.
      * rewrite update_nth_app.
        set (entry := set_value u
                        (set_name_type (c_str s) (type sch) zero_param)).
        destruct (unwrap_value_ok _ _ _ _ _ (field entry) Hu Hok2)
          as (Hok3 & Hf3 & Hsafe3 & Hlive3 & Hnext3).
        specialize (IH (mkArray b (filled ++ entry :: repeat zero_param (List.length rest)))
                       (S (List.length filled)) h3).
        cbn [base] in IH.
        replace (List.length filled + S (List.length rest))%nat
          with (S (List.length filled) + List.length rest)%nat by lia.
        assert (Hinv3 : encode_inv live0 size
                          (mkArray b (filled ++ entry :: repeat zero_param (List.length rest)))
                          (S (List.length filled)) (List.length rest) h3);
          [| specialize (IH Hinv3 (eq_trans Hf3 Hf));
             destruct (set_loop rest params (Z.of_nat (List.length params)) size
                         (mkArray b (filled ++ entry :: repeat zero_param (List.length rest)))
                         (S (List.length filled)) h3) as [[ret' | e |] h'];
             [exact IH | | exact IH];
             destruct IH as (Hl & Hf' & Hn'); repeat split; auto;
             subst h2; cbn [next_addr] in Hnext3; lia].
        exists (filled ++ [entry])%list. cbn [elems base].
        split; [rewrite <- app_assoc; reflexivity |].
        split; [rewrite length_app; cbn [List.length]; lia |].
        split; [lia |].
        split; [apply Forall_app; split; [exact Hsafe | constructor; [exact Hsafe3 | constructor]] |].
        split; [| exact Hok3].
        rewrite Hlive3, string_addrs_app, rev_app_distr.
        subst h2. cbn [live]. rewrite Hlive, <- app_assoc. reflexivity.
      * apply unwrap_value_raise in Hu. subst h3.
        assert (Hc : virTypedParamsFree
                       (Some (mkArray b
                                (filled ++
                                 [set_name_type (c_str s) (type sch) zero_param] ++
                                 repeat zero_param (List.length rest))))
                       size h2
                     = mkHeap (next_addr h2) live0 (faults h2)).
        { apply (inv_array_facts live0 size (mkArray b es) (List.length filled)); auto.
          - cbn [List.length]. lia.
          - constructor; [| constructor].
            unfold clear_safe, set_name_type. cbn [type value zero_param].
            destruct (type sch =? VIR_TYPED_PARAM_STRING); reflexivity.
          - unfold string_addrs, set_name_type. cbn [flat_map type value zero_param].
            destruct (type sch =? VIR_TYPED_PARAM_STRING); reflexivity. }
        cbn [app] in Hc. rewrite Hc. subst h2. cbn [live faults next_addr]. auto.
      * exact (unwrap_value_defined _ _ _ _ Hu).
    + rewrite Hclean by (auto; reflexivity).
      subst h2. cbn [live faults next_addr]. auto.
Qed.

(** Whether a value converts does not depend on native memory. *)
Lemma unwrap_value_any_heap (t : Z) (v : pyobj) (h : heap) :
  is_ok (fst (unwrap_value t v empty_heap)) = true ->
  exists u h', unwrap_value t v h = (Ok u, h').
Proof.
  unfold unwrap_value, libvirt_charPtrUnwrap, strdup, malloc.
  repeat match goal with
         | |- context [if ?c then _ else _] => destruct c
         end;
    cbn [fst];
    try match goal with
        | |- context [bind ?r _] => destruct r; cbn [bind is_ok];
                                    intros Hok; try discriminate Hok; eauto
        end.
  - destruct v; cbn [fst is_ok]; intros Hok; try discriminate Hok; eauto.
  - cbn [is_ok]. discriminate.
Qed.

(** An encoding that succeeds has matched every key. *)
Lemma set_loop_ok_matched :
  forall (items : list (pyobj * pyobj)) (ret ret' : c_array) (temp : nat) (h h' : heap),
    set_loop items params (Z.of_nat (List.length params)) size ret temp h = (Ok ret', h') ->
    Forall (fun it => unmatched params (fst it) = false) items.
Proof.
  induction items as [| [key val] rest IH]; intros ret ret' temp h h' Hrun;
    [constructor |].
  cbn [set_loop] in Hrun. unfold libvirt_charPtrUnwrap, strdup in Hrun.
  destruct key; try discriminate Hrun.
  destruct (malloc h) as [kp hk]. cbn [text addr] in Hrun.
  rewrite find_field_full in Hrun.
  destruct (schema_lookup params (c_str s)) as [sch |] eqn:Hfind; [| discriminate Hrun].
  destruct (unwrap_value (type sch) val (VIR_FREE kp hk)) as [[u | e |] h3];
    try discriminate Hrun.
  constructor; [| eapply IH; exact Hrun].
  cbn [fst unmatched]. rewrite Hfind. reflexivity.
Qed.

(** When every item before the first unmatched key converts, the error
    raised names that key. *)
Lemma set_loop_first_unmatched
    (s : string) (v : pyobj) (post : list (pyobj * pyobj)) :
  unmatched params (PyStr s) = true ->
  forall (pre : list (pyobj * pyobj)) (ret : c_array) (temp : nat) (h : heap),
    Forall (fun it => converts params it = true) pre ->
    fst (set_loop (pre ++ (PyStr s, v) :: post) params
           (Z.of_nat (List.length params)) size ret temp h)
    = Raise (unrecognized_name (c_str s)).
Proof.
  intros Hun. induction pre as [| [key val] pre IH]; intros ret temp h Hpre.
  - cbn [app set_loop]. unfold libvirt_charPtrUnwrap, strdup.
    destruct (malloc h) as [kp hk]. cbn [text addr].
    rewrite find_field_full.
    cbn [unmatched] in Hun.
    destruct (schema_lookup params (c_str s)); [discriminate Hun | reflexivity].
  - inversion Hpre as [| ? ? Hconv Hrest]; subst.
    change (((key, val) :: pre) ++ (PyStr s, v) :: post)%list
      with ((key, val) :: (pre ++ (PyStr s, v) :: post))%list.
    cbn [set_loop]. unfold converts in Hconv. cbn [fst snd] in Hconv.
    destruct key; try discriminate Hconv.
    unfold libvirt_charPtrUnwrap, strdup.
    destruct (malloc h) as [kp hk]. cbn [text addr].
    rewrite find_field_full.
    destruct (schema_lookup params (c_str s0)) as [sch |]; [| discriminate Hconv].
    destruct (unwrap_value_any_heap (type sch) val (VIR_FREE kp hk) Hconv)
      as (u & h3 & Hu).
    rewrite Hu. apply IH. exact Hrest.
Qed.





End Encoder.




(** The string converted for [b] before the unmatched key [zz] is met is
    given back with the array. *)
Example unmatched_key_after_string :
  setPyVirTypedParameter string_then_unknown_key schema_ab 2 empty_heap
  = (Raise (unrecognized_name "zz"), mkHeap 5%nat [] []).
Proof. reflexivity. Qed.

(* ------------------------------------------------------------------ *)
(** * The round trip *)

Lemma c_str_no_nul (s : string) : no_nul s = true -> c_str s = s.
Proof.
  induction s as [| c s IH]; [reflexivity |].
  cbn [no_nul c_str]. intros H. apply andb_prop in H. destruct H as [Hc Hs].
  destruct (Ascii.eqb c Ascii.zero); [discriminate Hc |].
  rewrite IH by exact Hs. reflexivity.
Qed.

Lemma strncpy_short (s : string) :
  forall n : nat, (String.length s <= n)%nat -> strncpy s n = s.
Proof.
  induction s as [| c s IH]; intros n Hn.
  - destruct n; reflexivity.
  - destruct n as [| n]; cbn [String.length] in Hn; [lia |].
    cbn [strncpy]. rewrite IH by lia. reflexivity.
Qed.

Lemma field_ok_copy (s : string) :
  field_ok s = true ->
  strncpy (c_str s) (VIR_TYPED_PARAM_FIELD_LENGTH - 1) = s.
Proof.
  unfold field_ok. intros H. apply andb_prop in H. destruct H as [Hn Hl].
  rewrite c_str_no_nul by exact Hn.
  apply strncpy_short. apply Nat.ltb_lt in Hl.
  unfold VIR_TYPED_PARAM_FIELD_LENGTH in *. lia.
Qed.

Lemma in_range_bounds (lo hi z : Z) :
  in_range lo hi z = true -> lo <= z <= hi.
Proof.
  unfold in_range. intros H. apply andb_prop in H. destruct H as [H1 H2].
  apply Z.leb_le in H1. apply Z.leb_le in H2. lia.
Qed.

Lemma to_int_small (z : Z) : 0 <= z <= INT_MAX -> to_int z = z.
Proof.
  unfold to_int, INT_MAX. intros H.
  rewrite Z.mod_small by lia. lia.
Qed.

Lemma in_range_intro (lo hi z : Z) :
  lo <= z <= hi -> in_range lo hi z = true.
Proof.
  intros H. unfold in_range. apply andb_true_intro.
  split; apply Z.leb_le; lia.
Qed.

Lemma intUnwrap_intWrap (i : Z) :
  INT_MIN <= i <= INT_MAX -> libvirt_intUnwrap (libvirt_intWrap i) = Ok i.
Proof.
  intros H. unfold libvirt_intUnwrap, libvirt_intWrap, PyLong_AsLong.
  cbn [int_value].
  rewrite in_range_intro by (unfold LONG_MIN, LONG_MAX, INT_MIN, INT_MAX in *; lia).
  cbn [bind]. rewrite in_range_intro by exact H. reflexivity.
Qed.

Lemma uintUnwrap_intWrap (i : Z) :
  0 <= i <= INT_MAX -> libvirt_uintUnwrap (libvirt_intWrap (to_int i)) = Ok i.
Proof.
  intros H. rewrite to_int_small by exact H.
  unfold libvirt_uintUnwrap, libvirt_intWrap, PyLong_AsLong.
  cbn [int_value].
  rewrite in_range_intro by (unfold LONG_MIN, LONG_MAX, INT_MAX in *; lia).
  cbn [bind].
  rewrite in_range_intro by (unfold UINT_MAX, INT_MAX in *; lia).
  reflexivity.
Qed.

Lemma longlongUnwrap_longlongWrap (i : Z) :
  LLONG_MIN <= i <= LLONG_MAX ->
  libvirt_longlongUnwrap (libvirt_longlongWrap i) = Ok i.
Proof.
  intros H. unfold libvirt_longlongUnwrap, libvirt_longlongWrap, PyLong_AsLongLong.
  cbn [PyLong_Check int_value]. rewrite in_range_intro by exact H. reflexivity.
Qed.

Lemma ulonglongUnwrap_ulonglongWrap (i : Z) :
  0 <= i <= ULLONG_MAX ->
  libvirt_ulonglongUnwrap (libvirt_ulonglongWrap i) = Ok i.
Proof.
  intros H.
  unfold libvirt_ulonglongUnwrap, libvirt_ulonglongWrap, PyLong_AsUnsignedLongLong.
  cbn [PyLong_Check int_value].
  destruct (Z.ltb_spec i 0); [lia |].
  destruct (Z.leb_spec i ULLONG_MAX); [reflexivity | lia].
Qed.

Lemma boolUnwrap_FromLong (b : Z) :
  0 <= b <= 1 ->
  libvirt_boolUnwrap (PyBool_FromLong b) = Ok (negb (b =? 0)) /\
  Z.b2z (negb (b =? 0)) = b.
Proof.
  intros H. assert (Hcase : b = 0 \/ b = 1) by lia.
  destruct Hcase as [-> | ->]; split; reflexivity.
Qed.

(** A native entry decodes, and its host value converts back to an equal
    payload of the same kind. *)
Lemma native_entry_converts (p : virTypedParameter) :
  native_entry p = true -> uint_fits_int p = true ->
  wrap_value p = Ok (decode_entry p) /\
  forall h, exists u h',
      unwrap_value (type p) (decode_entry p) h = (Ok u, h') /\
      same_value (value p) u.
Proof.
  unfold native_entry, uint_fits_int, decode_entry. intros Hn Hfit.
  apply andb_prop in Hn. destruct Hn as [_ Hn].
  destruct p as [nm t v]. cbn [type value] in *.
  destruct v as [| i | i | i | i | d | b | s]; try discriminate Hn.
  - (* int *)
    apply andb_prop in Hn. destruct Hn as [Ht Hr].
    apply Z.eqb_eq in Ht. subst t. apply in_range_bounds in Hr.
    unfold wrap_value, unwrap_value. cbn [type value read_i of_member bind].
    change (VIR_TYPED_PARAM_INT =? VIR_TYPED_PARAM_INT) with true. cbv iota.
    split; [reflexivity |]. intros h. exists (U_i i), h.
    rewrite intUnwrap_intWrap by exact Hr. split; [reflexivity | constructor].
  - (* unsigned int *)
    apply andb_prop in Hn. destruct Hn as [Ht Hr].
    apply Z.eqb_eq in Ht. subst t. apply in_range_bounds in Hr.
    apply Z.leb_le in Hfit.
    unfold wrap_value, unwrap_value. cbn [type value read_ui of_member bind].
    change (VIR_TYPED_PARAM_UINT =? VIR_TYPED_PARAM_INT) with false.
    change (VIR_TYPED_PARAM_UINT =? VIR_TYPED_PARAM_UINT) with true. cbv iota.
    split; [reflexivity |]. intros h. exists (U_ui i), h.
    rewrite uintUnwrap_intWrap by lia. split; [reflexivity | constructor].
  - (* long long *)
    apply andb_prop in Hn. destruct Hn as [Ht Hr].
    apply Z.eqb_eq in Ht. subst t. apply in_range_bounds in Hr.
    unfold wrap_value, unwrap_value. cbn [type value read_l of_member bind].
    change (VIR_TYPED_PARAM_LLONG =? VIR_TYPED_PARAM_INT) with false.
    change (VIR_TYPED_PARAM_LLONG =? VIR_TYPED_PARAM_UINT) with false.
    change (VIR_TYPED_PARAM_LLONG =? VIR_TYPED_PARAM_LLONG) with true. cbv iota.
    split; [reflexivity |]. intros h. exists (U_l i), h.
    rewrite longlongUnwrap_longlongWrap by exact Hr. split; [reflexivity | constructor].
  - (* unsigned long long *)
    apply andb_prop in Hn. destruct Hn as [Ht Hr].
    apply Z.eqb_eq in Ht. subst t. apply in_range_bounds in Hr.
    unfold wrap_value, unwrap_value. cbn [type value read_ul of_member bind].
    change (VIR_TYPED_PARAM_ULLONG =? VIR_TYPED_PARAM_INT) with false.
    change (VIR_TYPED_PARAM_ULLONG =? VIR_TYPED_PARAM_UINT) with false.
    change (VIR_TYPED_PARAM_ULLONG =? VIR_TYPED_PARAM_LLONG) with false.
    change (VIR_TYPED_PARAM_ULLONG =? VIR_TYPED_PARAM_ULLONG) with true. cbv iota.
    split; [reflexivity |]. intros h. exists (U_ul i), h.
    rewrite ulonglongUnwrap_ulonglongWrap by exact Hr.
    split; [reflexivity | constructor].
  - (* double *)
    apply Z.eqb_eq in Hn. subst t.
    split; [reflexivity |]. intros h. exists (U_d d), h.
    split; [reflexivity | constructor].
  - (* boolean *)
    apply andb_prop in Hn. destruct Hn as [Ht Hr].
    apply Z.eqb_eq in Ht. subst t. apply in_range_bounds in Hr.
    destruct (boolUnwrap_FromLong b Hr) as [Hun Hback].
    unfold wrap_value, unwrap_value. cbn [type value read_b of_member bind].
    change (VIR_TYPED_PARAM_BOOLEAN =? VIR_TYPED_PARAM_INT) with false.
    change (VIR_TYPED_PARAM_BOOLEAN =? VIR_TYPED_PARAM_UINT) with false.
    change (VIR_TYPED_PARAM_BOOLEAN =? VIR_TYPED_PARAM_LLONG) with false.
    change (VIR_TYPED_PARAM_BOOLEAN =? VIR_TYPED_PARAM_ULLONG) with false.
    change (VIR_TYPED_PARAM_BOOLEAN =? VIR_TYPED_PARAM_DOUBLE) with false.
    change (VIR_TYPED_PARAM_BOOLEAN =? VIR_TYPED_PARAM_BOOLEAN) with true. cbv iota.
    split; [reflexivity |]. intros h. exists (U_b b), h.
    rewrite Hun. cbn [bind]. rewrite Hback. split; [reflexivity | constructor].
  - (* string *)
    apply andb_prop in Hn. destruct Hn as [Hn Htext].
    apply andb_prop in Hn. destruct Hn as [Ht Haddr].
    apply Z.eqb_eq in Ht. subst t. apply negb_true_iff in Haddr.
    unfold wrap_value, unwrap_value. cbn [type value read_s of_member bind].
    change (VIR_TYPED_PARAM_STRING =? VIR_TYPED_PARAM_INT) with false.
    change (VIR_TYPED_PARAM_STRING =? VIR_TYPED_PARAM_UINT) with false.
    change (VIR_TYPED_PARAM_STRING =? VIR_TYPED_PARAM_LLONG) with false.
    change (VIR_TYPED_PARAM_STRING =? VIR_TYPED_PARAM_ULLONG) with false.
    change (VIR_TYPED_PARAM_STRING =? VIR_TYPED_PARAM_DOUBLE) with false.
    change (VIR_TYPED_PARAM_STRING =? VIR_TYPED_PARAM_BOOLEAN) with false.
    change (VIR_TYPED_PARAM_STRING =? VIR_TYPED_PARAM_STRING) with true. cbv iota.
    rewrite Haddr. cbn [libvirt_constcharPtrWrap].
    split; [reflexivity |]. intros h.
    unfold libvirt_charPtrUnwrap, strdup.
    destruct (malloc h) as [q hq].
    exists (U_s (mkCstr q (c_str (text s)))), hq.
    split; [reflexivity |]. constructor. cbn [text].
    symmetry. apply c_str_no_nul. exact Htext.
Qed.

Lemma assoc_set_fresh (k : string) (v : pyobj) (done : list virTypedParameter) :
  ~ In k (map field done) ->
  assoc_set (PyStr k) v (items_of done) = (items_of done ++ [(PyStr k, v)])%list.
Proof.
  induction done as [| p done IH]; intros Hnot; [reflexivity |].
  cbn [items_of map assoc_set py_eqb app] in *.
  destruct (String.eqb_spec (field p) k) as [Heq | _].
  - exfalso. apply Hnot. left. exact Heq.
  - f_equal. apply IH. intros Hin. apply Hnot. right. exact Hin.
Qed.

(** Decoding a set of native entries with distinct names gives the
    mapping with one item per entry, in order. *)
Lemma get_loop_native (P : list virTypedParameter) :
  forall done : list virTypedParameter,
    NoDup (map field (done ++ P)) ->
    Forall (fun p => native_entry p = true /\ uint_fits_int p = true) P ->
    get_loop P (Z.of_nat (List.length P)) (PyDict (items_of done))
    = Ok (PyDict (items_of (done ++ P))).
Proof.
  induction P as [| p P IH]; intros done Hnd HP.
  - rewrite app_nil_r. reflexivity.
  - inversion HP as [| ? ? [Hn Hfit] HP']; subst.
    cbn [get_loop List.length]. rewrite Nat2Z.inj_succ.
    destruct (Z.leb_spec (Z.succ (Z.of_nat (List.length P))) 0); [lia |].
    destruct (native_entry_converts p Hn Hfit) as [Hw _]. rewrite Hw.
    cbn [bind]. rewrite set_item_string. cbn [bind].
    rewrite assoc_set_fresh.
    + replace (Z.succ (Z.of_nat (List.length P)) - 1) with (Z.of_nat (List.length P))
        by lia.
      change (items_of done ++ [(PyStr (field p), decode_entry p)])%list
        with (items_of done ++ items_of [p])%list.
      unfold items_of at 1 2. rewrite <- map_app. fold (items_of (done ++ [p])).
      rewrite IH; [| rewrite <- app_assoc; exact Hnd | exact HP'].
      rewrite <- app_assoc. reflexivity.
    + rewrite map_app in Hnd. cbn [map] in Hnd.
      apply NoDup_remove_2 in Hnd. intros Hin. apply Hnd.
      apply in_or_app. left. exact Hin.
Qed.

Lemma schema_lookup_own (P : list virTypedParameter) (p : virTypedParameter) :
  NoDup (map field P) -> In p P -> schema_lookup P (field p) = Some p.
Proof.
  unfold schema_lookup.
  induction P as [| q P IH]; intros Hnd Hin; [inversion Hin |].
  cbn [map] in Hnd. inversion Hnd as [| ? ? Hnot Hnd']; subst.
  cbn [find]. destruct Hin as [-> | Hin].
  - rewrite String.eqb_refl. reflexivity.
  - destruct (String.eqb_spec (field q) (field p)) as [Heq | _].
    + exfalso. apply Hnot. rewrite Heq. apply in_map. exact Hin.
    + apply IH; assumption.
Qed.

(** Encoding the decoded mapping fills the array with entries equal to
    those of the set. *)
Lemma set_loop_native (P : list virTypedParameter) (size : Z) (b : ptr) :
  forall (suffix filled : list virTypedParameter) (h : heap),
    Forall (fun p => native_entry p = true /\ uint_fits_int p = true /\
                     schema_lookup P (field p) = Some p) suffix ->
    exists out h',
      set_loop (items_of suffix) P (Z.of_nat (List.length P)) size
        (mkArray b (filled ++ repeat zero_param (List.length suffix)))
        (List.length filled) h
      = (Ok (mkArray b (filled ++ out)), h') /\
      Forall2 same_entry suffix out.
Proof.
  induction suffix as [| p suffix IH]; intros filled h Hs.
  - exists [], h. split; [reflexivity | constructor].
  - inversion Hs as [| ? ? (Hn & Hfit & Hfind) Hs']; subst.
    cbn [items_of map set_loop List.length]. unfold libvirt_charPtrUnwrap, strdup.
    destruct (malloc h) as [kp hk]. cbn [text addr].
    rewrite find_field_full.
    assert (Hfield : field_ok (field p) = true).
    { unfold native_entry in Hn. apply andb_prop in Hn. apply Hn. }
    assert (Hname : c_str (field p) = field p).
    { apply c_str_no_nul. unfold field_ok in Hfield.
      apply andb_prop in Hfield. apply Hfield. }
    rewrite Hname, Hfind.
    destruct (native_entry_converts p Hn Hfit) as [_ Hconv].
    destruct (Hconv (VIR_FREE kp hk)) as (u & h3 & Hu & Hsame).
    rewrite Hu. unfold store. cbn [base elems repeat].
    rewrite !update_nth_app.
    set (entry := set_value u (set_name_type (field p) (type p) zero_param)).
    destruct (IH (filled ++ [entry])%list h3 Hs') as (out & h' & Hrun & Hall).
    rewrite length_app in Hrun. cbn [List.length] in Hrun.
    rewrite Nat.add_1_r, <- app_assoc in Hrun. cbn [app] in Hrun.
    fold (items_of suffix). rewrite Hrun.
    exists (entry :: out), h'. split.
    + rewrite <- app_assoc. reflexivity.
    + constructor; [| exact Hall].
      unfold same_entry, entry, set_value, set_name_type. cbn [field type value].
      rewrite <- Hname at 2. rewrite (field_ok_copy _ Hfield).
      repeat split. exact Hsame.
Qed.

(** C1 as stated fails on the empty set, whose entries have distinct
    names and recognized kinds for want of any entry: it decodes to the
    empty mapping, and setPyVirTypedParameter refuses an empty mapping. *)
Lemma empty_set_does_not_round_trip :
  getPyVirTypedParameter [] 0 = Ok (PyDict []) /\
  fst (setPyVirTypedParameter (PyDict []) [] 0 empty_heap) = Raise empty_dictionary /\
  ~ roundtrip [].
Proof.
  split; [reflexivity |]. split; [reflexivity |].
  intros (d & ret & h & Hget & Hset & _).
  vm_compute in Hget. inversion Hget; subst d.
  vm_compute in Hset. discriminate Hset.
Qed.

(** C1, amended. For every non-empty typed-value set P whose entries are
    as libvirt produces them (a recognized kind, a payload within the
    range of its C type, a name that fits the field array), have distinct
    names, and whose unsigned 32-bit payloads do not exceed INT_MAX,
    decoding P with getPyVirTypedParameter and encoding the mapping
    against P with setPyVirTypedParameter yields an array equal to P
    entry for entry: same name, same kind, same value. *)
Theorem roundtrip_when_uint_fits_int :
  forall P : list virTypedParameter,
    P <> [] ->
    Forall (fun p => native_entry p = true) P ->
    NoDup (map field P) ->
    Forall (fun p => uint_fits_int p = true) P ->
    roundtrip P.
Proof.
  intros P Hne Hnat Hnd Hfit. unfold roundtrip. cbv zeta.
  assert (Hboth : Forall (fun p => native_entry p = true /\ uint_fits_int p = true) P).
  { rewrite Forall_forall in *. intros p Hp. split; auto. }
  assert (Hget : getPyVirTypedParameter P (Z.of_nat (List.length P))
                 = Ok (PyDict (items_of P))).
  { unfold getPyVirTypedParameter, as_size_t, PyDict_New.
    destruct (Z.ltb_spec (Z.of_nat (List.length P)) 0); [lia |].
    exact (get_loop_native P [] Hnd Hboth). }
  assert (Hsuffix : Forall (fun p => native_entry p = true /\ uint_fits_int p = true /\
                                     schema_lookup P (field p) = Some p) P).
  { rewrite Forall_forall in *. intros p Hp.
    destruct (Hboth p Hp) as [H1 H2]. repeat split; auto.
    apply schema_lookup_own; assumption. }
  assert (Hset : exists ret h',
             setPyVirTypedParameter (PyDict (items_of P)) P
               (Z.of_nat (List.length P)) empty_heap = (Ok ret, h') /\
             Forall2 same_entry P (elems ret)).
  { unfold setPyVirTypedParameter. cbn [PyDict_Size dict_items].
    assert (Hlen : List.length (items_of P) = List.length P)
      by (unfold items_of; apply length_map).
    rewrite Hlen.
    assert (Hsize : (Z.of_nat (List.length P) =? 0) = false).
    { destruct P; [congruence |]. cbn [List.length]. apply Z.eqb_neq. lia. }
    rewrite Hsize. unfold VIR_ALLOC_N. rewrite Nat2Z.id.
    destruct (malloc empty_heap) as [b h1].
    destruct (set_loop_native P (Z.of_nat (List.length P)) b P [] h1 Hsuffix)
      as (out & h' & Hrun & Hall).
    cbn [app List.length] in Hrun.
    exists (mkArray b out), h'. split; [exact Hrun | exact Hall]. }
  destruct Hset as (ret & h' & Hset & Hall).
  exists (PyDict (items_of P)), ret, h'.
  split; [exact Hget |]. split; [exact Hset | exact Hall].
Qed.

Lemma roundtrip_when_uint_fits_int_witness : roundtrip mixed_set.
Proof.
  apply (roundtrip_when_uint_fits_int mixed_set).
  - discriminate.
  - repeat constructor.
  - repeat constructor; cbn; intuition discriminate.
  - repeat constructor.
Defined.

(* ------------------------------------------------------------------ *)
(** * The setter without flags releases what it allocates *)

Lemma native_entry_clear (p : virTypedParameter) :
  native_entry p = true ->
  clear_safe p = true /\
  string_addrs [p] = match value p with U_s s => [addr s] | _ => [] end.
Proof.
  unfold native_entry, clear_safe, string_addrs. cbn [flat_map app].
  intros Hn. apply andb_prop in Hn. destruct Hn as [_ Hn].
  destruct (value p) as [| i | i | i | i | d | b | s]; try discriminate Hn;
    try (apply andb_prop in Hn; destruct Hn as [Hn ?]);
    try (apply andb_prop in Hn; destruct Hn as [Hn ?]);
    apply Z.eqb_eq in Hn; rewrite Hn; try (split; reflexivity).
  cbn. apply negb_true_iff in H0. rewrite H0. split; reflexivity.
Qed.

(** The entries libvirt writes, and the strings it allocates for them. *)
Lemma fill_memory (src : list virTypedParameter) :
  forall h : heap,
    heap_ok h ->
    Forall (fun p => native_entry p = true) src ->
    heap_ok (snd (fill src h)) /\
    faults (snd (fill src h)) = faults h /\
    live (snd (fill src h)) = (rev (string_addrs (fst (fill src h))) ++ live h)%list /\
    Forall (fun e => clear_safe e = true) (fst (fill src h)) /\
    List.length (fst (fill src h)) = List.length src.
Proof.
  induction src as [| p src IH]; intros h Hok Hsrc.
  - cbn. split; [exact Hok |]. repeat split; auto.
  - inversion Hsrc as [| ? ? Hp Hrest]; subst.
    cbn [fill].
    assert (Hstep : exists p' h1,
               (match value p with
                | U_s s => let (c, h') := strdup (text s) h in
                           (mkParam (field p) (type p) (U_s c), h')
                | _ => (p, h)
                end) = (p', h1) /\
               heap_ok h1 /\ faults h1 = faults h /\
               live h1 = (rev (string_addrs [p']) ++ live h)%list /\
               clear_safe p' = true).
    { destruct (native_entry_clear p Hp) as [Hsafe Haddrs].
      destruct (value p) as [| i | i | i | i | d | b | s] eqn:Hv;
        try (exists p, h; rewrite Haddrs; repeat split; auto; apply Hok).
      unfold strdup.
      pose proof (heap_ok_malloc h Hok) as Hok1.
      unfold malloc in *. cbn [snd] in Hok1.
      eexists. eexists. split; [reflexivity |].
      split; [exact Hok1 |]. split; [reflexivity |].
      unfold native_entry in Hp. rewrite Hv in Hp.
      apply andb_prop in Hp. destruct Hp as [_ Hp].
      apply andb_prop in Hp. destruct Hp as [Hp _].
      apply andb_prop in Hp. destruct Hp as [Ht _].
      unfold string_addrs, clear_safe. cbn [flat_map type value addr app live].
      rewrite Ht. cbn [read_s is_some].
      destruct Hok as (Hpos & _).
      destruct (Nat.eqb_spec (next_addr h) NULL) as [Hz | _]; [unfold NULL in Hz; lia |].
      split; reflexivity. }
    destruct Hstep as (p' & h1 & -> & Hok1 & Hf1 & Hl1 & Hs1).
    destruct (IH h1 Hok1 Hrest) as (Hok2 & Hf2 & Hl2 & Hs2 & Hlen2).
    destruct (fill src h1) as [rest' h2]. cbn [fst snd] in *.
    split; [exact Hok2 |]. split; [congruence |].
    split; [| split; [constructor; assumption | cbn [List.length]; congruence]].
    change (p' :: rest') with ([p'] ++ rest')%list.
    rewrite string_addrs_app, rev_app_distr, Hl2, Hl1, <- app_assoc. reflexivity.
Qed.

(** The encoder and native memory, for a schema array of its own
    length. *)
Lemma set_memory (info : pyobj) (es : list virTypedParameter) (h : heap) :
  heap_ok h ->
  match setPyVirTypedParameter info es (Z.of_nat (List.length es)) h with
  | (Ok ret, h') =>
      exists size,
        PyDict_Size info = Ok size /\
        List.length (elems ret) = Z.to_nat size /\
        0 < size /\
        Forall (fun e => clear_safe e = true) (elems ret) /\
        live h' = (rev (string_addrs (elems ret)) ++ base ret :: live h)%list /\
        heap_ok h' /\ faults h' = faults h
  | (Raise e, h') =>
      live h' = live h /\ faults h' = faults h /\ (next_addr h <= next_addr h')%nat
  | (Undef, _) => False
  end.
Proof.
  intros Hok. unfold setPyVirTypedParameter.
  destruct info; cbn [PyDict_Size dict_items]; try (repeat split; auto).
  destruct (Z.eqb_spec (Z.of_nat (List.length items)) 0) as [Hz | Hnz];
    [repeat split; auto |].
  unfold VIR_ALLOC_N.
  destruct (malloc h) as [b h1] eqn:Hm.
  pose proof (heap_ok_malloc h Hok) as Hok1. rewrite Hm in Hok1. cbn [snd] in Hok1.
  assert (Hh1 : live h1 = b :: live h /\ faults h1 = faults h /\
                next_addr h1 = S (next_addr h)).
  { unfold malloc in Hm. inversion Hm; subst. repeat split. }
  destruct Hh1 as (Hlive1 & Hf1 & Hn1).
  rewrite Nat2Z.id.
  pose proof (set_loop_memory es (Z.of_nat (List.length items)) (live h) (faults h)
                items (mkArray b (repeat zero_param (List.length items))) 0%nat h1)
    as Hmem.
  assert (Hinv : encode_inv (live h) (Z.of_nat (List.length items))
                   (mkArray b (repeat zero_param (List.length items)))
                   0 (List.length items) h1).
  { exists []. cbn [elems base app List.length string_addrs flat_map rev].
    rewrite Nat2Z.id. repeat split; auto; apply Hok1. }
  specialize (Hmem Hinv Hf1).
  destruct (set_loop items es (Z.of_nat (List.length es)) (Z.of_nat (List.length items))
              (mkArray b (repeat zero_param (List.length items))) 0 h1)
    as [[ret' | e |] h'].
  - destruct Hmem as ((filled & Hel & Hlen & Hsz & Hsafe & Hlive & Hok') & Hf' & Hb).
    cbn [repeat] in Hel. rewrite app_nil_r in Hel.
    exists (Z.of_nat (List.length items)).
    split; [reflexivity |]. rewrite Hel.
    split; [rewrite Hlen, Nat2Z.id; reflexivity |].
    split; [lia |]. split; [exact Hsafe |].
    split; [exact Hlive |]. split; [exact Hok' | exact Hf'].
  - destruct Hmem as (Hl & Hf' & Hn'). repeat split; auto. lia.
  - exact Hmem.
Qed.

(** X1. libvirt_virDomainSetSchedulerParameters, for every mapping and
    every domain whose answers agree with each other: whatever path is
    taken, nothing it allocated stays allocated, no memory error is
    committed, and each array is freed with its own length. *)
Theorem setter_releases_both_arrays :
  forall (dom : native_domain) (d info : pyobj) (h : heap),
    heap_ok h -> domain_ok dom ->
    let r := libvirt_virDomainSetSchedulerParameters dom (PyTuple [d; info]) h in
    result r <> Undef /\
    live (final r) = live h /\
    faults (final r) = faults h /\
    forallb freed_with_own_length (calls r) = true.
Proof.
  intros dom d info h Hok Hdom. cbv zeta.
  unfold libvirt_virDomainSetSchedulerParameters, set_scheduler_parameters.
  destruct (PyDict_Size info) as [size | e |] eqn:Hsize;
    [| cbn; repeat split; auto; discriminate
     | destruct info; discriminate Hsize].
  destruct (size =? 0); [cbn; repeat split; auto; discriminate |].
  unfold domain_ok in Hdom.
  destruct (sched_type dom) as [[c_retval nparams] |];
    [| cbn; repeat split; auto; discriminate].
  destruct Hdom as [Hn Hsrc].
  unfold strdup.
  pose proof (free_after_malloc h Hok) as Hfree.
  destruct (malloc h) as [cp hc]. cbn [fst snd addr] in *. rewrite Hfree.
  pose proof (heap_ok_bump h Hok) as Hok1.
  set (h1 := mkHeap (S (next_addr h)) (live h) (faults h)) in *.
  destruct (nparams =? 0); [cbn; repeat split; auto; discriminate |].
  unfold VIR_ALLOC_N, virDomainGetSchedulerParameters.
  pose proof (heap_ok_malloc h1 Hok1) as Hok2.
  destruct (malloc h1) as [b h2] eqn:Hm.
  assert (Hh2 : live h2 = b :: live h /\ faults h2 = faults h).
  { unfold malloc in Hm. inversion Hm; subst. split; reflexivity. }
  destruct Hh2 as [Hlive2 Hf2]. cbn [snd] in Hok2. cbn [base elems].
  assert (Hzeros : forall hx,
             heap_ok hx -> live hx = b :: live h ->
             virTypedParamsFree
               (Some (mkArray b (repeat zero_param (Z.to_nat nparams)))) nparams hx
             = mkHeap (next_addr hx) (live h) (faults hx)).
  { intros hx Hokx Hlx.
    apply (free_array_releases [] (live h)); auto.
    - apply clear_safe_zero.
    - apply repeat_length.
    - rewrite string_addrs_zero. exact Hlx. }
  destruct (sched_params dom) as [src |].
  - destruct Hsrc as [Hlen Hnat].
    rewrite <- Hlen, Nat2Z.id, firstn_all.
    destruct (fill_memory src h2 Hok2 Hnat) as (Hok3 & Hf3 & Hlive3 & Hsafe3 & Hlen3).
    destruct (fill src h2) as [written h3]. cbn [fst snd] in *.
    rewrite Hlen3.
    replace (skipn (List.length src) (repeat zero_param (List.length src)))
      with (@nil virTypedParameter)
      by (rewrite <- (repeat_length zero_param (List.length src)) at 1;
          symmetry; apply skipn_all).
    rewrite app_nil_r. cbn [Z.ltb Z.compare elems].
    pose proof (set_memory info written h3 Hok3) as Hset.
    rewrite Hlen3 in Hset.
    assert (Hparams : forall top hx,
               heap_ok hx ->
               live hx = (top ++ rev (string_addrs written) ++ b :: live h)%list ->
               virTypedParamsFree (Some (mkArray b written))
                 (Z.of_nat (List.length src)) hx
               = mkHeap (next_addr hx) (top ++ live h) (faults hx)).
    { intros top hx Hokx Hlx.
      apply free_array_releases; auto. rewrite Nat2Z.id. exact Hlen3. }
    destruct (setPyVirTypedParameter info written (Z.of_nat (List.length src)) h3)
      as [[new_params | e |] h4].
    + destruct Hset as (size' & Hsz' & Hlen4 & Hpos & Hsafe4 & Hlive4 & Hok4 & Hf4).
      rewrite Hsize in Hsz'. inversion Hsz'; subst size'. clear Hsz'.
      unfold cleanup. cbn [result final calls].
      rewrite (Hparams (rev (string_addrs (elems new_params)) ++ [base new_params])%list h4
                 Hok4)
        by (rewrite Hlive4, Hlive3, Hlive2, <- !app_assoc; reflexivity).
      destruct new_params as [nb nes]. cbn [base elems] in *.
      rewrite (free_array_releases [] (live h) size nb nes); auto.
      * cbn [live faults app].
        split; [destruct (_ <? 0); discriminate |].
        split; [reflexivity |]. split; [congruence |].
        cbn [forallb freed_with_own_length elems andb].
        rewrite Hlen3, Z.eqb_refl, Hlen4, Z2Nat.id, Z.eqb_refl by lia.
        reflexivity.
      * cbn [live app]. rewrite <- app_assoc. reflexivity.
      * apply (heap_ok_sublist h4
                 (rev (string_addrs nes) ++ [nb])%list
                 (rev (string_addrs written) ++ [b])%list (live h)); auto.
        rewrite Hlive4, Hlive3, Hlive2, <- !app_assoc. reflexivity.
    + destruct Hset as (Hlive4 & Hf4 & Hn4).
      assert (Hok4 : heap_ok h4).
      { destruct Hok3 as (Hp3 & Hnd3 & Hb3). unfold heap_ok.
        rewrite Hlive4. split; [lia |]. split; [exact Hnd3 |].
        rewrite Forall_forall in *. intros q Hq. apply Hb3 in Hq. lia. }
      unfold cleanup. cbn [result final calls].
      rewrite (Hparams [] h4 Hok4) by (rewrite Hlive4, Hlive3, Hlive2; reflexivity).
      cbn [virTypedParamsFree live faults app].
      split; [discriminate |]. split; [reflexivity |]. split; [congruence |].
      cbn [app forallb freed_with_own_length elems andb].
      rewrite Hlen3, Z.eqb_refl. reflexivity.
    + contradiction.
  - cbn [Z.ltb Z.compare]. unfold cleanup. cbn [result final calls].
    rewrite Hzeros by auto.
    cbn [virTypedParamsFree live faults].
    split; [discriminate |]. split; [reflexivity |]. split; [exact Hf2 |].
    cbn [app forallb freed_with_own_length elems andb].
    rewrite repeat_length, Z2Nat.id, Z.eqb_refl by lia. reflexivity.
Qed.

(* ------------------------------------------------------------------ *)
(** * Further entry points *)

Ltac empty_heap_ok :=
  unfold heap_ok, empty_heap; cbn; split; [lia | split; constructor].

(* ------------------------------------------------------------------ *)
(** * Sending keys *)

Lemma unwrap_keycodes_ok (items : list pyobj) :
  forall keycodes,
    unwrap_keycodes items = Ok keycodes ->
    map int_value items = map Some keycodes /\
    Forall (fun k => 0 <= k <= UINT_MAX) keycodes /\
    List.length keycodes = List.length items.
Proof.
  induction items as [| o rest IH]; intros keycodes Hrun.
  - inversion Hrun. repeat split. constructor.
  - cbn [unwrap_keycodes] in Hrun.
    unfold libvirt_uintUnwrap, PyLong_AsLong in Hrun.
    destruct (int_value o) as [v |] eqn:Hv; [| discriminate Hrun].
    destruct (in_range LONG_MIN LONG_MAX v); [| discriminate Hrun].
    cbn [bind] in Hrun.
    destruct (in_range 0 UINT_MAX v) eqn:Hr; [| discriminate Hrun].
    cbn [bind] in Hrun.
    destruct (unwrap_keycodes rest) as [vs | e |]; try discriminate Hrun.
    cbn [bind] in Hrun. inversion Hrun; subst keycodes.
    destruct (IH vs eq_refl) as (Hm & Hall & Hlen).
    cbn [map List.length]. rewrite Hv, Hm, Hlen.
    split; [reflexivity |]. split; [| reflexivity].
    constructor; [| exact Hall].
    unfold in_range in Hr. apply andb_prop in Hr. destruct Hr as [H1 H2].
    apply Z.leb_le in H1. apply Z.leb_le in H2. split; assumption.
Qed.

(** X14. libvirt_virDomainSendKey calls virDomainSendKey at most once,
    and only for a list whose length is the count given and is at most
    VIR_DOMAIN_SEND_KEY_MAX_KEYS, so that the local array is never
    overrun; the key codes passed are the values of the list, each within
    unsigned int, and the result is the wrapped return of the native
    call.  In every other case libvirt is not called. *)
Theorem send_key_passes_the_list_or_nothing :
  forall (send : list Z -> Z) (args : pyobj),
    let r := libvirt_virDomainSendKey send args in
    snd r = [] \/
    exists d cs ht items nk fl codeset holdtime keycodes flags,
      args = PyTuple [d; cs; ht; PyList items; nk; fl] /\
      snd r = [SendKeyCall codeset holdtime keycodes
                           (Z.of_nat (List.length items)) flags] /\
      fst r = Ok (libvirt_intWrap (send keycodes)) /\
      Z.of_nat (List.length items) <= VIR_DOMAIN_SEND_KEY_MAX_KEYS /\
      map int_value items = map Some keycodes /\
      Forall (fun k => 0 <= k <= UINT_MAX) keycodes.
Proof.
  intros send args. cbv zeta. unfold libvirt_virDomainSendKey.
  destruct args as [| | | | | | l | | | |]; try (left; reflexivity).
  destruct l as [| d [| cs [| ht [| li [| nk [| fl [| x l]]]]]]];
    try (left; reflexivity).
  destruct (PyArg_int cs) as [codeset | |]; try (left; reflexivity).
  destruct (PyArg_int ht) as [holdtime | |]; try (left; reflexivity).
  destruct (PyArg_int nk) as [nkeycodes | |]; try (left; reflexivity).
  destruct (PyArg_uint fl) as [flags | |]; try (left; reflexivity).
  cbn [bind].
  destruct li as [| | | | | items | | | | |]; try (left; reflexivity).
  destruct (Z.eqb_spec (nkeycodes mod 2 ^ 32) (Z.of_nat (List.length items)))
    as [Hn | _]; [| left; reflexivity].
  destruct (Z.ltb_spec VIR_DOMAIN_SEND_KEY_MAX_KEYS (nkeycodes mod 2 ^ 32))
    as [_ | Hmax]; [left; reflexivity |].
  cbn [negb orb].
  destruct (unwrap_keycodes items) as [keycodes | e |] eqn:Hrun;
    try (left; reflexivity).
  destruct (unwrap_keycodes_ok items keycodes Hrun) as (Hm & Hall & _).
  right. exists d, cs, ht, items, nk, fl, codeset, holdtime, keycodes, flags.
  cbn [fst snd]. rewrite Hn.
  split; [reflexivity |]. split; [reflexivity |]. split; [reflexivity |].
  split; [lia |]. split; assumption.
Qed.

(* ------------------------------------------------------------------ *)
(** * Decoding: what a lookup in the mapping answers *)

Lemma assoc_get_set (a b : string) (v : pyobj) (items : list (pyobj * pyobj)) :
  assoc_get (PyStr a) (assoc_set (PyStr b) v items)
  = if String.eqb b a then Some v else assoc_get (PyStr a) items.
Proof.
  induction items as [| [k w] rest IH].
  - cbn [assoc_set assoc_get py_eqb]. reflexivity.
  - cbn [assoc_set assoc_get].
    destruct k; cbn [py_eqb assoc_get]; try exact IH.
    destruct (String.eqb_spec s b) as [-> | Hsb]; cbn [assoc_get py_eqb].
    + destruct (String.eqb b a); reflexivity.
    + rewrite IH.
      destruct (String.eqb_spec s a) as [-> | Hsa]; [| reflexivity].
      destruct (String.eqb_spec b a) as [Hba | _]; [congruence | reflexivity].
Qed.

Lemma find_app_or {A} (f : A -> bool) (l1 l2 : list A) :
  find f (l1 ++ l2) = match find f l1 with
                      | Some x => Some x
                      | None => find f l2
                      end.
Proof.
  induction l1 as [| x l1 IH]; [reflexivity |].
  cbn [app find]. destruct (f x); [reflexivity | exact IH].
Qed.

Lemma get_loop_lookup (params : list virTypedParameter) :
  forall (acc : list (pyobj * pyobj)) (d : pyobj),
    get_loop params (Z.of_nat (List.length params)) (PyDict acc) = Ok d ->
    forall nm,
      PyDict_GetItem d (PyStr nm)
      = match last_named params nm with
        | Some p => Some (decode_entry p)
        | None => assoc_get (PyStr nm) acc
        end.
Proof.
  unfold last_named.
  induction params as [| p rest IH]; intros acc d Hrun nm.
  - cbn in Hrun. inversion Hrun. reflexivity.
  - cbn [get_loop List.length] in Hrun. rewrite Nat2Z.inj_succ in Hrun.
    destruct (Z.leb_spec (Z.succ (Z.of_nat (List.length rest))) 0); [lia |].
    destruct (wrap_value p) as [val | e |] eqn:Hw; try discriminate Hrun.
    cbn [bind] in Hrun. rewrite set_item_string in Hrun. cbn [bind] in Hrun.
    replace (Z.succ (Z.of_nat (List.length rest)) - 1)
      with (Z.of_nat (List.length rest)) in Hrun by lia.
    rewrite (IH _ _ Hrun nm). cbn [rev]. rewrite find_app_or.
    destruct (find (fun q => String.eqb (field q) nm) (rev rest)); [reflexivity |].
    cbn [find]. rewrite assoc_get_set.
    destruct (String.eqb (field p) nm); [| reflexivity].
    unfold decode_entry. rewrite Hw. reflexivity.
Qed.

(** X3. When getPyVirTypedParameter succeeds on an array read over its
    whole length, a lookup of a name in the returned dictionary answers
    with the decoded value of the last entry of that name, and with
    nothing for a name the array does not hold: an entry whose name
    occurs again later is overwritten. *)
Theorem decode_lookup_gives_last_entry :
  forall (params : list virTypedParameter) (d : pyobj),
    getPyVirTypedParameter params (Z.of_nat (List.length params)) = Ok d ->
    forall nm : string,
      PyDict_GetItem d (PyStr nm) = option_map decode_entry (last_named params nm).
Proof.
  intros params d Hrun nm.
  unfold getPyVirTypedParameter, as_size_t, PyDict_New in Hrun.
  destruct (Z.ltb_spec (Z.of_nat (List.length params)) 0); [lia |].
  rewrite (get_loop_lookup params [] d Hrun nm).
  destruct (last_named params nm); reflexivity.
Qed.

(* ------------------------------------------------------------------ *)
(** * Encoding against a schema: what a successful call returns *)

(** X4. When setPyVirTypedParameter succeeds against a schema read over
    its whole length, the array it returns has as many entries as the
    mapping has items, and at least one; it is a new block, and the only
    blocks allocated and still live after the call are that array and the
    strings of its entries, every copy of a key having been freed; no
    memory error is committed. *)
Theorem encode_success_is_owned_and_sized :
  forall (info : pyobj) (es : list virTypedParameter) (h h' : heap) (arr : c_array),
    heap_ok h ->
    setPyVirTypedParameter info es (Z.of_nat (List.length es)) h = (Ok arr, h') ->
    PyDict_Size info = Ok (Z.of_nat (List.length (elems arr))) /\
    (0 < List.length (elems arr))%nat /\
    live h' = (rev (string_addrs (elems arr)) ++ base arr :: live h)%list /\
    NoDup (live h') /\
    faults h' = faults h.
Proof.
  intros info es h h' arr Hok Hrun.
  pose proof (set_memory info es h Hok) as Hmem. rewrite Hrun in Hmem.
  destruct Hmem as (size & Hsize & Hlen & Hpos & _ & Hlive & Hok' & Hf).
  rewrite Hsize, Hlen, Z2Nat.id by lia.
  split; [reflexivity |]. split; [lia |]. split; [exact Hlive |].
  split; [apply Hok' | exact Hf].
Qed.

Lemma encode_success_is_owned_and_sized_witness :
  PyDict_Size one_override = Ok (Z.of_nat (List.length
    [mkParam "cpu_shares" VIR_TYPED_PARAM_ULLONG (U_ul 2048)])) /\
  (0 < List.length [mkParam "cpu_shares" VIR_TYPED_PARAM_ULLONG (U_ul 2048)])%nat /\
  live (mkHeap 3%nat [1%nat] [])
  = (rev (string_addrs [mkParam "cpu_shares" VIR_TYPED_PARAM_ULLONG (U_ul 2048)])
       ++ 1%nat :: live empty_heap)%list /\
  NoDup (live (mkHeap 3%nat [1%nat] [])) /\
  faults (mkHeap 3%nat [1%nat] []) = faults empty_heap.
Proof.
  apply (encode_success_is_owned_and_sized one_override two_params empty_heap
           (mkHeap 3%nat [1%nat] [])
           (mkArray 1%nat [mkParam "cpu_shares" VIR_TYPED_PARAM_ULLONG (U_ul 2048)]));
    [empty_heap_ok | reflexivity].
Defined.

(* ------------------------------------------------------------------ *)
(** * Encoding a dictionary without a schema *)

(** A precedence that names a kind names a recognized one. *)
Lemma kind_of_known (hints : list virPyTypedParamsHint) (keystr : string)
    (value : pyobj) :
  hints_ok hints ->
  kind_of hints keystr value <> -1 ->
  spec_kind hints keystr value = Some (kind_of hints keystr value) /\
  known_kind (kind_of hints keystr value) = true.
Proof.
  intros Hh. unfold kind_of, spec_kind.
  pose proof (lookup_hint_spec hints keystr Hh) as Hl.
  destruct (spec_hint hints keystr) as [t |].
  - intros _. split; [reflexivity | apply Hl].
  - destruct value; intros Hne; try (exfalso; apply Hne; reflexivity);
      try (split; reflexivity).
    destruct (v <? 0); split; reflexivity.
Qed.

Lemma grows_by_nothing (b : builder) (h : heap) (rv0 : Z) (e : indicator) :
  heap_ok h -> grows_by b h (mkOne rv0 e b h) [].
Proof.
  intros Hok. unfold grows_by. cbn [params' heap' List.length string_addrs flat_map rev app].
  rewrite app_nil_r, Z.add_0_r.
  split; [reflexivity |]. split; [reflexivity |]. split; [constructor |].
  split; [reflexivity |]. split; [exact Hok | reflexivity].
Qed.

(** An unwrapper that hands a value back leaves the indicator as it
    found it. *)
Lemma unwrappers_keep_indicator :
  (forall obj ind v, fst (libvirt_intUnwrap_ind obj ind) = Some v ->
                     snd (libvirt_intUnwrap_ind obj ind) = ind) /\
  (forall obj ind v, fst (libvirt_uintUnwrap_ind obj ind) = Some v ->
                     snd (libvirt_uintUnwrap_ind obj ind) = ind) /\
  (forall obj ind v, fst (libvirt_longlongUnwrap_ind obj ind) = Some v ->
                     snd (libvirt_longlongUnwrap_ind obj ind) = ind) /\
  (forall obj ind v, fst (libvirt_ulonglongUnwrap_ind obj ind) = Some v ->
                     snd (libvirt_ulonglongUnwrap_ind obj ind) = ind) /\
  (forall obj ind v, fst (libvirt_doubleUnwrap_ind obj ind) = Some v ->
                     snd (libvirt_doubleUnwrap_ind obj ind) = ind) /\
  (forall obj ind v, fst (libvirt_boolUnwrap_ind obj ind) = Some v ->
                     snd (libvirt_boolUnwrap_ind obj ind) = ind).
Proof.
  assert (Hclosed : forall (A : Type) (r : option A * indicator) (ind : indicator)
                           (v : A),
             (r = (None, snd r) \/ snd r = ind) -> fst r = Some v -> snd r = ind).
  { intros A [o i] ind v [Hr | Hr] H; cbn [fst snd] in *; [| exact Hr].
    destruct o; [discriminate Hr | discriminate H]. }
  repeat split; intros obj ind v;
    unfold libvirt_intUnwrap_ind, libvirt_uintUnwrap_ind, libvirt_longlongUnwrap_ind,
      libvirt_ulonglongUnwrap_ind, libvirt_doubleUnwrap_ind, libvirt_boolUnwrap_ind,
      libvirt_boolUnwrap, conversion_failed, c_value, c_status.
  - destruct (PyLong_AsLong obj) as [x | e |]; apply Hclosed;
      [| left; reflexivity | destruct ind; vm_compute; auto].
    repeat match goal with
           | |- context [if ?c then _ else _] => destruct c
           end; cbn [snd]; auto.
  - destruct (PyLong_AsLong obj) as [x | e |]; apply Hclosed;
      [| left; reflexivity | destruct ind; vm_compute; auto].
    repeat match goal with
           | |- context [if ?c then _ else _] => destruct c
           end; cbn [snd]; auto.
  - destruct (PyLong_Check obj); [destruct (PyLong_AsLongLong obj) as [x | e |] |];
      apply Hclosed;
      [| left; reflexivity | destruct ind; vm_compute; auto
       | left; reflexivity].
    repeat match goal with
           | |- context [if ?c then _ else _] => destruct c
           end; cbn [snd]; auto.
  - destruct (PyLong_Check obj);
      [destruct (PyLong_AsUnsignedLongLong obj) as [x | e |] |];
      apply Hclosed;
      [| left; reflexivity | destruct ind; vm_compute; auto
       | left; reflexivity].
    repeat match goal with
           | |- context [if ?c then _ else _] => destruct c
           end; cbn [snd]; auto.
  - destruct (PyFloat_AsDouble obj) as [x | e |]; apply Hclosed;
      [| left; reflexivity | destruct ind; vm_compute; auto].
    repeat match goal with
           | |- context [if ?c then _ else _] => destruct c
           end; cbn [snd]; auto.
Qed.

(** A scalar that is no string: appended as it is, or refused, and
    native memory is not touched. *)
Lemma add_scalar_step (b : builder) (keystr : string) (t : Z) (x : option value_u)
    (ind : indicator) (h : heap) :
  heap_ok h -> t <> VIR_TYPED_PARAM_STRING ->
  let r := add_scalar b keystr t (x, ind) h in
  (rv r = 0 /\ raised r = ind /\ x <> None /\
   exists e, grows_by b h r [e] /\ name_and_kind e = (keystr, t)) \/
  (rv r = -1 /\ params' r = b /\ grows_by b h r []).
Proof.
  intros Hok Ht. cbv zeta. unfold add_scalar.
  destruct x as [v |];
    [| right; split; [reflexivity |]; split; [reflexivity |];
       apply grows_by_nothing; exact Hok].
  unfold virTypedParamsAdd.
  destruct (Nat.leb VIR_TYPED_PARAM_FIELD_LENGTH (String.length keystr)).
  - right. split; [reflexivity |]. split; [reflexivity |].
    apply grows_by_nothing. exact Hok.
  - left. split; [reflexivity |]. split; [reflexivity |]. split; [discriminate |].
    exists (mkParam keystr t v). split; [| reflexivity].
    assert (Hnot : (t =? VIR_TYPED_PARAM_STRING) = false) by (apply Z.eqb_neq; exact Ht).
    assert (Hsafe : clear_safe (mkParam keystr t v) = true)
      by (unfold clear_safe; cbn [type]; rewrite Hnot; reflexivity).
    assert (Haddrs : string_addrs [mkParam keystr t v] = [])
      by (unfold string_addrs; cbn [flat_map type]; rewrite Hnot; reflexivity).
    unfold grows_by. cbn [params' heap' entries n List.length].
    rewrite Haddrs. cbn [app rev].
    split; [reflexivity |]. split; [reflexivity |].
    split; [constructor; [exact Hsafe | constructor] |].
    split; [reflexivity |]. split; [exact Hok | reflexivity].
Qed.

(** The same for the value an unwrapper hands back: on success the
    indicator is the one the unwrapper found. *)
Lemma unwrapped_step {A} (member : A -> value_u)
    (f : pyobj -> indicator -> option A * indicator)
    (b : builder) (keystr : string) (t : Z) (value : pyobj) (ind : indicator)
    (h : heap) :
  (forall obj i v, fst (f obj i) = Some v -> snd (f obj i) = i) ->
  heap_ok h -> t <> VIR_TYPED_PARAM_STRING ->
  let r := add_scalar b keystr t (as_member member (f value ind)) h in
  (rv r = 0 /\ raised r = ind /\
   exists e, grows_by b h r [e] /\ name_and_kind e = (keystr, t)) \/
  (rv r = -1 /\ params' r = b /\ grows_by b h r []).
Proof.
  intros Hkeep Hok Ht. cbv zeta. unfold as_member.
  specialize (Hkeep value ind).
  destruct (f value ind) as [o ind1]. cbn [fst snd] in *.
  destruct (add_scalar_step b keystr t (option_map member o) ind1 h Hok Ht)
    as [(Hrv & Hr & Hsome & He) | Hfail]; [left | right; exact Hfail].
  split; [exact Hrv |]. split; [| exact He].
  destruct o as [v |]; [| exfalso; apply Hsome; reflexivity].
  rewrite Hr. apply (Hkeep v). reflexivity.
Qed.

Lemma free_top (p : ptr) (l : list ptr) (k : nat) (f : list fault) :
  p <> NULL -> free p (mkHeap k (p :: l) f) = mkHeap k l f.
Proof.
  intros Hp. rewrite free_live; [| exact Hp | left; reflexivity].
  cbn [next_addr live faults remove_one]. rewrite Nat.eqb_refl. reflexivity.
Qed.

Lemma free_second (p q : ptr) (l : list ptr) (k : nat) (f : list fault) :
  p <> NULL -> q <> p -> free p (mkHeap k (q :: p :: l) f) = mkHeap k (q :: l) f.
Proof.
  intros Hp Hq. rewrite free_live; [| exact Hp | right; left; reflexivity].
  cbn [next_addr live faults remove_one].
  destruct (Nat.eqb_spec q p); [contradiction |]. rewrite Nat.eqb_refl. reflexivity.
Qed.

(** An integer the sign probe is misled about, or cannot probe: one
    above [ULLONG_MAX], or [ULLONG_MAX] itself met with an exception
    pending.  Int64 is selected and the conversion refuses the value. *)
Lemma misled_probe_refuses (b : builder) (hints : list virPyTypedParamsHint)
    (keystr : string) (v : Z) (ind : indicator) (h : heap) :
  lookup_hint hints keystr = -1 ->
  ULLONG_MAX < v \/ (v = ULLONG_MAX /\ ind <> None) ->
  exists e,
    virPyDictToTypedParamOne b hints keystr (PyLong v) ind h = mkOne (-1) (Some e) b h.
Proof.
  intros Hl Hv.
  assert (Hsel : exists ind1,
             select_type hints keystr (PyLong v) ind = (VIR_TYPED_PARAM_LLONG, ind1)).
  { unfold select_type. rewrite Hl. cbn [Z.eqb Pos.eqb].
    unfold infer_type, PyLong_AsUnsignedLongLong.
    cbn [PyUnicode_Check PyBool_Check PyLong_Check int_value].
    unfold ULLONG_MAX in *.
    destruct (Z.ltb_spec v 0); [lia |].
    destruct Hv as [Hgt | [-> Hind]].
    - destruct (Z.leb_spec v (2 ^ 64 - 1)); [lia |].
      cbn [c_value PyErr_Occurred]. rewrite Z.eqb_refl. eexists. reflexivity.
    - destruct ind as [e0 |]; [| contradiction]. eexists. reflexivity. }
  destruct Hsel as [ind1 Hsel].
  unfold virPyDictToTypedParamOne. rewrite Hsel.
  cbn [Z.eqb Pos.eqb VIR_TYPED_PARAM_LLONG VIR_TYPED_PARAM_INT VIR_TYPED_PARAM_UINT].
  unfold libvirt_longlongUnwrap_ind, PyLong_AsLongLong, in_range, as_member.
  cbn [PyLong_Check int_value].
  unfold LLONG_MIN, LLONG_MAX, ULLONG_MAX in *.
  assert (Hbig : (v <=? 2 ^ 63 - 1) = false) by (apply Z.leb_gt; lia).
  rewrite Hbig, andb_false_r.
  cbn [c_value conversion_failed PyErr_Occurred Z.eqb Pos.eqb andb fst snd option_map
       add_scalar].
  eexists. reflexivity.
Qed.

(** One value: one entry of the kind the precedence gives it, under the
    given name, or nothing at all. *)
Lemma one_step (b : builder) (hints : list virPyTypedParamsHint) (keystr : string)
    (value : pyobj) (ind : indicator) (h : heap) :
  heap_ok h -> hints_ok hints ->
  let r := virPyDictToTypedParamOne b hints keystr value ind h in
  (rv r = 0 /\ raised r = indicator_after hints keystr value ind /\
   exists e t, spec_kind hints keystr value = Some t /\
               grows_by b h r [e] /\ name_and_kind e = (keystr, t)) \/
  (rv r = -1 /\ params' r = b /\ grows_by b h r []).
Proof.
  intros Hok Hh. cbv zeta.
  assert (Hcase :
            (spec_hint hints keystr = None ->
             forall v, value = PyLong v ->
                       v < ULLONG_MAX \/ (v = ULLONG_MAX /\ ind = None)) \/
            (lookup_hint hints keystr = -1 /\
             exists v, value = PyLong v /\
                       (ULLONG_MAX < v \/ (v = ULLONG_MAX /\ ind <> None)))).
  { pose proof (lookup_hint_spec hints keystr Hh) as Hl.
    destruct (spec_hint hints keystr) as [t |]; [left; discriminate |].
    destruct value; try (left; intros _ v0 Hv; discriminate Hv).
    destruct (Z_lt_le_dec v ULLONG_MAX) as [Hlt | Hge].
    - left. intros _ v0 Hv. inversion Hv; subst. left. exact Hlt.
    - destruct (Z.eq_dec v ULLONG_MAX) as [-> | Hne].
      + destruct ind as [e0 |].
        * right. split; [exact Hl |]. eexists. split; [reflexivity |].
          right. split; [reflexivity | discriminate].
        * left. intros _ v0 Hv. inversion Hv; subst. right. split; reflexivity.
      + right. split; [exact Hl |]. eexists. split; [reflexivity |]. left. lia. }
  destruct Hcase as [Hfine | (Hl & v & -> & Hv)].
  2:{ destruct (misled_probe_refuses b hints keystr v ind h Hl Hv) as [e ->].
      right. split; [reflexivity |]. split; [reflexivity |].
      apply grows_by_nothing. exact Hok. }
  unfold virPyDictToTypedParamOne.
  rewrite (select_type_spec hints keystr value ind Hh Hfine).
  pose proof (kind_of_known hints keystr value Hh) as Hknown.
  set (t := kind_of hints keystr value) in *.
  set (ind1 := indicator_after hints keystr value ind).
  destruct (Z.eqb_spec t (-1)) as [Hm | Hm].
  { right. split; [reflexivity |]. split; [reflexivity |].
    apply grows_by_nothing. exact Hok. }
  destruct (Hknown Hm) as [Hspec Hr].
  unfold known_kind in Hr. apply andb_prop in Hr. destruct Hr as [Hlo Hhi].
  apply Z.leb_le in Hlo. apply Z.leb_le in Hhi.
  unfold VIR_TYPED_PARAM_INT, VIR_TYPED_PARAM_STRING in Hlo, Hhi.
  destruct unwrappers_keep_indicator as (Ki & Kui & Kl & Kul & Kd & Kb).
  assert (Hscalar : forall r,
             (rv r = 0 /\ raised r = ind1 /\
              exists e, grows_by b h r [e] /\ name_and_kind e = (keystr, t)) \/
             (rv r = -1 /\ params' r = b /\ grows_by b h r []) ->
             (rv r = 0 /\ raised r = ind1 /\
              exists e t0, spec_kind hints keystr value = Some t0 /\
                           grows_by b h r [e] /\ name_and_kind e = (keystr, t0)) \/
             (rv r = -1 /\ params' r = b /\ grows_by b h r [])).
  { intros r [(Hrv & Hi & e & Hg & Hsig) | Hfail]; [left | right; exact Hfail].
    split; [exact Hrv |]. split; [exact Hi |]. exists e, t. auto. }
  destruct (Z.eqb_spec t VIR_TYPED_PARAM_INT) as [E | E1];
    [apply Hscalar, (unwrapped_step U_i libvirt_intUnwrap_ind);
       [exact Ki | exact Hok | rewrite E; discriminate] |].
  destruct (Z.eqb_spec t VIR_TYPED_PARAM_UINT) as [E | E2];
    [apply Hscalar, (unwrapped_step U_ui libvirt_uintUnwrap_ind);
       [exact Kui | exact Hok | rewrite E; discriminate] |].
  destruct (Z.eqb_spec t VIR_TYPED_PARAM_LLONG) as [E | E3];
    [apply Hscalar, (unwrapped_step U_l libvirt_longlongUnwrap_ind);
       [exact Kl | exact Hok | rewrite E; discriminate] |].
  destruct (Z.eqb_spec t VIR_TYPED_PARAM_ULLONG) as [E | E4];
    [apply Hscalar, (unwrapped_step U_ul libvirt_ulonglongUnwrap_ind);
       [exact Kul | exact Hok | rewrite E; discriminate] |].
  destruct (Z.eqb_spec t VIR_TYPED_PARAM_DOUBLE) as [E | E5];
    [apply Hscalar, (unwrapped_step U_d libvirt_doubleUnwrap_ind);
       [exact Kd | exact Hok | rewrite E; discriminate] |].
  destruct (Z.eqb_spec t VIR_TYPED_PARAM_BOOLEAN) as [E | E6];
    [apply Hscalar,
       (unwrapped_step (fun x => U_b (Z.b2z x)) libvirt_boolUnwrap_ind);
       [exact Kb | exact Hok | rewrite E; discriminate] |].
  destruct (Z.eqb_spec t VIR_TYPED_PARAM_STRING) as [Hs | Hs];
    [| unfold VIR_TYPED_PARAM_INT, VIR_TYPED_PARAM_UINT, VIR_TYPED_PARAM_LLONG,
         VIR_TYPED_PARAM_ULLONG, VIR_TYPED_PARAM_DOUBLE, VIR_TYPED_PARAM_BOOLEAN,
         VIR_TYPED_PARAM_STRING in *; lia].
  apply Hscalar.
  unfold libvirt_charPtrUnwrap.
  destruct value;
    try (right; split; [reflexivity |]; split; [reflexivity |];
         apply grows_by_nothing; exact Hok).
  unfold strdup, malloc. cbn [text addr next_addr live faults].
  destruct Hok as (Hpos & Hnd & Hbound).
  assert (Hbound' := Hbound). rewrite Forall_forall in Hbound'.
  assert (Hfresh1 : ~ In (next_addr h) (live h)).
  { intros Hin. apply Hbound' in Hin. lia. }
  assert (Hfresh2 : ~ In (S (next_addr h)) (live h)).
  { intros Hin. apply Hbound' in Hin. lia. }
  assert (Hp1 : next_addr h <> NULL) by (unfold NULL; lia).
  assert (Hp2 : S (next_addr h) <> NULL) by (unfold NULL; lia).
  unfold virTypedParamsAdd, VIR_FREE.
  destruct (Nat.leb VIR_TYPED_PARAM_FIELD_LENGTH (String.length keystr)).
  - right. split; [reflexivity |]. split; [reflexivity |].
    unfold grows_by. cbn [params' heap' List.length].
    rewrite (free_top _ _ _ _ Hp2), (free_top _ _ _ _ Hp1).
    cbn [live next_addr faults string_addrs flat_map rev app].
    rewrite app_nil_r, Z.add_0_r.
    split; [reflexivity |]. split; [reflexivity |]. split; [constructor |].
    split; [reflexivity |]. split; [| reflexivity].
    unfold heap_ok. cbn [next_addr live].
    split; [lia |]. split; [exact Hnd |].
    rewrite Forall_forall. intros q Hq. apply Hbound' in Hq. lia.
  - left. split; [reflexivity |]. split; [reflexivity |].
    exists (mkParam keystr t (U_s (mkCstr (S (next_addr h)) (c_str (c_str s))))).
    split; [| reflexivity].
    set (e := mkParam keystr t (U_s (mkCstr (S (next_addr h)) (c_str (c_str s))))).
    assert (Hsafe : clear_safe e = true)
      by (unfold clear_safe, e; cbn [type value]; rewrite Hs; reflexivity).
    assert (Haddrs : string_addrs [e] = [S (next_addr h)])
      by (unfold string_addrs, e; cbn [flat_map type value addr]; rewrite Hs;
          reflexivity).
    unfold grows_by. cbn [params' heap' entries n List.length].
    rewrite (free_second _ _ _ _ _ Hp1) by lia.
    rewrite Haddrs. cbn [live next_addr faults app rev].
    split; [reflexivity |]. split; [reflexivity |].
    split; [constructor; [exact Hsafe | constructor] |]. split; [reflexivity |].
    split; [| reflexivity].
    unfold heap_ok. cbn [next_addr live].
    split; [lia |]. split.
    + constructor; [exact Hfresh2 | exact Hnd].
    + constructor; [lia |]. rewrite Forall_forall. intros q Hq.
      apply Hbound' in Hq. lia.
Qed.

Lemma grows_by_trans (b : builder) (h : heap) (r1 r2 : one_result)
    (es1 es2 : list virTypedParameter) :
  grows_by b h r1 es1 ->
  grows_by (params' r1) (heap' r1) r2 es2 ->
  grows_by b h r2 (es1 ++ es2).
Proof.
  intros (He1 & Hn1 & Hs1 & Hl1 & _ & Hf1) (He2 & Hn2 & Hs2 & Hl2 & Hok2 & Hf2).
  unfold grows_by.
  split; [rewrite He2, He1, app_assoc; reflexivity |].
  split; [rewrite Hn2, Hn1, length_app; lia |].
  split; [apply Forall_app; split; assumption |].
  split; [rewrite Hl2, Hl1, string_addrs_app, rev_app_distr, app_assoc; reflexivity |].
  split; [exact Hok2 | congruence].
Qed.

(** The items of a sequence value: the entries of those converted before
    the first failure, in order. *)
Lemma add_each_steps (hints : list virPyTypedParamsHint) (keystr : string)
    (vals : list pyobj) :
  hints_ok hints ->
  forall (b : builder) (ind : indicator) (h : heap),
    heap_ok h ->
    exists es,
      grows_by b h (add_each b hints keystr vals ind h) es /\
      ((rv (add_each b hints keystr vals ind h) = 0 /\
        map name_and_kind es
        = map (fun v => (keystr, kind_of hints keystr v)) vals) \/
       rv (add_each b hints keystr vals ind h) = -1).
Proof.
  intros Hh. induction vals as [| v rest IH]; intros b ind h Hok.
  - exists []. split; [apply grows_by_nothing; exact Hok |].
    left. split; reflexivity.
  - cbn [add_each].
    destruct (one_step b hints keystr v ind h Hok Hh)
      as [(Hrv & _ & e & t & Hk & Hg & Hsig) | (Hrv & _ & Hg)]; rewrite Hrv.
    + cbn [Z.ltb Z.compare].
      assert (Hok1 : heap_ok (heap' (virPyDictToTypedParamOne b hints keystr v ind h)))
        by apply Hg.
      destruct (IH (params' (virPyDictToTypedParamOne b hints keystr v ind h))
                   (raised (virPyDictToTypedParamOne b hints keystr v ind h)) _ Hok1)
        as (es & Hg2 & Hcase).
      exists ([e] ++ es)%list. split; [exact (grows_by_trans _ _ _ _ _ _ Hg Hg2) |].
      destruct Hcase as [(Hrv2 & Hsig2) | Hrv2]; [left | right; exact Hrv2].
      split; [exact Hrv2 |]. cbn [app map]. rewrite Hsig, Hsig2.
      unfold kind_of at 2. rewrite Hk. reflexivity.
    + cbn [Z.ltb Z.compare]. exists []. split; [exact Hg | right; exact Hrv].
Qed.

(** Freeing the copy of the key, which was allocated before the entries
    of its item. *)
Lemma release_key (b : builder) (h : heap) (r : one_result)
    (es : list virTypedParameter) (x : Z) (y : indicator) :
  heap_ok h ->
  grows_by b (snd (malloc h)) r es ->
  grows_by b h (mkOne x y (params' r) (VIR_FREE (next_addr h) (heap' r))) es.
Proof.
  intros (Hpos & _) (He & Hn & Hs & Hl & Hok & Hf).
  unfold malloc in Hl, Hf. cbn [snd live faults] in Hl, Hf.
  assert (Hnd : NoDup (live (heap' r))) by apply Hok.
  assert (Hnot : ~ In (next_addr h) (rev (string_addrs es))).
  { rewrite Hl in Hnd. intros Hin.
    apply (NoDup_app_disjoint _ _ Hnd (next_addr h)); [left; reflexivity | exact Hin]. }
  unfold grows_by. cbn [params' heap']. unfold VIR_FREE.
  rewrite free_live;
    [| unfold NULL; lia
     | rewrite Hl; apply in_or_app; right; left; reflexivity].
  cbn [live faults]. rewrite Hl, remove_one_app by exact Hnot.
  split; [exact He |]. split; [exact Hn |]. split; [exact Hs |].
  split; [reflexivity |]. split; [| exact Hf].
  apply (heap_ok_sublist (heap' r) (rev (string_addrs es)) [next_addr h] (live h));
    [exact Hok | exact Hl].
Qed.

Lemma dict_loop_steps (hints : list virPyTypedParamsHint)
    (items : list (pyobj * pyobj)) :
  hints_ok hints ->
  forall (b : builder) (ind : indicator) (h : heap),
    heap_ok h ->
    exists es,
      grows_by b h (dict_loop items b hints ind h) es /\
      ((rv (dict_loop items b hints ind h) = 0 /\
        map name_and_kind es = expected_fields hints items) \/
       rv (dict_loop items b hints ind h) = -1).
Proof.
  intros Hh. induction items as [| [key value] rest IH]; intros b ind h Hok.
  - exists []. split; [apply grows_by_nothing; exact Hok |].
    left. split; reflexivity.
  - cbn [dict_loop]. unfold libvirt_charPtrUnwrap.
    destruct key;
      try (exists []; split; [apply grows_by_nothing; exact Hok | right; reflexivity]).
    unfold strdup.
    pose proof (heap_ok_malloc h Hok) as Hok1.
    assert (Hm : malloc h = (next_addr h, snd (malloc h))) by reflexivity.
    rewrite Hm. cbn [text addr].
    set (h1 := snd (malloc h)) in *.
    set (r := if PyList_Check value || PyTuple_Check value
              then add_each b hints (c_str s) (sequence_items value) ind h1
              else virPyDictToTypedParamOne b hints (c_str s) value ind h1).
    assert (Hitem : exists es,
               grows_by b h1 r es /\
               ((rv r = 0 /\
                 map name_and_kind es
                 = map (fun v => (c_str s, kind_of hints (c_str s) v))
                       (scalars value)) \/
                rv r = -1)).
    { unfold r, scalars.
      destruct (PyList_Check value || PyTuple_Check value).
      - apply add_each_steps; assumption.
      - destruct (one_step b hints (c_str s) value ind h1 Hok1 Hh)
          as [(Hrv & _ & e & t & Hk & Hg & Hsig) | (Hrv & _ & Hg)].
        + exists [e]. split; [exact Hg |]. left. split; [exact Hrv |].
          cbn [map]. rewrite Hsig. unfold kind_of. rewrite Hk. reflexivity.
        + exists []. split; [exact Hg | right; exact Hrv]. }
    destruct Hitem as (es & Hg & Hcase).
    destruct Hcase as [(Hrv & Hsig) | Hrv]; rewrite Hrv; cbn [Z.ltb Z.compare].
    + pose proof (release_key b h r es 0 None Hok Hg) as Hg'.
      assert (Hok2 : heap_ok (VIR_FREE (next_addr h) (heap' r))) by apply Hg'.
      destruct (IH (params' r) (raised r) _ Hok2) as (es2 & Hg2 & Hcase2).
      exists (es ++ es2)%list.
      split; [exact (grows_by_trans _ _ _ _ _ _ Hg' Hg2) |].
      destruct Hcase2 as [(Hrv2 & Hsig2) | Hrv2]; [left | right; exact Hrv2].
      split; [exact Hrv2 |].
      rewrite map_app, Hsig, Hsig2. reflexivity.
    + exists es. split; [| right; reflexivity].
      exact (release_key b h r es (-1) (raised r) Hok Hg).
Qed.

(** The strings of a list that holds all that was allocated since [h]
    are freed by [virTypedParamsFree]. *)
Lemma free_builder_releases (h : heap) (r : one_result)
    (es : list virTypedParameter) :
  grows_by (mkBuilder [] 0 0) h r es ->
  live (free_builder (params' r) (heap' r)) = live h /\
  faults (free_builder (params' r) (heap' r)) = faults h.
Proof.
  intros (He & Hn & Hs & Hl & Hok & Hf). cbn [entries n app] in He, Hn.
  unfold free_builder. rewrite He, Hn, Z.add_0_l, Nat2Z.id, firstn_all.
  assert (Hnd : NoDup (live (heap' r))) by apply Hok.
  rewrite Hl in Hnd.
  rewrite clear_entries.
  - cbn [live faults]. rewrite Hl.
    pose proof (remove_allocated [] (string_addrs es) (live h)) as Hr.
    cbn [app] in Hr. rewrite Hr.
    + split; [reflexivity | exact Hf].
    + apply NoDup_app_remove_r in Hnd. apply NoDup_rev in Hnd.
      rewrite rev_involutive in Hnd. exact Hnd.
    + intros p _ Hin. inversion Hin.
  - exact Hs.
  - rewrite Hl, Forall_forall. intros q Hq.
    apply in_or_app. left. rewrite <- in_rev. exact Hq.
  - apply NoDup_app_remove_r in Hnd. apply NoDup_rev in Hnd.
    rewrite rev_involutive in Hnd. exact Hnd.
Qed.

(** X5. For hints that carry recognized kinds and whatever exception is
    pending when it is called, virPyDictToTypedParamOne returns 0 or -1.
    When it returns 0 it has appended exactly one entry to the list,
    named keystr and of the kind the precedence gives the value, the
    string of that entry being the only block left allocated; the
    indicator is as the call found it, but for a negative integer without
    a hint, where the OverflowError of the sign probe is left pending
    although the call succeeded.  When it returns -1 the list, its count
    and native memory are as they were. *)
Theorem typed_param_one_appends_or_leaves_unchanged :
  forall (b : builder) (hints : list virPyTypedParamsHint) (keystr : string)
         (val : pyobj) (ind : indicator) (h : heap),
    heap_ok h -> hints_ok hints ->
    let r := virPyDictToTypedParamOne b hints keystr val ind h in
    (rv r = 0 \/ rv r = -1) /\
    (rv r = 0 ->
     raised r = match spec_hint hints keystr, val with
                | None, PyLong v =>
                    if v <? 0
                    then Some (overflow "can't convert negative int to unsigned")
                    else ind
                | _, _ => ind
                end /\
     exists t v,
       spec_kind hints keystr val = Some t /\
       entries (params' r) = (entries b ++ [mkParam keystr t v])%list /\
       n (params' r) = n b + 1 /\
       live (heap' r) = (string_addrs [mkParam keystr t v] ++ live h)%list /\
       faults (heap' r) = faults h) /\
    (rv r = -1 ->
     params' r = b /\ live (heap' r) = live h /\ faults (heap' r) = faults h).
Proof.
  intros b hints keystr val ind h Hok Hh. cbv zeta.
  destruct (one_step b hints keystr val ind h Hok Hh)
    as [(Hrv & Hraised & e & t & Hk & Hg & Hsig) | (Hrv & Hb & Hg)].
  - split; [left; exact Hrv |]. split; [| rewrite Hrv; discriminate].
    intros _. split; [exact Hraised |].
    destruct e as [nm t0 v]. unfold name_and_kind in Hsig. cbn [field type] in Hsig.
    inversion Hsig; subst nm t0. exists t, v.
    destruct Hg as (He & Hn & _ & Hl & _ & Hf).
    split; [exact Hk |]. split; [exact He |]. split; [exact Hn |]. split; [| exact Hf].
    rewrite Hl. f_equal.
    unfold string_addrs. cbn [flat_map type value]. rewrite app_nil_r.
    destruct (t =? VIR_TYPED_PARAM_STRING); [| reflexivity].
    destruct v as [| | | | | | | s]; try reflexivity.
    destruct (Nat.eqb (addr s) NULL); reflexivity.
  - split; [right; exact Hrv |]. split; [rewrite Hrv; discriminate |].
    intros _. split; [exact Hb |].
    destruct Hg as (_ & _ & _ & Hl & _ & Hf). split; [exact Hl | exact Hf].
Qed.

(** X6. When virPyDictToTypedParams returns 0 (hints of recognized
    kinds, whatever exception is pending when it is called), the list it
    hands back holds, in the order of the dictionary, one entry for every
    value: a list or tuple under one key becomes one entry per item, all
    under that key's name, an empty sequence none, any other value one
    entry; each entry has the kind the precedence gives its value.  The
    count is the length of the list, and the strings of the entries are
    the only blocks left allocated. *)
Theorem dict_to_params_names_every_value :
  forall (dict : pyobj) (hints : list virPyTypedParamsHint) (ind : indicator)
         (h : heap),
    heap_ok h -> hints_ok hints ->
    let r := virPyDictToTypedParams dict hints ind h in
    ret r = 0 ->
    map name_and_kind (ret_params r) = expected_fields hints (dict_items dict) /\
    ret_nparams r = Z.of_nat (List.length (ret_params r)) /\
    live (heap_after r) = (rev (string_addrs (ret_params r)) ++ live h)%list /\
    faults (heap_after r) = faults h.
Proof.
  intros dict hints ind h Hok Hh. cbv zeta. unfold virPyDictToTypedParams.
  destruct (PyDict_Size dict) as [size | e |]; cbn [ret]; try discriminate.
  destruct (dict_loop_steps hints (dict_items dict) Hh (mkBuilder [] 0 0) ind h Hok)
    as (es & Hg & Hcase).
  destruct Hcase as [(Hrv & Hsig) | Hrv]; rewrite Hrv; cbn [Z.ltb Z.compare ret];
    [| discriminate].
  intros _. cbn [ret_params ret_nparams heap_after].
  destruct Hg as (He & Hn & _ & Hl & _ & Hf). cbn [entries n app] in He, Hn.
  rewrite He. split; [exact Hsig |]. split; [rewrite Hn; lia |].
  split; [exact Hl | exact Hf].
Qed.

(** X7. When virPyDictToTypedParams fails (hints of recognized kinds,
    whatever exception is pending when it is called), it returns -1,
    hands back no list and the count 0, and has freed the copy of the key
    and the string of every entry it had appended: native memory is as it
    was before the call, without a memory error. *)
Theorem dict_to_params_failure_hands_back_nothing :
  forall (dict : pyobj) (hints : list virPyTypedParamsHint) (ind : indicator)
         (h : heap),
    heap_ok h -> hints_ok hints ->
    let r := virPyDictToTypedParams dict hints ind h in
    ret r <> 0 ->
    ret r = -1 /\ ret_params r = [] /\ ret_nparams r = 0 /\
    live (heap_after r) = live h /\ faults (heap_after r) = faults h.
Proof.
  intros dict hints ind h Hok Hh. cbv zeta. unfold virPyDictToTypedParams.
  destruct (PyDict_Size dict) as [size | e |]; cbn [ret];
    try (intros _; repeat split; reflexivity).
  destruct (dict_loop_steps hints (dict_items dict) Hh (mkBuilder [] 0 0) ind h Hok)
    as (es & Hg & Hcase).
  destruct Hcase as [(Hrv & Hsig) | Hrv]; rewrite Hrv; cbn [Z.ltb Z.compare ret];
    [intros Hne; exfalso; apply Hne; reflexivity |].
  intros _. cbn [ret_params ret_nparams heap_after].
  destruct (free_builder_releases h _ es Hg) as [Hl Hf].
  repeat split; assumption.
Qed.

(** X23. Without a hint the integer -1 is never encoded: the sign probe
    leaves its OverflowError pending and selects Int64, and the Int64
    conversion, which takes the value -1 with an exception pending for
    its own failure, refuses.  The call returns -1 with that exception,
    the list and native memory untouched, whatever was pending before. *)
Theorem minus_one_without_hint_is_refused :
  forall (b : builder) (keystr : string) (ind : indicator) (h : heap),
    spec_kind [] keystr (PyLong (-1)) = Some VIR_TYPED_PARAM_LLONG /\
    virPyDictToTypedParamOne b [] keystr (PyLong (-1)) ind h
    = mkOne (-1) (Some (overflow "can't convert negative int to unsigned")) b h.
Proof.
  intros b keystr ind h. split; reflexivity.
Qed.

(* ------------------------------------------------------------------ *)
(** * Scheduler parameters: reading, and reading then writing *)

(** The entries libvirt writes are native entries that decode like the
    parameters they copy. *)
Lemma fill_entries (src : list virTypedParameter) :
  forall h : heap,
    heap_ok h ->
    Forall (fun p => native_entry p = true) src ->
    Forall2 (fun p q => field q = field p /\ type q = type p /\
                        native_entry q = true /\
                        uint_fits_int q = uint_fits_int p /\
                        decode_entry q = decode_entry p)
            src (fst (fill src h)).
Proof.
  induction src as [| p src IH]; intros h Hok Hsrc; [constructor |].
  inversion Hsrc as [| ? ? Hp Hrest]; subst.
  cbn [fill].
  destruct (value p) as [| i | i | i | i | d | b | s] eqn:Hv;
    try (specialize (IH h Hok Hrest); destruct (fill src h) as [rest' h2];
         cbn [fst] in *; constructor; [repeat split; auto | exact IH]).
  unfold strdup.
  pose proof (heap_ok_malloc h Hok) as Hok1.
  unfold malloc in *. cbn [snd] in Hok1.
  specialize (IH _ Hok1 Hrest).
  destruct (fill src _) as [rest' h2]. cbn [fst] in *.
  constructor; [| exact IH].
  cbn [field type].
  assert (Hparts : field_ok (field p) = true /\ type p = VIR_TYPED_PARAM_STRING /\
                   Nat.eqb (addr s) NULL = false /\ no_nul (text s) = true).
  { unfold native_entry in Hp. rewrite Hv in Hp.
    apply andb_prop in Hp. destruct Hp as [Hf Hp].
    apply andb_prop in Hp. destruct Hp as [Hp Htext].
    apply andb_prop in Hp. destruct Hp as [Ht Ha].
    apply Z.eqb_eq in Ht. apply negb_true_iff in Ha. auto. }
  destruct Hparts as (Hf & Ht & Ha & Htext).
  destruct Hok as (Hpos & _).
  assert (Hfresh : Nat.eqb (next_addr h) NULL = false).
  { apply Nat.eqb_neq. unfold NULL. lia. }
  split; [reflexivity |]. split; [reflexivity |].
  split; [| split].
  - unfold native_entry. cbn [field type value addr text].
    rewrite Hf, Ht, Hfresh, (c_str_no_nul _ Htext), Htext. reflexivity.
  - unfold uint_fits_int. rewrite Hv. reflexivity.
  - unfold decode_entry, wrap_value. cbn [type value]. rewrite Ht, Hv.
    cbn [read_s of_member bind addr text]. rewrite Hfresh, Ha.
    rewrite (c_str_no_nul _ Htext). reflexivity.
Qed.

Lemma copies_decode_alike (src written : list virTypedParameter) :
  Forall2 (fun p q => field q = field p /\ type q = type p /\
                      native_entry q = true /\
                      uint_fits_int q = uint_fits_int p /\
                      decode_entry q = decode_entry p) src written ->
  items_of written = items_of src /\
  map field written = map field src /\
  List.length written = List.length src /\
  Forall (fun q => native_entry q = true) written.
Proof.
  induction 1 as [| p q src written (Hf & Ht & Hn & Hu & Hd) _ IH].
  - repeat split. constructor.
  - destruct IH as (Hi & Hm & Hl & Hall).
    unfold items_of in *. cbn [map List.length].
    rewrite Hi, Hm, Hl, Hf, Hd. repeat split. constructor; assumption.
Qed.

(** The run of the getter on a domain that reports [src]. *)
Lemma getter_run (dom : native_domain) (d : pyobj) (h : heap) (nm : string)
    (src : list virTypedParameter) :
  heap_ok h -> reports dom nm src ->
  let r := libvirt_virDomainGetSchedulerParameters dom (PyTuple [d]) h in
  result r = Ok (PyDict (items_of src)) /\
  live (final r) = live h /\
  faults (final r) = faults h /\
  forallb freed_with_own_length (calls r) = true.
Proof.
  intros Hok (Htype & Hparams & Hnat & Hnd & Hfit). cbv zeta.
  unfold libvirt_virDomainGetSchedulerParameters. rewrite Htype.
  unfold strdup.
  pose proof (free_after_malloc h Hok) as Hfree.
  destruct (malloc h) as [cp hc]. cbn [fst snd addr] in *. rewrite Hfree.
  pose proof (heap_ok_bump h Hok) as Hok1.
  set (h1 := mkHeap (S (next_addr h)) (live h) (faults h)) in *.
  destruct (Z.eqb_spec (Z.of_nat (List.length src)) 0) as [Hz | Hnz].
  - destruct src; [| cbn in Hz; lia]. cbn. repeat split.
  - unfold VIR_ALLOC_N, virDomainGetSchedulerParameters.
    pose proof (heap_ok_malloc h1 Hok1) as Hok2.
    destruct (malloc h1) as [b h2] eqn:Hm.
    assert (Hh2 : live h2 = b :: live h /\ faults h2 = faults h).
    { unfold malloc in Hm. inversion Hm; subst. split; reflexivity. }
    destruct Hh2 as [Hlive2 Hf2]. cbn [snd] in Hok2. cbn [base elems].
    rewrite Hparams, Nat2Z.id, firstn_all.
    destruct (fill_memory src h2 Hok2 Hnat) as (Hok3 & Hf3 & Hlive3 & Hsafe3 & Hlen3).
    pose proof (fill_entries src h2 Hok2 Hnat) as Hcopy.
    destruct (fill src h2) as [written h3]. cbn [fst snd] in *.
    destruct (copies_decode_alike src written Hcopy) as (Hitems & Hnames & _ & Hwn).
    rewrite Hlen3.
    replace (skipn (List.length src) (repeat zero_param (List.length src)))
      with (@nil virTypedParameter)
      by (rewrite <- (repeat_length zero_param (List.length src)) at 1;
          symmetry; apply skipn_all).
    rewrite app_nil_r. cbn [Z.ltb Z.compare elems result final calls].
    split; [| split; [| split]].
    + unfold getPyVirTypedParameter, as_size_t, PyDict_New.
      destruct (Z.ltb_spec (Z.of_nat (List.length src)) 0); [lia |].
      rewrite <- Hlen3, <- Hitems.
      apply (get_loop_native written []).
      * cbn [app]. rewrite Hnames. exact Hnd.
      * clear - Hcopy Hfit.
        induction Hcopy as [| p q src written (_ & _ & Hn & Hu & _) _ IH];
          [constructor |].
        inversion Hfit as [| ? ? Hp Hrest]; subst.
        constructor; [split; [exact Hn | congruence] | apply IH; exact Hrest].
    + rewrite (free_array_releases [] (live h) _ b written h3); auto.
      * rewrite Nat2Z.id. exact Hlen3.
      * cbn [app]. rewrite Hlive3, Hlive2. reflexivity.
    + rewrite (free_array_releases [] (live h) _ b written h3); auto.
      * cbn [faults]. congruence.
      * rewrite Nat2Z.id. exact Hlen3.
      * cbn [app]. rewrite Hlive3, Hlive2. reflexivity.
    + cbn [app forallb freed_with_own_length elems andb].
      rewrite Hlen3, Z.eqb_refl. reflexivity.
Qed.

(** X8. For a domain that reports scheduler parameters as libvirt
    produces them, with distinct names and unsigned 32-bit payloads within
    INT_MAX, libvirt_virDomainGetSchedulerParameters returns the
    dictionary with one item per parameter, in order, and releases the
    array it read them into with that array's own length: nothing stays
    allocated and no memory error is committed. *)
Theorem getter_returns_parameters_and_releases_array :
  forall (dom : native_domain) (d : pyobj) (h : heap) (nm : string)
         (src : list virTypedParameter),
    heap_ok h -> reports dom nm src ->
    let r := libvirt_virDomainGetSchedulerParameters dom (PyTuple [d]) h in
    result r = Ok (PyDict (items_of src)) /\
    live (final r) = live h /\
    faults (final r) = faults h /\
    forallb freed_with_own_length (calls r) = true.
Proof.
  intros dom d h nm src Hok Hrep. exact (getter_run dom d h nm src Hok Hrep).
Qed.

(** X9. libvirt_virDomainGetSchedulerParameters, for every domain whose
    answers agree with each other: on every path nothing it allocated
    stays allocated, no memory error is committed and the array is freed
    with its own length.  Without a scheduler type it returns None and
    touches no memory; with a scheduler of zero parameters it returns the
    empty dictionary; when the native read fails it returns None. *)
Theorem getter_releases_array_on_every_path :
  forall (dom : native_domain) (d : pyobj) (h : heap),
    heap_ok h -> domain_ok dom ->
    let r := libvirt_virDomainGetSchedulerParameters dom (PyTuple [d]) h in
    live (final r) = live h /\
    faults (final r) = faults h /\
    forallb freed_with_own_length (calls r) = true /\
    (sched_type dom = None -> result r = Ok VIR_PY_NONE /\ final r = h) /\
    (forall nm, sched_type dom = Some (nm, 0) -> result r = Ok (PyDict [])) /\
    (forall nm k, sched_type dom = Some (nm, k) -> k <> 0 ->
                  sched_params dom = None -> result r = Ok VIR_PY_NONE).
Proof.
  intros dom d h Hok Hdom. cbv zeta.
  unfold libvirt_virDomainGetSchedulerParameters.
  unfold domain_ok in Hdom.
  destruct (sched_type dom) as [[c_retval nparams] |];
    [| cbn; repeat split; auto; intros; discriminate].
  destruct Hdom as [Hn Hsrc].
  unfold strdup.
  pose proof (free_after_malloc h Hok) as Hfree.
  destruct (malloc h) as [cp hc]. cbn [fst snd addr] in *. rewrite Hfree.
  pose proof (heap_ok_bump h Hok) as Hok1.
  set (h1 := mkHeap (S (next_addr h)) (live h) (faults h)) in *.
  destruct (Z.eqb_spec nparams 0) as [Hz | Hnz].
  { cbn. repeat split; auto; try discriminate.
    intros nm k Heq Hk. inversion Heq. congruence. }
  unfold VIR_ALLOC_N, virDomainGetSchedulerParameters.
  pose proof (heap_ok_malloc h1 Hok1) as Hok2.
  destruct (malloc h1) as [b h2] eqn:Hm.
  assert (Hh2 : live h2 = b :: live h /\ faults h2 = faults h).
  { unfold malloc in Hm. inversion Hm; subst. split; reflexivity. }
  destruct Hh2 as [Hlive2 Hf2]. cbn [snd] in Hok2. cbn [base elems].
  destruct (sched_params dom) as [src |].
  - destruct Hsrc as [Hlen Hnat].
    rewrite <- Hlen, Nat2Z.id, firstn_all.
    destruct (fill_memory src h2 Hok2 Hnat) as (Hok3 & Hf3 & Hlive3 & Hsafe3 & Hlen3).
    destruct (fill src h2) as [written h3]. cbn [fst snd] in *.
    rewrite Hlen3.
    replace (skipn (List.length src) (repeat zero_param (List.length src)))
      with (@nil virTypedParameter)
      by (rewrite <- (repeat_length zero_param (List.length src)) at 1;
          symmetry; apply skipn_all).
    rewrite app_nil_r. cbn [Z.ltb Z.compare elems result final calls].
    rewrite (free_array_releases [] (live h) _ b written h3); auto.
    + cbn [live faults app forallb freed_with_own_length elems andb].
      rewrite Hlen3, Z.eqb_refl.
      split; [reflexivity |]. split; [congruence |]. split; [reflexivity |].
      split; [discriminate |]. split.
      * intros nm Heq. inversion Heq. lia.
      * intros nm k _ _ Hnone. discriminate Hnone.
    + rewrite Nat2Z.id. exact Hlen3.
    + cbn [app]. rewrite Hlive3, Hlive2. reflexivity.
  - cbn [Z.ltb Z.compare result final calls].
    rewrite (free_array_releases [] (live h) nparams b
               (repeat zero_param (Z.to_nat nparams)) h2); auto.
    + cbn [live faults app forallb freed_with_own_length elems andb].
      rewrite repeat_length, Z2Nat.id, Z.eqb_refl by lia.
      split; [reflexivity |]. split; [exact Hf2 |]. split; [reflexivity |].
      split; [discriminate |]. split.
      * intros nm Heq. inversion Heq. lia.
      * intros nm k _ _ _. reflexivity.
    + apply clear_safe_zero.
    + apply repeat_length.
    + cbn [app]. rewrite string_addrs_zero. exact Hlive2.
Qed.

(** Encoding the mapping a set decodes to, against a schema that lists
    the names of the set with their kinds. *)
Lemma set_loop_against_copy (Q : list virTypedParameter) (size : Z) (b : ptr) :
  forall (suffix filled : list virTypedParameter) (h : heap),
    Forall (fun p => native_entry p = true /\ uint_fits_int p = true /\
                     exists q, schema_lookup Q (field p) = Some q /\
                               type q = type p) suffix ->
    exists out h',
      set_loop (items_of suffix) Q (Z.of_nat (List.length Q)) size
        (mkArray b (filled ++ repeat zero_param (List.length suffix)))
        (List.length filled) h
      = (Ok (mkArray b (filled ++ out)), h') /\
      Forall2 same_entry suffix out.
Proof.
  induction suffix as [| p suffix IH]; intros filled h Hs.
  - exists [], h. split; [reflexivity | constructor].
  - inversion Hs as [| ? ? (Hn & Hfit & q & Hfind & Hty) Hs']; subst.
    cbn [items_of map set_loop List.length]. unfold libvirt_charPtrUnwrap, strdup.
    destruct (malloc h) as [kp hk]. cbn [text addr].
    rewrite find_field_full.
    assert (Hfield : field_ok (field p) = true).
    { unfold native_entry in Hn. apply andb_prop in Hn. apply Hn. }
    assert (Hname : c_str (field p) = field p).
    { apply c_str_no_nul. unfold field_ok in Hfield.
      apply andb_prop in Hfield. apply Hfield. }
    rewrite Hname, Hfind, Hty.
    destruct (native_entry_converts p Hn Hfit) as [_ Hconv].
    destruct (Hconv (VIR_FREE kp hk)) as (u & h3 & Hu & Hsame).
    rewrite Hu. unfold store. cbn [base elems repeat].
    rewrite !update_nth_app.
    set (entry := set_value u (set_name_type (field p) (type p) zero_param)).
    destruct (IH (filled ++ [entry])%list h3 Hs') as (out & h' & Hrun & Hall).
    rewrite length_app in Hrun. cbn [List.length] in Hrun.
    rewrite Nat.add_1_r, <- app_assoc in Hrun. cbn [app] in Hrun.
    fold (items_of suffix). rewrite Hrun.
    exists (entry :: out), h'. split.
    + rewrite <- app_assoc. reflexivity.
    + constructor; [| exact Hall].
      unfold same_entry, entry, set_value, set_name_type. cbn [field type value].
      rewrite <- Hname at 2. rewrite (field_ok_copy _ Hfield).
      repeat split. exact Hsame.
Qed.

Lemma lookup_in_copy (src written : list virTypedParameter) :
  Forall2 (fun p q => field q = field p /\ type q = type p /\
                      native_entry q = true /\
                      uint_fits_int q = uint_fits_int p /\
                      decode_entry q = decode_entry p) src written ->
  NoDup (map field src) ->
  forall p, In p src ->
            exists q, schema_lookup written (field p) = Some q /\ type q = type p.
Proof.
  unfold schema_lookup.
  induction 1 as [| p0 q0 src written (Hf & Ht & _) _ IH]; intros Hnd p Hin;
    [inversion Hin |].
  cbn [map] in Hnd. inversion Hnd as [| ? ? Hnot Hnd']; subst.
  cbn [find]. destruct Hin as [-> | Hin].
  - rewrite Hf, String.eqb_refl. exists q0. split; [reflexivity | exact Ht].
  - destruct (String.eqb_spec (field q0) (field p)) as [Heq | _].
    + exfalso. apply Hnot. rewrite <- Hf, Heq. apply in_map. exact Hin.
    + apply IH; assumption.
Qed.

(** X10. Reading the scheduler parameters of a domain with
    libvirt_virDomainGetSchedulerParameters and giving the dictionary back
    to libvirt_virDomainSetSchedulerParameters hands
    virDomainSetSchedulerParameters an array equal to the parameters the
    domain reports, entry for entry (name, kind, value), with their count;
    the setter's result is that of the native call.  (Parameters as
    libvirt produces them, at least one, with distinct names and unsigned
    32-bit payloads within INT_MAX.) *)
Theorem parameters_read_then_written_reach_libvirt_unchanged :
  forall (dom : native_domain) (d d' : pyobj) (h h' : heap) (nm : string)
         (src : list virTypedParameter),
    heap_ok h -> heap_ok h' -> reports dom nm src -> src <> [] ->
    exists info arr,
      result (libvirt_virDomainGetSchedulerParameters dom (PyTuple [d]) h) = Ok info /\
      let r := libvirt_virDomainSetSchedulerParameters dom (PyTuple [d'; info]) h' in
      was_set r arr (Z.of_nat (List.length src)) /\
      Forall2 same_entry src (elems arr) /\
      result r = (if set_result dom (elems arr) (Z.of_nat (List.length src)) <? 0
                  then Ok VIR_PY_INT_FAIL else Ok VIR_PY_INT_SUCCESS).
Proof.
  intros dom d d' h h' nm src Hok Hok' Hrep Hne.
  destruct (getter_run dom d h nm src Hok Hrep) as (Hget & _).
  exists (PyDict (items_of src)).
  destruct Hrep as (Htype & Hparams & Hnat & Hnd & Hfit).
  assert (Hlen : List.length (items_of src) = List.length src)
    by (unfold items_of; apply length_map).
  assert (Hpos : (Z.of_nat (List.length src) =? 0) = false).
  { destruct src; [congruence |]. cbn [List.length]. apply Z.eqb_neq. lia. }
  unfold libvirt_virDomainSetSchedulerParameters, set_scheduler_parameters, was_set.
  cbn [PyDict_Size]. rewrite Hlen, Hpos, Htype.
  unfold strdup.
  pose proof (free_after_malloc h' Hok') as Hfree.
  destruct (malloc h') as [cp hc]. cbn [fst snd addr] in *. rewrite Hfree, Hpos.
  pose proof (heap_ok_bump h' Hok') as Hok1.
  set (h1 := mkHeap (S (next_addr h')) (live h') (faults h')) in *.
  unfold VIR_ALLOC_N, virDomainGetSchedulerParameters.
  pose proof (heap_ok_malloc h1 Hok1) as Hok2.
  destruct (malloc h1) as [b h2]. cbn [snd] in Hok2. cbn [base elems].
  rewrite Hparams, Nat2Z.id, firstn_all.
  destruct (fill_memory src h2 Hok2 Hnat) as (_ & _ & _ & _ & Hlen3).
  pose proof (fill_entries src h2 Hok2 Hnat) as Hcopy.
  destruct (fill src h2) as [written h3]. cbn [fst snd] in *.
  rewrite Hlen3.
  replace (skipn (List.length src) (repeat zero_param (List.length src)))
    with (@nil virTypedParameter)
    by (rewrite <- (repeat_length zero_param (List.length src)) at 1;
        symmetry; apply skipn_all).
  rewrite app_nil_r. cbn [Z.ltb Z.compare elems].
  unfold setPyVirTypedParameter. cbn [PyDict_Size dict_items].
  rewrite Hlen, Hpos. unfold VIR_ALLOC_N. rewrite Nat2Z.id.
  destruct (malloc h3) as [nb h4].
  assert (Hsuffix : Forall (fun p => native_entry p = true /\ uint_fits_int p = true /\
                                     exists q, schema_lookup written (field p) = Some q /\
                                               type q = type p) src).
  { rewrite Forall_forall in *. intros p Hp.
    split; [apply Hnat; exact Hp |]. split; [apply Hfit; exact Hp |].
    apply (lookup_in_copy src written Hcopy Hnd p Hp). }
  destruct (set_loop_against_copy written (Z.of_nat (List.length src)) nb src [] h4
              Hsuffix) as (out & h5 & Hrun & Hall).
  cbn [app List.length] in Hrun. rewrite Hlen3 in Hrun. rewrite Hrun.
  exists (mkArray nb out).
  split; [exact Hget |]. cbv zeta. unfold cleanup. cbn [calls result elems].
  split; [| split; [exact Hall |]].
  - apply in_or_app. left. apply in_or_app. right. left. reflexivity.
  - destruct (_ <? 0); reflexivity.
Qed.

(* ------------------------------------------------------------------ *)
(** * CPU affinity maps *)

Lemma cpu_bit_testbit (cpu : nat) (k : Z) :
  0 <= k -> Z.testbit (cpu_bit cpu) k = (Z.of_nat (cpu mod 8) =? k).
Proof.
  intros Hk. unfold cpu_bit. rewrite Z.shiftl_1_l.
  apply Z.pow2_bits_eqb. lia.
Qed.

Lemma testbit_uchar (z k : Z) :
  0 <= k < 8 -> Z.testbit (to_uchar z) k = Z.testbit z k.
Proof. intros Hk. unfold to_uchar. apply Z.mod_pow2_bits_low. lia. Qed.

Lemma length_update_nth {A} (f : A -> A) (l : list A) :
  forall i, List.length (update_nth i f l) = List.length l.
Proof.
  induction l as [| x l IH]; intros [| i]; cbn; auto.
Qed.

Lemma nth_update_nth_same {A} (f : A -> A) (d : A) (l : list A) :
  forall i, (i < List.length l)%nat -> nth i (update_nth i f l) d = f (nth i l d).
Proof.
  induction l as [| x l IH]; intros [| i] Hi; cbn in *; try lia; auto.
  apply IH. lia.
Qed.

Lemma nth_update_nth_other {A} (f : A -> A) (d : A) (l : list A) :
  forall i j, i <> j -> nth j (update_nth i f l) d = nth j l d.
Proof.
  induction l as [| x l IH]; intros [| i] [| j] Hne; cbn; auto; try congruence.
Qed.

Lemma same_byte_other_bit (j cpu : nat) :
  j <> cpu -> (j / 8 = cpu / 8)%nat -> (j mod 8 <> cpu mod 8)%nat.
Proof.
  intros Hne Hdiv Hmod. apply Hne.
  rewrite (Nat.div_mod_eq j 8), (Nat.div_mod_eq cpu 8). congruence.
Qed.

Lemma byte_in_buffer (j len : nat) :
  (j < 8 * len)%nat -> (j / 8 < len)%nat.
Proof. intros Hj. apply Nat.Div0.div_lt_upper_bound. exact Hj. Qed.

Lemma bit_in_byte (j : nat) : 0 <= Z.of_nat (j mod 8) < 8.
Proof.
  pose proof (Nat.mod_upper_bound j 8). lia.
Qed.

(** Storing bit [cpu] sets that bit and no other. *)
Lemma poke_bit (m : buffer) (cpu : nat) (h : heap) (b : bool) :
  (cpu / 8 < List.length (bytes m))%nat ->
  exists m',
    (if b then VIR_USE_CPU m cpu h else VIR_UNUSE_CPU m cpu h) = (m', h) /\
    start m' = start m /\
    List.length (bytes m') = List.length (bytes m) /\
    forall j, bit_of (bytes m') j = if Nat.eqb j cpu then b else bit_of (bytes m) j.
Proof.
  intros Hin.
  assert (Hlt : Nat.ltb (cpu / 8) (List.length (bytes m)) = true)
    by (apply Nat.ltb_lt; exact Hin).
  pose proof (bit_in_byte cpu) as Hc.
  destruct b; unfold VIR_USE_CPU, VIR_UNUSE_CPU, poke; rewrite Hlt;
    eexists; (split; [reflexivity |]); cbn [start bytes];
    (split; [reflexivity |]); (split; [apply length_update_nth |]);
    intros j; unfold bit_of; pose proof (bit_in_byte j) as Hj;
    destruct (Nat.eqb_spec j cpu) as [-> | Hne].
  - rewrite nth_update_nth_same by exact Hin.
    rewrite testbit_uchar, Z.lor_spec, cpu_bit_testbit by lia.
    rewrite Z.eqb_refl. apply orb_true_r.
  - destruct (Nat.eq_dec (j / 8) (cpu / 8)) as [Heq | Hd].
    + rewrite Heq, nth_update_nth_same by exact Hin.
      rewrite testbit_uchar, Z.lor_spec, cpu_bit_testbit by lia.
      pose proof (same_byte_other_bit j cpu Hne Heq) as Hm.
      destruct (Z.eqb_spec (Z.of_nat (cpu mod 8)) (Z.of_nat (j mod 8))); [lia |].
      apply orb_false_r.
    + rewrite nth_update_nth_other by congruence. reflexivity.
  - rewrite nth_update_nth_same by exact Hin.
    rewrite testbit_uchar, Z.land_spec, Z.lnot_spec, cpu_bit_testbit by lia.
    rewrite Z.eqb_refl. apply andb_false_r.
  - destruct (Nat.eq_dec (j / 8) (cpu / 8)) as [Heq | Hd].
    + rewrite Heq, nth_update_nth_same by exact Hin.
      rewrite testbit_uchar, Z.land_spec, Z.lnot_spec, cpu_bit_testbit by lia.
      pose proof (same_byte_other_bit j cpu Hne Heq) as Hm.
      destruct (Z.eqb_spec (Z.of_nat (cpu mod 8)) (Z.of_nat (j mod 8))); [lia |].
      apply andb_true_r.
    + rewrite nth_update_nth_other by congruence. reflexivity.
Qed.

(** The flags of the tuple become the bits of their indices; no store
    leaves the buffer while the tuple is no longer than the map has
    bits. *)
Lemma set_bits_spec (flags : list pyobj) :
  forall (i : nat) (m : buffer) (h : heap),
    (i + List.length flags <= 8 * List.length (bytes m))%nat ->
    exists m',
      set_bits flags i m h = (Ok m', h) /\
      start m' = start m /\
      List.length (bytes m') = List.length (bytes m) /\
      forall j, bit_of (bytes m') j =
                if Nat.leb i j && Nat.ltb j (i + List.length flags)
                then flag_value (nth (j - i) flags PyNone)
                else bit_of (bytes m) j.
Proof.
  induction flags as [| flag rest IH]; intros i m h Hlen.
  - exists m. cbn [set_bits List.length]. repeat split.
    intros j. destruct (Nat.leb_spec i j); destruct (Nat.ltb_spec j (i + 0));
      cbn; try reflexivity; lia.
  - cbn [List.length] in Hlen. cbn [set_bits]. unfold libvirt_boolUnwrap.
    destruct (poke_bit m i h (PyObject_IsTrue flag)) as (m1 & Hw & Hs1 & Hl1 & Hb1).
    { apply byte_in_buffer. lia. }
    rewrite Hw.
    destruct (IH (S i) m1 h) as (m' & Hrun & Hs & Hl & Hb).
    { rewrite Hl1. lia. }
    exists m'. split; [exact Hrun |]. split; [congruence |]. split; [congruence |].
    intros j. rewrite Hb, Hb1. cbn [List.length].
    destruct (Nat.leb_spec (S i) j); destruct (Nat.ltb_spec j (S i + List.length rest));
      destruct (Nat.leb_spec i j); destruct (Nat.ltb_spec j (i + S (List.length rest)));
      destruct (Nat.eqb_spec j i); cbn [andb]; try lia; try reflexivity.
    + replace (j - i)%nat with (S (j - S i)) by lia. reflexivity.
    + subst j. rewrite Nat.sub_diag. reflexivity.
Qed.

Lemma clear_bits_spec (count : nat) :
  forall (i : nat) (m : buffer) (h : heap),
    (i + count <= 8 * List.length (bytes m))%nat ->
    exists m',
      clear_bits count i m h = (m', h) /\
      start m' = start m /\
      List.length (bytes m') = List.length (bytes m) /\
      forall j, bit_of (bytes m') j =
                if Nat.leb i j && Nat.ltb j (i + count) then false
                else bit_of (bytes m) j.
Proof.
  induction count as [| c IH]; intros i m h Hlen.
  - exists m. cbn [clear_bits]. repeat split.
    intros j. destruct (Nat.leb_spec i j); destruct (Nat.ltb_spec j (i + 0));
      cbn; try reflexivity; lia.
  - cbn [clear_bits].
    destruct (poke_bit m i h false) as (m1 & Hw & Hs1 & Hl1 & Hb1).
    { apply byte_in_buffer. lia. }
    rewrite Hw.
    destruct (IH (S i) m1 h) as (m' & Hrun & Hs & Hl & Hb).
    { rewrite Hl1. lia. }
    exists m'. split; [exact Hrun |]. split; [congruence |]. split; [congruence |].
    intros j. rewrite Hb, Hb1.
    destruct (Nat.leb_spec (S i) j); destruct (Nat.ltb_spec j (S i + c));
      destruct (Nat.leb_spec i j); destruct (Nat.ltb_spec j (i + S c));
      destruct (Nat.eqb_spec j i); cbn [andb]; try lia; reflexivity.
Qed.

Lemma land_bit (b : Z) (cpu : nat) :
  negb (Z.land b (cpu_bit cpu) =? 0) = Z.testbit b (Z.of_nat (cpu mod 8)).
Proof.
  pose proof (bit_in_byte cpu) as Hc.
  destruct (Z.testbit b (Z.of_nat (cpu mod 8))) eqn:Hbit.
  - destruct (Z.eqb_spec (Z.land b (cpu_bit cpu)) 0) as [Hz | _]; [| reflexivity].
    assert (Ht : Z.testbit (Z.land b (cpu_bit cpu)) (Z.of_nat (cpu mod 8)) = true).
    { rewrite Z.land_spec, Hbit, cpu_bit_testbit, Z.eqb_refl by lia. reflexivity. }
    rewrite Hz, Z.bits_0 in Ht. discriminate Ht.
  - assert (Hz : Z.land b (cpu_bit cpu) = 0).
    { apply Z.bits_inj'. intros k Hk.
      rewrite Z.land_spec, Z.bits_0, cpu_bit_testbit by lia.
      destruct (Z.eqb_spec (Z.of_nat (cpu mod 8)) k) as [<- | _].
      - rewrite Hbit. reflexivity.
      - apply andb_false_r. }
    rewrite Hz. reflexivity.
Qed.

(** Reading a map back gives its bits, while the processors read lie
    within the buffer. *)
Lemma usable_flags_spec (cpumap : list Z) (maplen : nat) :
  forall count pcpu,
    (pcpu + count <= 8 * List.length cpumap)%nat ->
    usable_flags cpumap maplen 0 count pcpu
    = Some (map (fun j => PyBool (bit_of cpumap j)) (seq pcpu count)).
Proof.
  induction count as [| c IH]; intros pcpu Hlen; [reflexivity |].
  cbn [usable_flags seq map]. rewrite IH by lia.
  unfold VIR_CPU_USABLE, VIR_CPU_USED. cbn [Nat.mul skipn].
  rewrite (nth_error_nth' cpumap 0) by (apply byte_in_buffer; lia).
  unfold PyBool_FromLong, bit_of. rewrite land_bit. reflexivity.
Qed.

Lemma maplen_covers (cpunum : Z) :
  0 <= cpunum ->
  0 <= VIR_CPU_MAPLEN cpunum /\
  (Z.to_nat cpunum <= 8 * Z.to_nat (VIR_CPU_MAPLEN cpunum))%nat.
Proof.
  intros Hc. unfold VIR_CPU_MAPLEN.
  rewrite Z.quot_div_nonneg by lia.
  pose proof (Z.div_mod (cpunum + 7) 8 ltac:(lia)) as Hdm.
  pose proof (Z.mod_pos_bound (cpunum + 7) 8 ltac:(lia)) as Hm.
  assert (Hq : 0 <= (cpunum + 7) / 8) by (apply Z.div_pos; lia).
  split; [exact Hq | lia].
Qed.

Lemma bit_of_zeros (k j : nat) : bit_of (repeat 0 k) j = false.
Proof.
  unfold bit_of.
  replace (nth (j / 8) (repeat 0 k) 0) with 0.
  - apply Z.bits_0.
  - destruct (Nat.lt_ge_cases (j / 8) k) as [Hlt | Hge].
    + symmetry. apply nth_repeat_lt. exact Hlt.
    + symmetry. apply nth_overflow. rewrite repeat_length. exact Hge.
Qed.

Lemma map_seq_nth {A B} (g : A -> B) (d : A) (l : list A) :
  map (fun j => g (nth j l d)) (seq 0 (List.length l)) = map g l.
Proof.
  induction l as [| x l IH]; [reflexivity |].
  cbn [List.length seq map nth]. f_equal.
  rewrite <- seq_shift, map_map. exact IH.
Qed.

(** The map a pin function builds from a tuple no longer than the map has
    bits: the flags, then zeros. *)
Lemma pin_map_bits (flags : list pyobj) (cpunum : Z) (h : heap) :
  0 <= cpunum ->
  (List.length flags <= 8 * Z.to_nat (VIR_CPU_MAPLEN cpunum))%nat ->
  exists m m',
    set_bits flags 0 (fst (alloc_bytes (VIR_CPU_MAPLEN cpunum) h))
             (snd (alloc_bytes (VIR_CPU_MAPLEN cpunum) h))
    = (Ok m, snd (malloc h)) /\
    clear_bits (Z.to_nat cpunum - List.length flags) (List.length flags) m
               (snd (malloc h))
    = (m', snd (malloc h)) /\
    start m = fst (malloc h) /\
    start m' = fst (malloc h) /\
    List.length (bytes m') = Z.to_nat (VIR_CPU_MAPLEN cpunum) /\
    forall j, bit_of (bytes m') j
              = Nat.ltb j (List.length flags) && flag_value (nth j flags PyNone).
Proof.
  intros Hc Hlen.
  destruct (maplen_covers cpunum Hc) as [Hq Hcover].
  unfold alloc_bytes. destruct (malloc h) as [b h1]. cbn [fst snd].
  set (zeros := mkBuffer b (repeat 0 (Z.to_nat (VIR_CPU_MAPLEN cpunum)))).
  assert (Hz : List.length (bytes zeros) = Z.to_nat (VIR_CPU_MAPLEN cpunum))
    by apply repeat_length.
  destruct (set_bits_spec flags 0 zeros h1) as (m & Hset & Hs & Hl & Hb).
  { rewrite Hz. lia. }
  destruct (clear_bits_spec (Z.to_nat cpunum - List.length flags)
              (List.length flags) m h1) as (m' & Hclr & Hs' & Hl' & Hb').
  { rewrite Hl, Hz. lia. }
  exists m, m'. split; [exact Hset |]. split; [exact Hclr |].
  subst zeros. cbn [start bytes] in *.
  split; [exact Hs |]. split; [congruence |]. split; [congruence |].
  intros j. rewrite Hb', Hb. rewrite bit_of_zeros.
  cbn [Nat.leb andb]. rewrite Nat.sub_0_r, Nat.add_0_l.
  destruct (Nat.ltb_spec j (List.length flags));
    destruct (Nat.leb_spec (List.length flags) j);
    destruct (Nat.ltb_spec j (List.length flags +
                               (Z.to_nat cpunum - List.length flags)));
    cbn [andb]; try lia; reflexivity.
Qed.

Lemma negative_code_fails (code : Z) :
  (if code <? 0 then Ok VIR_PY_INT_FAIL else Ok VIR_PY_INT_SUCCESS)
  = Ok VIR_PY_INT_SUCCESS -> 0 <= code.
Proof.
  destruct (Z.ltb_spec code 0); [discriminate | auto].
Qed.

(** X13. After a successful libvirt_virDomainPinEmulator with a tuple of
    at most cpunum flags, libvirt_virDomainGetEmulatorPinInfo returns a
    tuple of cpunum booleans: the truth values of the flags given, then
    False for the processors the tuple did not mention. *)
Theorem emulator_pin_round_trip :
  forall (dom : pin_domain) (d d' fl fl' : pyobj) (flags : list pyobj) (h h' : heap),
    let cpunum := getPyNodeCPUCount (host_node dom) in
    let r := libvirt_virDomainPinEmulator dom (PyTuple [d; PyTuple flags; fl]) h in
    outcome r = Ok VIR_PY_INT_SUCCESS ->
    (List.length flags <= Z.to_nat cpunum)%nat ->
    is_ok (PyArg_uint fl') = true ->
    outcome (libvirt_virDomainGetEmulatorPinInfo (after r) (PyTuple [d'; fl']) h')
    = Ok (PyTuple (map (fun f => PyBool (flag_value f)) flags ++
                   repeat (PyBool false) (Z.to_nat cpunum - List.length flags))).
Proof.
  intros dom d d' fl fl' flags h h'. cbv zeta.
  unfold libvirt_virDomainPinEmulator, libvirt_virDomainGetEmulatorPinInfo.
  destruct (PyArg_uint fl) as [flg | e |]; cbn [outcome]; try discriminate.
  destruct (Z.ltb_spec (getPyNodeCPUCount (host_node dom)) 0) as [Hneg | Hc];
    [cbn [outcome]; discriminate |].
  set (cpunum := getPyNodeCPUCount (host_node dom)) in *.
  intros Hres Hlen Hfl.
  destruct (maplen_covers cpunum Hc) as [Hq Hcover].
  destruct (pin_map_bits flags cpunum h Hc ltac:(lia))
    as (m & m' & Hset & Hclr & Hs & Hs' & Hl' & Hbits).
  revert Hres.
  destruct (alloc_bytes (VIR_CPU_MAPLEN cpunum) h) as [cpumap h1] eqn:Ha.
  cbn [fst snd] in Hset. cbv zeta. rewrite Hset, Hclr.
  unfold virDomainPinEmulator. cbv beta iota zeta.
  destruct (pin_code dom (bytes m') <? 0) eqn:Hcode;
    cbn [outcome after]; rewrite Hcode; [discriminate |].
  intros _. cbn [host_node]. fold cpunum.
  destruct (PyArg_uint fl') as [flg' | e' |]; try discriminate Hfl.
  destruct (Z.ltb_spec cpunum 0) as [Hn | _]; [lia |].
  unfold alloc_bytes. destruct (malloc h') as [b' h1'].
  unfold virDomainGetEmulatorPinInfo. cbn [emulator_map start bytes].
  cbn [Z.ltb Z.compare].
  assert (Hmap : (firstn (Z.to_nat (VIR_CPU_MAPLEN cpunum))
                    (firstn (Z.to_nat (VIR_CPU_MAPLEN cpunum)) (bytes m') ++
                     repeat 0 (Z.to_nat (VIR_CPU_MAPLEN cpunum))) ++
                  skipn (Z.to_nat (VIR_CPU_MAPLEN cpunum))
                    (repeat 0 (Z.to_nat (VIR_CPU_MAPLEN cpunum))))%list
                 = bytes m').
  { rewrite <- Hl' at 1 2 3. rewrite firstn_all, firstn_app, firstn_all, Nat.sub_diag.
    cbn [firstn]. rewrite skipn_all2 by (rewrite repeat_length; lia).
    rewrite !app_nil_r. reflexivity. }
  rewrite Hmap. rewrite usable_flags_spec by (rewrite Hl'; lia).
  cbn [outcome]. do 2 f_equal.
  replace (Z.to_nat cpunum)
    with (List.length flags + (Z.to_nat cpunum - List.length flags))%nat at 1 by lia.
  rewrite seq_app, map_app. cbn [Nat.add]. f_equal.
  - rewrite <- (map_seq_nth (fun f => PyBool (flag_value f)) PyNone flags).
    apply map_ext_in. intros j Hj. apply in_seq in Hj.
    rewrite Hbits. destruct (Nat.ltb_spec j (List.length flags)); [reflexivity | lia].
  - transitivity (map (fun _ : nat => PyBool false)
                    (seq (List.length flags) (Z.to_nat cpunum - List.length flags))).
    + apply map_ext_in. intros j Hj. apply in_seq in Hj.
      rewrite Hbits. destruct (Nat.ltb_spec j (List.length flags)); [lia | reflexivity].
    + rewrite map_const, length_seq. reflexivity.
Qed.

Lemma pin_free (h : heap) (m : buffer) :
  heap_ok h -> start m = fst (malloc h) ->
  VIR_FREE (start m) (snd (malloc h))
  = mkHeap (S (next_addr h)) (live h) (faults h).
Proof.
  intros Hok ->. apply free_after_malloc. exact Hok.
Qed.

(** X11. libvirt_virDomainPinVcpu, for a tuple no longer than the map has
    bits: virDomainPinVcpu is called once, with a map of
    VIR_CPU_MAPLEN(cpunum) bytes in which bit j is set exactly when the
    tuple has an item j and that item is true; the result is 0 or -1 as
    the native call returns; the map is freed and no memory error is
    committed. *)
Theorem pin_vcpu_builds_map_and_releases_it :
  forall (dom : pin_domain) (d : pyobj) (vcpu : Z) (flags : list pyobj) (h : heap),
    let cpunum := getPyNodeCPUCount (host_node dom) in
    let maplen := VIR_CPU_MAPLEN cpunum in
    let r := libvirt_virDomainPinVcpu dom (PyTuple [d; PyLong vcpu; PyTuple flags]) h in
    heap_ok h -> 0 <= cpunum -> INT_MIN <= vcpu <= INT_MAX ->
    (List.length flags <= 8 * Z.to_nat maplen)%nat ->
    exists cpumap,
      native r = [PinVcpu vcpu cpumap maplen] /\
      Z.of_nat (List.length cpumap) = maplen /\
      (forall j, bit_of cpumap j
                 = Nat.ltb j (List.length flags) && flag_value (nth j flags PyNone)) /\
      outcome r = Ok (if pin_code dom cpumap <? 0 then VIR_PY_INT_FAIL
                      else VIR_PY_INT_SUCCESS) /\
      live (memory r) = live h /\
      faults (memory r) = faults h.
Proof.
  intros dom d vcpu flags h. cbv zeta. intros Hok Hc Hv Hlen.
  unfold libvirt_virDomainPinVcpu, PyArg_int. cbn [int_value].
  destruct (Z.ltb_spec vcpu INT_MIN); [lia |].
  destruct (Z.ltb_spec INT_MAX vcpu); [lia |].
  destruct (Z.ltb_spec (getPyNodeCPUCount (host_node dom)) 0); [lia |].
  destruct (maplen_covers _ Hc) as [Hq _].
  destruct (pin_map_bits flags _ h Hc Hlen)
    as (m & m' & Hset & Hclr & Hs & Hs' & Hl' & Hbits).
  cbv zeta.
  destruct (alloc_bytes (VIR_CPU_MAPLEN (getPyNodeCPUCount (host_node dom))) h)
    as [cpumap h1].
  cbn [fst snd] in Hset. rewrite Hset, Hclr.
  cbn [native outcome memory].
  exists (bytes m'). split; [reflexivity |].
  split; [rewrite Hl'; lia |]. split; [exact Hbits |].
  split; [destruct (_ <? 0); reflexivity |].
  rewrite (pin_free h m' Hok Hs'). split; reflexivity.
Qed.

(** The stores of the first loop never fail in themselves: a store past
    the end is recorded and the loop goes on. *)
Lemma set_bits_total (flags : list pyobj) :
  forall (i : nat) (m : buffer) (h : heap),
    exists m' extra,
      set_bits flags i m h
      = (Ok m', mkHeap (next_addr h) (live h) (faults h ++ extra)) /\
      start m' = start m /\
      List.length (bytes m') = List.length (bytes m) /\
      (flags <> [] -> (List.length (bytes m) <= i / 8)%nat ->
       exists rest, extra = OutOfBounds (start m) (i / 8) :: rest).
Proof.
  induction flags as [| flag rest IH]; intros i m h.
  - exists m, []. cbn [set_bits]. rewrite app_nil_r. destruct h.
    repeat split. intros Hne. congruence.
  - cbn [set_bits]. unfold libvirt_boolUnwrap.
    assert (Hstep : exists m1 e1,
               (if PyObject_IsTrue flag then VIR_USE_CPU m i h
                else VIR_UNUSE_CPU m i h)
               = (m1, mkHeap (next_addr h) (live h) (faults h ++ e1)) /\
               start m1 = start m /\
               List.length (bytes m1) = List.length (bytes m) /\
               ((List.length (bytes m) <= i / 8)%nat ->
                e1 = [OutOfBounds (start m) (i / 8)])).
    { destruct (PyObject_IsTrue flag); unfold VIR_USE_CPU, VIR_UNUSE_CPU, poke;
        destruct (Nat.ltb_spec (i / 8) (List.length (bytes m)));
        try (eexists; exists []; rewrite app_nil_r; destruct h; cbn [start bytes];
             repeat split; [apply length_update_nth | lia]);
        (exists m, [OutOfBounds (start m) (i / 8)]; unfold add_fault;
         repeat split). }
    destruct Hstep as (m1 & e1 & -> & Hs1 & Hl1 & Hover).
    destruct (IH (S i) m1 (mkHeap (next_addr h) (live h) (faults h ++ e1)))
      as (m' & extra & Hrun & Hs & Hl & _).
    cbn [next_addr live faults] in Hrun.
    exists m', (e1 ++ extra)%list.
    rewrite Hrun, app_assoc. split; [reflexivity |].
    split; [congruence |]. split; [congruence |].
    intros _ Hi. rewrite (Hover Hi). eexists. reflexivity.
Qed.

Lemma set_bits_app (l1 l2 : list pyobj) :
  forall (i : nat) (m : buffer) (h : heap),
    set_bits (l1 ++ l2) i m h
    = match set_bits l1 i m h with
      | (Ok m1, h1) => set_bits l2 (i + List.length l1) m1 h1
      | other => other
      end.
Proof.
  induction l1 as [| flag l1 IH]; intros i m h.
  - cbn [app set_bits List.length]. rewrite Nat.add_0_r. reflexivity.
  - cbn [app set_bits List.length]. unfold libvirt_boolUnwrap.
    destruct (if PyObject_IsTrue flag then VIR_USE_CPU m i h
              else VIR_UNUSE_CPU m i h) as [m1 h1].
    rewrite IH. replace (i + S (List.length l1))%nat with (S i + List.length l1)%nat
      by lia.
    reflexivity.
Qed.

(** X12. libvirt_virDomainPinVcpu does not compare the length of the
    tuple with the number of processors: for a tuple longer than the map
    has bits, the loop that sets the bits stores past the end of the map,
    the first time into the byte right after it. *)
Theorem pin_vcpu_overlong_tuple_overruns_map :
  forall (dom : pin_domain) (d : pyobj) (vcpu : Z) (flags : list pyobj) (h : heap),
    let cpunum := getPyNodeCPUCount (host_node dom) in
    let maplen := VIR_CPU_MAPLEN cpunum in
    let r := libvirt_virDomainPinVcpu dom (PyTuple [d; PyLong vcpu; PyTuple flags]) h in
    heap_ok h -> 0 <= cpunum -> INT_MIN <= vcpu <= INT_MAX ->
    (8 * Z.to_nat maplen < List.length flags)%nat ->
    exists rest,
      faults (memory r)
      = (faults h ++ OutOfBounds (next_addr h) (Z.to_nat maplen) :: rest)%list.
Proof.
  intros dom d vcpu flags h. cbv zeta. intros Hok Hc Hv Hlen.
  unfold libvirt_virDomainPinVcpu, PyArg_int. cbn [int_value].
  destruct (Z.ltb_spec vcpu INT_MIN); [lia |].
  destruct (Z.ltb_spec INT_MAX vcpu); [lia |].
  destruct (Z.ltb_spec (getPyNodeCPUCount (host_node dom)) 0); [lia |].
  destruct (maplen_covers _ Hc) as [Hq Hcover].
  set (cpunum := getPyNodeCPUCount (host_node dom)) in *.
  set (L := Z.to_nat (VIR_CPU_MAPLEN cpunum)) in *.
  cbv zeta. unfold alloc_bytes, malloc. fold L.
  set (h1 := mkHeap (S (next_addr h)) (next_addr h :: live h) (faults h)).
  set (zeros := mkBuffer (next_addr h) (repeat 0 L)).
  replace (set_bits flags 0 zeros h1)
    with (set_bits (firstn (8 * L) flags ++ skipn (8 * L) flags) 0 zeros h1)
    by (rewrite firstn_skipn; reflexivity).
  rewrite set_bits_app.
  assert (Hfirst : List.length (firstn (8 * L) flags) = (8 * L)%nat)
    by (apply firstn_length_le; lia).
  destruct (set_bits_spec (firstn (8 * L) flags) 0 zeros h1)
    as (m1 & Hrun1 & Hs1 & Hl1 & _).
  { rewrite Hfirst. subst zeros. cbn [bytes]. rewrite repeat_length. lia. }
  rewrite Hrun1, Hfirst. cbn [Nat.add].
  destruct (set_bits_total (skipn (8 * L) flags) (8 * L) m1 h1)
    as (m2 & extra & Hrun2 & Hs2 & Hl2 & Hover).
  rewrite Hrun2.
  destruct Hover as (rest & Hextra).
  { intros Hnil. apply (f_equal (@List.length pyobj)) in Hnil.
    rewrite length_skipn in Hnil. cbn in Hnil. lia. }
  { rewrite Hl1. subst zeros. cbn [bytes]. rewrite repeat_length.
    rewrite Nat.mul_comm, Nat.div_mul by lia. lia. }
  replace (Z.to_nat cpunum - List.length flags)%nat with 0%nat by lia.
  cbn [clear_bits memory].
  rewrite Hextra, Hs1. subst zeros. cbn [start].
  rewrite Nat.mul_comm, Nat.div_mul by lia.
  unfold VIR_FREE, free. cbn [live next_addr faults h1].
  destruct (Nat.eqb (start m2) NULL); [eexists; reflexivity |].
  destruct (existsb _ _); [eexists; reflexivity |].
  unfold add_fault. cbn [faults]. rewrite <- app_assoc. cbn [app].
  eexists. reflexivity.
Qed.

(* ------------------------------------------------------------------ *)
(** * Domain events: what the callbacks report *)

Lemma call_method_outcome (py : method_host) (conn : option pyobj) (method : string)
    (args : list pyobj) :
  if dispatch_returned py conn method args
  then exists v, PyObject_CallMethod py conn method args = Returned v
  else exists e, PyObject_CallMethod py conn method args = Raised e.
Proof.
  unfold dispatch_returned, PyObject_CallMethod.
  destruct conn as [c |]; [| eexists; reflexivity].
  destruct (py c method args); eexists; reflexivity.
Qed.

Lemma dispatch_reports (py : method_host) (fn method : string) (dom : ptr)
    (extra : list pyobj) (opaque : pyobj) :
  reports_dispatch py (PyDict_GetItem opaque (PyStr "conn")) method
    ([libvirt_virDomainPtrWrap dom] ++ extra ++ [opaque]) dom
    (dispatch_domain_event py fn method dom extra opaque).
Proof.
  unfold reports_dispatch, dispatch_domain_event.
  cbn [libvirt_constcharPtrWrap].
  pose proof (call_method_outcome py (PyDict_GetItem opaque (PyStr "conn")) method
                ([libvirt_virDomainPtrWrap dom] ++ extra ++ [opaque])) as Hcall.
  destruct (dispatch_returned py _ method _); destruct Hcall as [x Hcall];
    rewrite Hcall; cbn [fst snd].
  - split; [right; left; reflexivity |]. split; reflexivity.
  - split; [right; left; reflexivity |]. split; [reflexivity |].
    exists x. right. right. left. reflexivity.
Qed.

(** X22. The generic, RTC-change and watchdog domain event callbacks,
    which take the connection proxy from the key conn of the callback
    data, and the callback of the first registration interface, whose
    opaque pointer is the proxy itself: each references the domain, calls
    its dispatch method with the wrapped domain, the event's own
    arguments and (but for the last) the callback data, and returns 0
    without printing when the method returned; in every other case
    (missing proxy, missing method, exception) it returns -1 and the
    exception is printed. *)
Theorem domain_event_callbacks_report_dispatch :
  forall (py : method_host) (dom : ptr) (opaque : pyobj)
         (event detail utcoffset action : Z),
    let conn := PyDict_GetItem opaque (PyStr "conn") in
    let pyobj_dom := libvirt_virDomainPtrWrap dom in
    reports_dispatch py conn "_dispatchDomainEventGenericCallback"
      [pyobj_dom; opaque] dom
      (libvirt_virConnectDomainEventGenericCallback py dom opaque) /\
    reports_dispatch py conn "_dispatchDomainEventRTCChangeCallback"
      [pyobj_dom; PyLong utcoffset; opaque] dom
      (libvirt_virConnectDomainEventRTCChangeCallback py dom utcoffset opaque) /\
    reports_dispatch py conn "_dispatchDomainEventWatchdogCallback"
      [pyobj_dom; PyLong action; opaque] dom
      (libvirt_virConnectDomainEventWatchdogCallback py dom action opaque) /\
    reports_dispatch py (Some opaque) "_dispatchDomainEventCallbacks"
      [pyobj_dom; PyLong event; PyLong detail] dom
      (libvirt_virConnectDomainEventCallback py dom event detail opaque).
Proof.
  intros py dom opaque event detail utcoffset action. cbv zeta.
  split; [apply dispatch_reports |].
  split; [apply dispatch_reports |].
  split; [apply dispatch_reports |].
  unfold reports_dispatch, libvirt_virConnectDomainEventCallback.
  pose proof (call_method_outcome py (Some opaque) "_dispatchDomainEventCallbacks"
                [libvirt_virDomainPtrWrap dom; PyLong event; PyLong detail]) as Hcall.
  destruct (dispatch_returned py _ _ _); destruct Hcall as [x Hcall];
    rewrite Hcall; cbn [fst snd].
  - split; [right; left; reflexivity |]. split; reflexivity.
  - split; [right; left; reflexivity |]. split; [reflexivity |].
    exists x. right. right. left. reflexivity.
Qed.

(* ------------------------------------------------------------------ *)
(** * Registration of the event loop: the references held *)

Lemma callable_eqb (x o : pyobj) :
  PyCallable_Check o = true -> py_eqb x o = true -> x = o.
Proof.
  destruct o; try discriminate. intros _.
  destruct x; try discriminate. cbn [py_eqb]. intros Heq.
  apply Nat.eqb_eq in Heq. congruence.
Qed.

Lemma callable_eqb_refl (o : pyobj) :
  PyCallable_Check o = true -> py_eqb o o = true.
Proof. destruct o; try discriminate. intros _. apply Nat.eqb_refl. Qed.

Lemma remove_ref_held (o : pyobj) (l : list pyobj) :
  PyCallable_Check o = true -> In o l ->
  exists l', remove_ref o l = Some l' /\ Permutation l (o :: l').
Proof.
  intros Hc. induction l as [| x l IH]; intros Hin; [inversion Hin |].
  cbn [remove_ref]. destruct (py_eqb x o) eqn:Heq.
  - apply (callable_eqb x o Hc) in Heq. subst x.
    exists l. split; [reflexivity | apply Permutation_refl].
  - destruct Hin as [-> | Hin].
    + rewrite (callable_eqb_refl o Hc) in Heq. discriminate Heq.
    + destruct (IH Hin) as (l' & -> & Hperm).
      exists (x :: l'). split; [reflexivity |].
      apply (Permutation_trans (perm_skip x Hperm)). apply perm_swap.
Qed.

(** Dropping one reference for each object of a list that the ledger
    holds, as [Py_XDECREF] does slot after slot. *)
Lemma release_held (slots : list (option pyobj)) :
  forall (l : ledger),
    Forall (fun o => PyCallable_Check o = true)
           (flat_map (fun o => match o with Some x => [x] | None => [] end) slots) ->
    Permutation (held l)
                (flat_map (fun o => match o with Some x => [x] | None => [] end) slots) ->
    fold_left (fun acc o => Py_XDECREF o acc) slots l = mkLedger [] (stolen l).
Proof.
  induction slots as [| [x |] slots IH]; intros l Hc Hp.
  - cbn in *. apply Permutation_sym, Permutation_nil in Hp.
    destruct l. cbn in *. congruence.
  - cbn [flat_map app] in Hc, Hp. inversion Hc as [| ? ? Hx Hrest]; subst.
    cbn [fold_left Py_XDECREF]. unfold Py_DECREF.
    destruct (remove_ref_held x (held l) Hx) as (l' & Hrem & Hperm).
    { apply (Permutation_in x (Permutation_sym Hp)). left. reflexivity. }
    rewrite Hrem. rewrite IH; [reflexivity | exact Hrest |].
    cbn [held]. apply (Permutation_cons_inv (a := x)).
    apply (Permutation_trans (Permutation_sym Hperm)). exact Hp.
  - cbn [fold_left Py_XDECREF flat_map app] in *. apply IH; assumption.
Qed.

(** X15. If the module holds exactly one reference for each callable in
    its six slots and has dropped none it did not hold (as is the case
    before any registration), then after a successful
    libvirt_virEventRegisterImpl the same is true again: the references
    on the previous set are all released, exactly one reference is held on
    each of the six new callables, and these are the objects in the
    slots. *)
Theorem registration_keeps_slots_owned :
  forall (args : pyobj) (s : impl_state) (six : list pyobj),
    owns_slots s ->
    accepted args = Some six ->
    let s' := snd (libvirt_virEventRegisterImpl args s) in
    owns_slots s' /\
    held (refs s') = rev six /\
    slot_objects s' = six.
Proof.
  intros args s six (Hperm & Hstolen & Hcall) Hacc. cbv zeta.
  assert (Hrel : release_all s = mkLedger [] []).
  { change (release_all s)
      with (fold_left (fun acc o => Py_XDECREF o acc) (installed s) (refs s)).
    rewrite (release_held (installed s) (refs s) Hcall Hperm), Hstolen.
    reflexivity. }
  destruct (accepted_six args six Hacc)
    as (a & b & c & d & e & f & -> & -> & Ha & Hb & Hc & Hd & He & Hf).
  unfold libvirt_virEventRegisterImpl, parse_six.
  rewrite Ha, Hb, Hc, Hd, He, Hf, Hrel. cbn [negb orb snd].
  unfold owns_slots, slot_objects, installed, retain_all.
  cbn [addHandleObj updateHandleObj removeHandleObj addTimeoutObj updateTimeoutObj
         removeTimeoutObj refs fold_left Py_INCREF held stolen flat_map app rev].
  split; [| split; reflexivity].
  split; [| split; [reflexivity |]].
  - apply Permutation_sym. apply (Permutation_rev [a; b; c; d; e; f]).
  - repeat constructor; assumption.
Qed.

(* ------------------------------------------------------------------ *)
(** * The event bridge: a registration from add to removal *)

Lemma unwrap_wrapped_pointer (kind : string) (p : ptr) :
  capsule_pointer (wrap_pointer kind p) = Some p.
Proof.
  unfold wrap_pointer, capsule_pointer.
  destruct (Nat.eqb_spec p NULL) as [-> | _]; reflexivity.
Qed.

(** What the host's add primitive is given, when it is called at all. *)
Lemma add_func_call (py : host) (libvirt_dict : pyobj) (obj : option pyobj)
    (invoker : string) (cb_obj : pyobj) (ids : list pyobj) (opaque ff : ptr)
    (added : add_result) (f : pyobj) (args : list pyobj) :
  add_func py libvirt_dict obj invoker cb_obj ids opaque ff = Some added ->
  called added = [(f, args)] ->
  obj = Some f /\
  registration args
  = PyTuple [cb_obj; libvirt_virVoidPtrWrap opaque; libvirt_virFreeCallbackWrap ff] /\
  exists python_cb,
    fst (libvirt_lookupPythonFunc libvirt_dict invoker) = Some python_cb /\
    args = (ids ++ [python_cb;
                    PyTuple [cb_obj; libvirt_virVoidPtrWrap opaque;
                             libvirt_virFreeCallbackWrap ff]])%list.
Proof.
  unfold add_func. intros Hadd Hcalled.
  destruct (libvirt_lookupPythonFunc libvirt_dict invoker) as [[python_cb |] dbg].
  - destruct obj as [g |]; [| discriminate Hadd].
    assert (Hc : called added
                 = [(g, (ids ++ [python_cb;
                                 PyTuple [cb_obj; libvirt_virVoidPtrWrap opaque;
                                          libvirt_virFreeCallbackWrap ff]])%list)]).
    { destruct (py g _) as [result | e].
      - destruct (libvirt_intUnwrap result); inversion Hadd; reflexivity.
      - inversion Hadd; reflexivity. }
    rewrite Hc in Hcalled. inversion Hcalled; subst f args.
    split; [reflexivity |]. split.
    + unfold registration.
      change (ids ++ [python_cb;
                      PyTuple [cb_obj; libvirt_virVoidPtrWrap opaque;
                               libvirt_virFreeCallbackWrap ff]])%list
        with (ids ++ [python_cb] ++
                [PyTuple [cb_obj; libvirt_virVoidPtrWrap opaque;
                          libvirt_virFreeCallbackWrap ff]])%list.
      rewrite app_assoc, last_last. reflexivity.
    + exists python_cb. split; reflexivity.
  - inversion Hadd; subst added. discriminate Hcalled.
Qed.

Lemma remove_registered (py : host) (r : pyobj) (dbg : string) (id : Z)
    (cb_obj : pyobj) (opaque ff : ptr) :
  py r [libvirt_intWrap id]
  = Returned (PyTuple [cb_obj; libvirt_virVoidPtrWrap opaque;
                       libvirt_virFreeCallbackWrap ff]) ->
  exists log,
    remove_func py (Some r) dbg id = Some (0, log) /\
    releases log = (if Nat.eqb ff NULL then [] else [(ff, opaque)]).
Proof.
  intros Hret. unfold remove_func. rewrite Hret.
  unfold PyvirFreeCallback_Get, PyvirVoidPtr_Get,
    libvirt_virVoidPtrWrap, libvirt_virFreeCallbackWrap.
  rewrite !unwrap_wrapped_pointer.
  eexists. split; [reflexivity |].
  destruct (Nat.eqb ff NULL); reflexivity.
Qed.

(** X17. A handle from add to removal.  If libvirt_virEventAddHandleFunc
    called the host's add primitive, and the host's remove primitive,
    called with the watch that was returned, hands back the last argument
    the add primitive was given, then libvirt_virEventRemoveHandleFunc
    returns 0 and calls the release function exactly once on the opaque
    pointer of that registration (not at all when the release function is
    NULL); adding released nothing. *)
Theorem handle_added_then_removed_is_released_once :
  forall (py : host) (libvirt_dict : pyobj) (s : impl_state)
         (fd event : Z) (cb opaque ff : ptr)
         (added : add_result) (a r : pyobj) (args : list pyobj),
    libvirt_virEventAddHandleFunc py libvirt_dict s fd event cb opaque ff = Some added ->
    called added = [(a, args)] ->
    removeHandleObj s = Some r ->
    py r [libvirt_intWrap (retval added)] = Returned (registration args) ->
    exists log,
      libvirt_virEventRemoveHandleFunc py s (retval added) = Some (0, log) /\
      releases log = (if Nat.eqb ff NULL then [] else [(ff, opaque)]) /\
      releases (trace added) = [].
Proof.
  intros py libvirt_dict s fd event cb opaque ff added a r args Hadd Hcalled Hr Hret.
  unfold libvirt_virEventAddHandleFunc in Hadd.
  destruct (add_func_call _ _ _ _ _ _ _ _ _ _ _ Hadd Hcalled) as (_ & Hreg & _).
  rewrite Hreg in Hret.
  unfold libvirt_virEventRemoveHandleFunc. rewrite Hr.
  destruct (remove_registered py r
              ("libvirt_virEventRemoveHandleFunc: "
                 ++ NAME (removeHandleName s) "removeHandle"
                 ++ " must return opaque obj registered with "
                 ++ NAME (addHandleName s) "addHandle"
                 ++ "to avoid leaking libvirt memory")
              _ _ _ _ Hret) as (log & Hrun & Hrel).
  exists log. split; [exact Hrun |]. split; [exact Hrel |].
  unfold add_func in Hadd.
  destruct (libvirt_lookupPythonFunc libvirt_dict "_eventInvokeHandleCallback")
    as [[python_cb |] dbg].
  - destruct (addHandleObj s) as [g |]; [| discriminate Hadd].
    destruct (py g _) as [result | e].
    + destruct (libvirt_intUnwrap result); inversion Hadd; reflexivity.
    + inversion Hadd; reflexivity.
  - inversion Hadd; subst added. discriminate Hcalled.
Qed.

(** X18. A timeout from add to removal: as for handles, with
    libvirt_virEventAddTimeoutFunc and libvirt_virEventRemoveTimeoutFunc. *)
Theorem timeout_added_then_removed_is_released_once :
  forall (py : host) (libvirt_dict : pyobj) (s : impl_state)
         (timeout : Z) (cb opaque ff : ptr)
         (added : add_result) (a r : pyobj) (args : list pyobj),
    libvirt_virEventAddTimeoutFunc py libvirt_dict s timeout cb opaque ff = Some added ->
    called added = [(a, args)] ->
    removeTimeoutObj s = Some r ->
    py r [libvirt_intWrap (retval added)] = Returned (registration args) ->
    exists log,
      libvirt_virEventRemoveTimeoutFunc py s (retval added) = Some (0, log) /\
      releases log = (if Nat.eqb ff NULL then [] else [(ff, opaque)]) /\
      releases (trace added) = [].
Proof.
  intros py libvirt_dict s timeout cb opaque ff added a r args Hadd Hcalled Hr Hret.
  unfold libvirt_virEventAddTimeoutFunc in Hadd.
  destruct (add_func_call _ _ _ _ _ _ _ _ _ _ _ Hadd Hcalled) as (_ & Hreg & _).
  rewrite Hreg in Hret.
  unfold libvirt_virEventRemoveTimeoutFunc. rewrite Hr.
  destruct (remove_registered py r
              ("libvirt_virEventRemoveTimeoutFunc: "
                 ++ NAME (removeTimeoutName s) "removeTimeout"
                 ++ " must return opaque obj registered with "
                 ++ NAME (addTimeoutName s) "addTimeout"
                 ++ "to avoid leaking libvirt memory")
              _ _ _ _ Hret) as (log & Hrun & Hrel).
  exists log. split; [exact Hrun |]. split; [exact Hrel |].
  unfold add_func in Hadd.
  destruct (libvirt_lookupPythonFunc libvirt_dict "_eventInvokeTimeoutCallback")
    as [[python_cb |] dbg].
  - destruct (addTimeoutObj s) as [g |]; [| discriminate Hadd].
    destruct (py g _) as [result | e].
    + destruct (libvirt_intUnwrap result); inversion Hadd; reflexivity.
    + inversion Hadd; reflexivity.
  - inversion Hadd; subst added. discriminate Hcalled.
Qed.

Lemma PyArg_int_in_range (v : Z) :
  INT_MIN <= v <= INT_MAX -> PyArg_int (PyLong v) = Ok v.
Proof.
  intros Hv. unfold PyArg_int. cbn [int_value].
  destruct (Z.ltb_spec v INT_MIN); [lia |].
  destruct (Z.ltb_spec INT_MAX v); [lia | reflexivity].
Qed.

(** X19. The tuple libvirt_virEventAddHandleFunc gives to the host's add
    primitive holds the capsules of the callback and of the opaque
    pointer as its first two items; libvirt_virEventInvokeHandleCallback,
    called with a watch, a descriptor, an event mask and these two
    capsules, returns 0 and calls that callback exactly once, with these
    numbers and that opaque pointer (not at all when the callback is
    NULL). *)
Theorem invoke_fires_the_handle_callback_that_was_added :
  forall (py : host) (libvirt_dict : pyobj) (s : impl_state)
         (fd0 event0 : Z) (cb opaque ff : ptr)
         (added : add_result) (a : pyobj) (args : list pyobj)
         (watch fd events : Z),
    libvirt_virEventAddHandleFunc py libvirt_dict s fd0 event0 cb opaque ff
    = Some added ->
    called added = [(a, args)] ->
    INT_MIN <= watch <= INT_MAX ->
    INT_MIN <= fd <= INT_MAX ->
    INT_MIN <= events <= INT_MAX ->
    exists cb_obj opaque_obj ff_obj,
      registration args = PyTuple [cb_obj; opaque_obj; ff_obj] /\
      libvirt_virEventInvokeHandleCallback
        (PyTuple [PyLong watch; PyLong fd; PyLong events; cb_obj; opaque_obj])
      = Some (mkInvoke VIR_PY_INT_SUCCESS None
                (if Nat.eqb cb NULL then []
                 else [HandleCallback cb watch fd events opaque])).
Proof.
  intros py libvirt_dict s fd0 event0 cb opaque ff added a args watch fd events
         Hadd Hcalled Hw Hfd Hev.
  unfold libvirt_virEventAddHandleFunc in Hadd.
  destruct (add_func_call _ _ _ _ _ _ _ _ _ _ _ Hadd Hcalled) as (_ & Hreg & _).
  do 3 eexists. split; [exact Hreg |].
  unfold libvirt_virEventInvokeHandleCallback.
  rewrite !PyArg_int_in_range by assumption. cbn [bind].
  unfold PyvirEventHandleCallback_Get, PyvirVoidPtr_Get,
    libvirt_virEventHandleCallbackWrap, libvirt_virVoidPtrWrap.
  rewrite !unwrap_wrapped_pointer. reflexivity.
Qed.

(** X20. As X19 for timeouts: libvirt_virEventInvokeTimeoutCallback,
    called with a timer and the capsules that
    libvirt_virEventAddTimeoutFunc gave to the host, returns 0 and calls
    the callback that was added exactly once, with that timer and the
    opaque pointer that was added. *)
Theorem invoke_fires_the_timeout_callback_that_was_added :
  forall (py : host) (libvirt_dict : pyobj) (s : impl_state)
         (timeout0 : Z) (cb opaque ff : ptr)
         (added : add_result) (a : pyobj) (args : list pyobj) (timer : Z),
    libvirt_virEventAddTimeoutFunc py libvirt_dict s timeout0 cb opaque ff
    = Some added ->
    called added = [(a, args)] ->
    INT_MIN <= timer <= INT_MAX ->
    exists cb_obj opaque_obj ff_obj,
      registration args = PyTuple [cb_obj; opaque_obj; ff_obj] /\
      libvirt_virEventInvokeTimeoutCallback (PyTuple [PyLong timer; cb_obj; opaque_obj])
      = Some (mkInvoke VIR_PY_INT_SUCCESS None
                (if Nat.eqb cb NULL then []
                 else [TimeoutCallback cb timer opaque])).
Proof.
  intros py libvirt_dict s timeout0 cb opaque ff added a args timer
         Hadd Hcalled Ht.
  unfold libvirt_virEventAddTimeoutFunc in Hadd.
  destruct (add_func_call _ _ _ _ _ _ _ _ _ _ _ Hadd Hcalled) as (_ & Hreg & _).
  do 3 eexists. split; [exact Hreg |].
  unfold libvirt_virEventInvokeTimeoutCallback.
  rewrite PyArg_int_in_range by assumption.
  unfold PyvirEventTimeoutCallback_Get, PyvirVoidPtr_Get,
    libvirt_virEventTimeoutCallbackWrap, libvirt_virVoidPtrWrap.
  rewrite !unwrap_wrapped_pointer. reflexivity.
Qed.

(** X16. libvirt_virEventAddHandleFunc with an add primitive registered.
    When the libvirt module has no callable _eventInvokeHandleCallback,
    it returns -1 without calling the primitive and without printing
    anything.  Otherwise the primitive is called once with
    (fd, event, invoker, (callback capsule, opaque capsule, release
    capsule)): if it raises, the exception is printed and -1 returned; if
    it returns an integer within int, that integer is returned; if it
    returns anything else, -1 is returned and the exception of the failed
    conversion is left set, neither printed nor cleared. *)
Theorem add_handle_outcome :
  forall (py : host) (libvirt_dict : pyobj) (s : impl_state) (a : pyobj)
         (fd event : Z) (cb opaque ff : ptr),
    addHandleObj s = Some a ->
    let r := libvirt_virEventAddHandleFunc py libvirt_dict s fd event cb opaque ff in
    let invoker := fst (libvirt_lookupPythonFunc libvirt_dict
                          "_eventInvokeHandleCallback") in
    (invoker = None ->
     exists log, r = Some (mkAdd (-1) log None []) /\ logged log = false) /\
    (forall python_cb,
        invoker = Some python_cb ->
        let args := [libvirt_intWrap fd; libvirt_intWrap event; python_cb;
                     PyTuple [libvirt_virEventHandleCallbackWrap cb;
                              libvirt_virVoidPtrWrap opaque;
                              libvirt_virFreeCallbackWrap ff]] in
        (forall e,
            py a args = Raised e ->
            exists log, r = Some (mkAdd (-1) log None [(a, args)]) /\
                        In (ErrPrint e) log) /\
        (forall v,
            py a args = Returned (PyLong v) -> INT_MIN <= v <= INT_MAX ->
            exists log, r = Some (mkAdd v log None [(a, args)]) /\
                        logged log = false) /\
        (forall result e,
            py a args = Returned result ->
            libvirt_intUnwrap result = Raise e ->
            exists log, r = Some (mkAdd (-1) log (Some e) [(a, args)]) /\
                        logged log = false)).
Proof.
  intros py libvirt_dict s a fd event cb opaque ff Ha. cbv zeta.
  unfold libvirt_virEventAddHandleFunc, add_func. rewrite Ha.
  destruct (libvirt_lookupPythonFunc libvirt_dict "_eventInvokeHandleCallback")
    as [[python_cb |] dbg] eqn:Hlook; cbn [fst].
  - split; [discriminate |].
    intros python_cb' Heq. inversion Heq; subst python_cb'. cbn [app].
    split; [| split].
    + intros e Hpy. rewrite Hpy. eexists. split; [reflexivity |].
      right. left. reflexivity.
    + intros v Hpy Hv. rewrite Hpy.
      unfold libvirt_intUnwrap, PyLong_AsLong, in_range. cbn [int_value bind].
      assert (HL : (LONG_MIN <=? v) && (v <=? LONG_MAX) = true).
      { apply andb_true_intro. unfold LONG_MIN, LONG_MAX, INT_MIN, INT_MAX in *.
        split; apply Z.leb_le; lia. }
      assert (HI : (INT_MIN <=? v) && (v <=? INT_MAX) = true).
      { apply andb_true_intro. split; apply Z.leb_le; lia. }
      rewrite HL. cbn [bind]. rewrite HI.
      eexists. split; reflexivity.
    + intros result e Hpy Hun. rewrite Hpy, Hun.
      eexists. split; reflexivity.
  - split; [| discriminate].
    intros _. eexists. split; [reflexivity |].
    unfold libvirt_lookupPythonFunc in Hlook.
    destruct (PyDict_GetItem libvirt_dict (PyStr "_eventInvokeHandleCallback"))
      as [f |].
    + destruct (PyCallable_Check f); inversion Hlook; reflexivity.
    + inversion Hlook; reflexivity.
Qed.

Lemma bracketed_intro (mid : list effect) :
  forallb (fun ev => negb (is_bracket ev)) mid = true ->
  bracketed (EnsureThreadState :: mid ++ [ReleaseThreadState]).
Proof. intros Hmid. exists mid. split; [reflexivity | exact Hmid]. Qed.

Lemma lookup_debug_quiet (libvirt_dict : pyobj) (funcname : string) :
  snd (libvirt_lookupPythonFunc libvirt_dict funcname) = [].
Proof.
  unfold libvirt_lookupPythonFunc.
  destruct (PyDict_GetItem libvirt_dict (PyStr funcname)) as [f |]; [| reflexivity].
  destruct (PyCallable_Check f); reflexivity.
Qed.

Lemma add_func_bracketed (py : host) (libvirt_dict : pyobj) (obj : option pyobj)
    (invoker : string) (cb_obj : pyobj) (ids : list pyobj) (opaque ff : ptr)
    (added : add_result) :
  add_func py libvirt_dict obj invoker cb_obj ids opaque ff = Some added ->
  bracketed (trace added).
Proof.
  unfold add_func. intros Hadd.
  pose proof (lookup_debug_quiet libvirt_dict invoker) as Hq.
  destruct (libvirt_lookupPythonFunc libvirt_dict invoker) as [[python_cb |] dbg].
  - destruct obj as [g |]; [| discriminate Hadd].
    destruct (py g _) as [result | e].
    + destruct (libvirt_intUnwrap result); inversion Hadd;
        apply (bracketed_intro []); reflexivity.
    + inversion Hadd. apply (bracketed_intro [ErrPrint e]). reflexivity.
  - cbn [snd] in Hq. subst dbg. inversion Hadd.
    apply (bracketed_intro []). reflexivity.
Qed.

Lemma update_func_bracketed (py : host) (obj : option pyobj) (id arg : Z)
    (log : list effect) (c : list (pyobj * list pyobj)) :
  update_func py obj id arg = Some (log, c) -> bracketed log.
Proof.
  unfold update_func. destruct obj as [f |]; [| discriminate].
  destruct (py f _) as [v | e]; intros Hrun; inversion Hrun.
  - apply (bracketed_intro []). reflexivity.
  - apply (bracketed_intro [ErrPrint e]). reflexivity.
Qed.

Lemma remove_func_bracketed (py : host) (obj : option pyobj) (dbg : string) (id : Z)
    (rv : Z) (log : list effect) :
  remove_func py obj dbg id = Some (rv, log) -> bracketed log.
Proof.
  unfold remove_func. destruct obj as [f |]; [| discriminate].
  destruct (py f _) as [result | e].
  - destruct result as [| | | | | | l | | | |];
      try (intros Hrun; inversion Hrun; apply (bracketed_intro []); reflexivity).
    destruct l as [| x [| o [| f' [| y rest]]]];
      try (intros Hrun; inversion Hrun; apply (bracketed_intro []); reflexivity).
    destruct (PyvirFreeCallback_Get f') as [cff |]; [| discriminate].
    destruct (PyvirVoidPtr_Get o) as [op |].
    + intros Hrun. inversion Hrun.
      destruct (Nat.eqb cff NULL);
        [apply (bracketed_intro []) | apply (bracketed_intro [FreeCallback cff op])];
        reflexivity.
    + destruct (Nat.eqb cff NULL); [| discriminate].
      intros Hrun. inversion Hrun. apply (bracketed_intro []). reflexivity.
  - intros Hrun. inversion Hrun. apply (bracketed_intro [ErrPrint e]). reflexivity.
Qed.

Lemma fire_func_bracketed (py : host) (libvirt_dict : pyobj) (fn name : string)
    (ids : list pyobj) (cbData : pyobj) :
  bracketed (fst (fire_func py libvirt_dict fn name ids cbData)).
Proof.
  unfold fire_func.
  pose proof (lookup_debug_quiet libvirt_dict name) as Hq.
  destruct (libvirt_lookupPythonFunc libvirt_dict name) as [[python_cb |] dbg].
  - destruct (py python_cb _) as [v | e]; cbn [fst].
    + apply (bracketed_intro []). reflexivity.
    + apply (bracketed_intro [ErrPrint e]). reflexivity.
  - cbn [snd] in Hq. subst dbg. apply (bracketed_intro []). reflexivity.
Qed.

Lemma dispatch_bracketed (py : method_host) (fn method : string) (dom : ptr)
    (extra : list pyobj) (opaque : pyobj) :
  bracketed (snd (dispatch_domain_event py fn method dom extra opaque)).
Proof.
  unfold dispatch_domain_event.
  destruct (PyObject_CallMethod py _ method _) as [v | e]; cbn [snd].
  - apply (bracketed_intro [DomainRef dom]). reflexivity.
  - apply (bracketed_intro [DomainRef dom; ErrPrint e]). reflexivity.
Qed.

(** X21. Every function through which libvirt enters the interpreter
    takes the thread state first, releases it last and does neither in
    between, on every path, also when it returns early or the host
    raises: the add, update and remove functions for handles and
    timeouts, the two callbacks that fire a handle or timeout added from
    the host, and the domain event callbacks. *)
Theorem bridge_crossings_are_bracketed :
  (forall py libvirt_dict s fd event cb opaque ff added,
      libvirt_virEventAddHandleFunc py libvirt_dict s fd event cb opaque ff
      = Some added -> bracketed (trace added)) /\
  (forall py libvirt_dict s timeout cb opaque ff added,
      libvirt_virEventAddTimeoutFunc py libvirt_dict s timeout cb opaque ff
      = Some added -> bracketed (trace added)) /\
  (forall py s watch event log c,
      libvirt_virEventUpdateHandleFunc py s watch event = Some (log, c) ->
      bracketed log) /\
  (forall py s timer timeout log c,
      libvirt_virEventUpdateTimeoutFunc py s timer timeout = Some (log, c) ->
      bracketed log) /\
  (forall py s watch rv log,
      libvirt_virEventRemoveHandleFunc py s watch = Some (rv, log) ->
      bracketed log) /\
  (forall py s timer rv log,
      libvirt_virEventRemoveTimeoutFunc py s timer = Some (rv, log) ->
      bracketed log) /\
  (forall py libvirt_dict watch fd events opaque,
      bracketed (fst (libvirt_virEventHandleCallback py libvirt_dict watch fd events
                        opaque))) /\
  (forall py libvirt_dict timer opaque,
      bracketed (fst (libvirt_virEventTimeoutCallback py libvirt_dict timer opaque))) /\
  (forall py dom event detail opaque,
      bracketed (snd (libvirt_virConnectDomainEventLifecycleCallback py dom event
                        detail opaque))) /\
  (forall py dom event detail opaque,
      bracketed (snd (libvirt_virConnectDomainEventCallback py dom event detail
                        opaque))) /\
  (forall py dom opaque,
      bracketed (snd (libvirt_virConnectDomainEventGenericCallback py dom opaque))) /\
  (forall py dom utcoffset opaque,
      bracketed (snd (libvirt_virConnectDomainEventRTCChangeCallback py dom utcoffset
                        opaque))) /\
  (forall py dom action opaque,
      bracketed (snd (libvirt_virConnectDomainEventWatchdogCallback py dom action
                        opaque))).
Proof.
  repeat match goal with |- _ /\ _ => split end.
  - intros. eapply add_func_bracketed. eassumption.
  - intros. eapply add_func_bracketed. eassumption.
  - intros. eapply update_func_bracketed. eassumption.
  - intros. eapply update_func_bracketed. eassumption.
  - intros. eapply remove_func_bracketed. eassumption.
  - intros. eapply remove_func_bracketed. eassumption.
  - intros. apply fire_func_bracketed.
  - intros. apply fire_func_bracketed.
  - intros. unfold libvirt_virConnectDomainEventLifecycleCallback.
    destruct (PyObject_CallMethod py _ _ _) as [v | e]; cbn [snd].
    + apply (bracketed_intro [DomainRef dom]). reflexivity.
    + apply (bracketed_intro [DomainRef dom; ErrPrint e]). reflexivity.
  - intros. unfold libvirt_virConnectDomainEventCallback.
    destruct (PyObject_CallMethod py _ _ _) as [v | e]; cbn [snd].
    + apply (bracketed_intro [DomainRef dom]). reflexivity.
    + apply (bracketed_intro [DomainRef dom; ErrPrint e]). reflexivity.
  - intros. apply dispatch_bracketed.
  - intros. apply dispatch_bracketed.
  - intros. apply dispatch_bracketed.
Qed.

(* ------------------------------------------------------------------ *)
(** * The statements above on concrete inputs *)

Lemma emulator_pin_round_trip_witness :
  outcome (libvirt_virDomainGetEmulatorPinInfo
             (after (libvirt_virDomainPinEmulator quad_domain
                       (PyTuple [PyNone; PyTuple three_flags; PyLong 0]) empty_heap))
             (PyTuple [PyNone; PyLong 0]) empty_heap)
  = Ok (PyTuple [PyBool true; PyBool false; PyBool true; PyBool false]).
Proof.
  apply (emulator_pin_round_trip quad_domain PyNone PyNone (PyLong 0) (PyLong 0)
           three_flags empty_heap empty_heap);
    [reflexivity | vm_compute; lia | reflexivity].
Defined.

Lemma pin_vcpu_builds_map_and_releases_it_witness :
  let r := libvirt_virDomainPinVcpu quad_domain
             (PyTuple [PyNone; PyLong 0; PyTuple three_flags]) empty_heap in
  exists cpumap,
    native r = [PinVcpu 0 cpumap 1] /\
    Z.of_nat (List.length cpumap) = 1 /\
    (forall j, bit_of cpumap j
               = Nat.ltb j 3 && flag_value (nth j three_flags PyNone)) /\
    outcome r = Ok (if pin_code quad_domain cpumap <? 0 then VIR_PY_INT_FAIL
                    else VIR_PY_INT_SUCCESS) /\
    live (memory r) = [] /\
    faults (memory r) = [].
Proof.
  apply (pin_vcpu_builds_map_and_releases_it quad_domain PyNone 0 three_flags
           empty_heap);
    [empty_heap_ok | vm_compute; discriminate | vm_compute; split; discriminate
     | vm_compute; lia].
Defined.

Lemma pin_vcpu_overlong_tuple_overruns_map_witness :
  exists rest,
    faults (memory (libvirt_virDomainPinVcpu quad_domain
                      (PyTuple [PyNone; PyLong 0; PyTuple nine_flags]) empty_heap))
    = ([] ++ OutOfBounds 1%nat 1%nat :: rest)%list.
Proof.
  apply (pin_vcpu_overlong_tuple_overruns_map quad_domain PyNone 0 nine_flags
           empty_heap);
    [empty_heap_ok | vm_compute; discriminate | vm_compute; split; discriminate
     | vm_compute; lia].
Defined.

Lemma handle_added_then_removed_is_released_once_witness :
  exists log,
    libvirt_virEventRemoveHandleFunc loop_host registered 7 = Some (0, log) /\
    releases log = [(600%nat, 500%nat)] /\
    releases (trace handle_added) = [].
Proof.
  apply (handle_added_then_removed_is_released_once loop_host module_dict registered
           9 1 400%nat 500%nat 600%nat handle_added (PyFunc 1) (PyFunc 3)
           handle_args);
    reflexivity.
Defined.

Lemma timeout_added_then_removed_is_released_once_witness :
  exists log,
    libvirt_virEventRemoveTimeoutFunc loop_host registered 8 = Some (0, log) /\
    releases log = [(600%nat, 500%nat)] /\
    releases (trace timeout_added) = [].
Proof.
  apply (timeout_added_then_removed_is_released_once loop_host module_dict registered
           250 400%nat 500%nat 600%nat timeout_added (PyFunc 4) (PyFunc 6)
           timeout_args);
    reflexivity.
Defined.

Lemma invoke_fires_the_handle_callback_that_was_added_witness :
  exists cb_obj opaque_obj ff_obj,
    registration handle_args = PyTuple [cb_obj; opaque_obj; ff_obj] /\
    libvirt_virEventInvokeHandleCallback
      (PyTuple [PyLong 7; PyLong 9; PyLong 1; cb_obj; opaque_obj])
    = Some (mkInvoke VIR_PY_INT_SUCCESS None [HandleCallback 400%nat 7 9 1 500%nat]).
Proof.
  apply (invoke_fires_the_handle_callback_that_was_added loop_host module_dict
           registered 9 1 400%nat 500%nat 600%nat handle_added (PyFunc 1)
           handle_args 7 9 1);
    try (vm_compute; split; discriminate); reflexivity.
Defined.

Lemma invoke_fires_the_timeout_callback_that_was_added_witness :
  exists cb_obj opaque_obj ff_obj,
    registration timeout_args = PyTuple [cb_obj; opaque_obj; ff_obj] /\
    libvirt_virEventInvokeTimeoutCallback (PyTuple [PyLong 8; cb_obj; opaque_obj])
    = Some (mkInvoke VIR_PY_INT_SUCCESS None [TimeoutCallback 400%nat 8 500%nat]).
Proof.
  apply (invoke_fires_the_timeout_callback_that_was_added loop_host module_dict
           registered 250 400%nat 500%nat 600%nat timeout_added (PyFunc 4)
           timeout_args 8);
    try (vm_compute; split; discriminate); reflexivity.
Defined.

Lemma add_handle_outcome_witness :
  let r := libvirt_virEventAddHandleFunc loop_host module_dict registered 9 1
             400%nat 500%nat 600%nat in
  let invoker := fst (libvirt_lookupPythonFunc module_dict
                        "_eventInvokeHandleCallback") in
  (invoker = None ->
   exists log, r = Some (mkAdd (-1) log None []) /\ logged log = false) /\
  (forall python_cb,
      invoker = Some python_cb ->
      let args := [libvirt_intWrap 9; libvirt_intWrap 1; python_cb;
                   PyTuple [libvirt_virEventHandleCallbackWrap 400%nat;
                            libvirt_virVoidPtrWrap 500%nat;
                            libvirt_virFreeCallbackWrap 600%nat]] in
      (forall e,
          loop_host (PyFunc 1) args = Raised e ->
          exists log, r = Some (mkAdd (-1) log None [(PyFunc 1, args)]) /\
                      In (ErrPrint e) log) /\
      (forall v,
          loop_host (PyFunc 1) args = Returned (PyLong v) -> INT_MIN <= v <= INT_MAX ->
          exists log, r = Some (mkAdd v log None [(PyFunc 1, args)]) /\
                      logged log = false) /\
      (forall result e,
          loop_host (PyFunc 1) args = Returned result ->
          libvirt_intUnwrap result = Raise e ->
          exists log, r = Some (mkAdd (-1) log (Some e) [(PyFunc 1, args)]) /\
                      logged log = false)).
Proof.
  apply (add_handle_outcome loop_host module_dict registered (PyFunc 1) 9 1
           400%nat 500%nat 600%nat).
  reflexivity.
Defined.

Lemma getter_returns_parameters_and_releases_array_witness :
  let r := libvirt_virDomainGetSchedulerParameters two_param_domain
             (PyTuple [PyNone]) empty_heap in
  result r = Ok (PyDict (items_of two_params)) /\
  live (final r) = [] /\
  faults (final r) = [] /\
  forallb freed_with_own_length (calls r) = true.
Proof.
  apply (getter_returns_parameters_and_releases_array two_param_domain PyNone
           empty_heap "posix" two_params); [empty_heap_ok |].
  unfold reports. split; [reflexivity |]. split; [reflexivity |].
  split; [repeat constructor |].
  split; [repeat constructor; cbn; intuition discriminate |].
  repeat constructor.
Defined.

Lemma getter_releases_array_on_every_path_witness :
  let r := libvirt_virDomainGetSchedulerParameters two_param_domain
             (PyTuple [PyNone]) empty_heap in
  live (final r) = [] /\
  faults (final r) = [] /\
  forallb freed_with_own_length (calls r) = true /\
  (sched_type two_param_domain = None ->
   result r = Ok VIR_PY_NONE /\ final r = empty_heap) /\
  (forall nm, sched_type two_param_domain = Some (nm, 0) -> result r = Ok (PyDict [])) /\
  (forall nm k, sched_type two_param_domain = Some (nm, k) -> k <> 0 ->
                sched_params two_param_domain = None -> result r = Ok VIR_PY_NONE).
Proof.
  apply (getter_releases_array_on_every_path two_param_domain PyNone empty_heap);
    [empty_heap_ok |].
  unfold domain_ok. cbn. split; [lia |]. split; [reflexivity | repeat constructor].
Defined.

Lemma parameters_read_then_written_reach_libvirt_unchanged_witness :
  exists info arr,
    result (libvirt_virDomainGetSchedulerParameters two_param_domain
              (PyTuple [PyNone]) empty_heap) = Ok info /\
    let r := libvirt_virDomainSetSchedulerParameters two_param_domain
               (PyTuple [PyNone; info]) empty_heap in
    was_set r arr 2 /\
    Forall2 same_entry two_params (elems arr) /\
    result r = (if set_result two_param_domain (elems arr) 2 <? 0
                then Ok VIR_PY_INT_FAIL else Ok VIR_PY_INT_SUCCESS).
Proof.
  apply (parameters_read_then_written_reach_libvirt_unchanged two_param_domain
           PyNone PyNone empty_heap empty_heap "posix" two_params);
    [empty_heap_ok | empty_heap_ok | | discriminate].
  unfold reports. split; [reflexivity |]. split; [reflexivity |].
  split; [repeat constructor |].
  split; [repeat constructor; cbn; intuition discriminate |].
  repeat constructor.
Defined.

Lemma typed_param_one_appends_or_leaves_unchanged_witness :
  let r := virPyDictToTypedParamOne (mkBuilder [] 0 0) [] "offset" (PyLong (-5)) None
             empty_heap in
  heap_ok empty_heap /\ hints_ok [] /\
  rv r = 0 /\
  raised r = Some (overflow "can't convert negative int to unsigned") /\
  exists t v,
    spec_kind [] "offset" (PyLong (-5)) = Some t /\
    entries (params' r) = ([] ++ [mkParam "offset" t v])%list /\
    n (params' r) = 0 + 1 /\
    live (heap' r) = (string_addrs [mkParam "offset" t v] ++ [])%list /\
    faults (heap' r) = [].
Proof.
  assert (Hok : heap_ok empty_heap) by empty_heap_ok.
  assert (Hh : hints_ok []) by constructor.
  split; [exact Hok |]. split; [exact Hh |]. split; [reflexivity |].
  apply (proj1 (proj2 (typed_param_one_appends_or_leaves_unchanged
                         (mkBuilder [] 0 0) [] "offset" (PyLong (-5)) None
                         empty_heap Hok Hh))).
  reflexivity.
Defined.

Lemma dict_to_params_names_every_value_witness :
  let r := virPyDictToTypedParams migrate_params [] None empty_heap in
  map name_and_kind (ret_params r)
  = [("bandwidth", VIR_TYPED_PARAM_ULLONG);
     ("migrate_disks", VIR_TYPED_PARAM_STRING);
     ("migrate_disks", VIR_TYPED_PARAM_STRING)] /\
  ret_nparams r = Z.of_nat (List.length (ret_params r)) /\
  live (heap_after r) = (rev (string_addrs (ret_params r)) ++ [])%list /\
  faults (heap_after r) = [].
Proof.
  apply (dict_to_params_names_every_value migrate_params [] None empty_heap);
    [empty_heap_ok | constructor | reflexivity].
Defined.

Lemma dict_to_params_failure_hands_back_nothing_witness :
  let r := virPyDictToTypedParams negative_then_largest [] None empty_heap in
  ret r = -1 /\ ret_params r = [] /\ ret_nparams r = 0 /\
  live (heap_after r) = [] /\ faults (heap_after r) = [].
Proof.
  apply (dict_to_params_failure_hands_back_nothing negative_then_largest [] None
           empty_heap);
    [empty_heap_ok | constructor | vm_compute; discriminate].
Defined.

Lemma registration_keeps_slots_owned_witness :
  let s' := snd (libvirt_virEventRegisterImpl six_callables initial_state) in
  owns_slots s' /\
  held (refs s') = rev [PyFunc 1; PyFunc 2; PyFunc 3; PyFunc 4; PyFunc 5; PyFunc 6] /\
  slot_objects s' = [PyFunc 1; PyFunc 2; PyFunc 3; PyFunc 4; PyFunc 5; PyFunc 6].
Proof.
  apply (registration_keeps_slots_owned six_callables initial_state
           [PyFunc 1; PyFunc 2; PyFunc 3; PyFunc 4; PyFunc 5; PyFunc 6]);
    [| reflexivity].
  unfold owns_slots. cbn. split; [constructor |]. split; [reflexivity | constructor].
Defined.

Lemma decode_lookup_gives_last_entry_witness :
  PyDict_GetItem (PyDict [(PyStr "weight", PyLong 2)]) (PyStr "weight")
  = option_map decode_entry (last_named twice_named "weight").
Proof.
  apply (decode_lookup_gives_last_entry twice_named
           (PyDict [(PyStr "weight", PyLong 2)])).
  reflexivity.
Defined.

Lemma setter_releases_both_arrays_witness :
  let r := libvirt_virDomainSetSchedulerParameters two_param_domain
             (PyTuple [PyNone; one_override]) empty_heap in
  result r <> Undef /\
  live (final r) = [] /\
  faults (final r) = [] /\
  forallb freed_with_own_length (calls r) = true.
Proof.
  apply (setter_releases_both_arrays two_param_domain PyNone one_override empty_heap);
    [empty_heap_ok |].
  unfold domain_ok. cbn. split; [lia |]. split; [reflexivity | repeat constructor].
Defined.

Lemma select_type_follows_precedence_witness :
  fst (select_type [] "offset" (PyLong (-5)) None) = VIR_TYPED_PARAM_LLONG /\
  snd (select_type [] "offset" (PyLong (-5)) None)
  = Some (overflow "can't convert negative int to unsigned").
Proof.
  apply (select_type_follows_precedence [] "offset" (PyLong (-5)) None);
    [constructor |].
  intros v Hv. inversion Hv. left. reflexivity.
Defined.
